(** * Tempo tracker CLI: session bookkeeping, timers, sync and daemon probe

    A shallow embedding of [src/commands.ts] (the in-process tracking
    commands and their timers), of [isDaemonRunning] from
    [src/daemon/client.ts], and of the parts of the configuration store
    they call.  Asynchronous functions are written in a state-and-exception
    monad over a [World] that holds the persisted configuration, the
    module-level timer variables and a trace of the requests sent to the
    remote services; every answer of the outside world (clock readings,
    git, the daemon, the user at a prompt, the Tempo API) is an explicit
    argument. *)

From Stdlib Require Import ZArith List String Ascii Bool Lia Sorted.
From Stdlib Require Import Permutation.
Import ListNotations.

Local Open Scope string_scope.
Local Open Scope Z_scope.

(** ** JavaScript values *)

(** An issue id is declared [number], but the sync prompt stores the text
    the user typed, so a stored activity carries either. *)
Inductive JsId :=
| IdNum (n : Z)
| IdStr (s : string).

(** [!!v] for an optional string: [undefined] and the empty string are falsy. *)
Definition truthyStr (v : option string) : bool :=
  match v with
  | None => false
  | Some s => negb (s =? EmptyString)%string
  end.

(** [!!v] for an optional issue id: [undefined], [0] and the empty string are
    falsy. *)
Definition truthyId (v : option JsId) : bool :=
  match v with
  | None => false
  | Some (IdNum n) => negb (n =? 0)
  | Some (IdStr s) => negb (s =? EmptyString)%string
  end.

(** [Math.round (n / d)] for an integer [n] and a positive integer [d]:
    JavaScript rounds halves towards plus infinity. *)
Definition roundDiv (n d : Z) : Z := (2 * n + d) / (2 * d).

(** ** Dates

    A [Date] is its time value, the milliseconds since the epoch.  The
    store keeps timestamps as [toISOString] text; the model keeps the time
    value and prints it where the source looks at the text. *)
Module Date.

Definition msPerDay : Z := 86400000.

Fixpoint digits (width : nat) (n : Z) (acc : string) : string :=
  match width with
  | O => acc
  | S k =>
      digits k (n / 10)
        (String (ascii_of_nat (48 + Z.to_nat (n mod 10))) acc)
  end.

Definition pad (width : nat) (n : Z) : string := digits width n EmptyString.

(** Year, month and day of a day number counted from 1970-01-01
    (proleptic Gregorian calendar). *)
Definition civil (day : Z) : Z * Z * Z :=
  let z := day + 719468 in
  let era := z / 146097 in
  let doe := z - era * 146097 in
  let yoe := (doe - doe / 1460 + doe / 36524 - doe / 146096) / 365 in
  let doy := doe - (365 * yoe + yoe / 4 - yoe / 100) in
  let mp := (5 * doy + 2) / 153 in
  let d := doy - (153 * mp + 2) / 5 + 1 in
  let m := if mp <? 10 then mp + 3 else mp - 9 in
  let y := yoe + era * 400 + (if m <=? 2 then 1 else 0) in
  (y, m, d).

Definition year (y : Z) : string :=
  if (0 <=? y) && (y <=? 9999) then pad 4 y
  else if y <? 0 then "-" ++ pad 6 (- y)
  else "+" ++ pad 6 y.

Definition toISOString (t : Z) : string :=
  let '(y, m, d) := civil (t / msPerDay) in
  let ms := t mod msPerDay in
  year y ++ "-" ++ pad 2 m ++ "-" ++ pad 2 d ++ "T"
    ++ pad 2 (ms / 3600000) ++ ":" ++ pad 2 (ms / 60000 mod 60) ++ ":"
    ++ pad 2 (ms / 1000 mod 60) ++ "." ++ pad 3 (ms mod 1000) ++ "Z".

(** [s.split("T")[1]], the text after the first [T] up to the next one. *)
Fixpoint upToT (s : string) : string :=
  match s with
  | EmptyString => EmptyString
  | String c r => if (c =? "T")%char then EmptyString else String c (upToT r)
  end.

Fixpoint afterT (s : string) : string :=
  match s with
  | EmptyString => EmptyString
  | String c r => if (c =? "T")%char then upToT r else afterT r
  end.

(** [toISOString().split("T")[1].slice(0, 5)]: hours and minutes. *)
Definition hhmm (t : Z) : string := substring 0 5 (afterT (toISOString t)).

End Date.

(** ** The configuration store *)

(** The session being tracked ([config.activeTracking]). *)
Module ActiveTracking.
Record t := mk {
  branch : string;
  directory : string;
  startTime : Z;
  issueId : Z;
  description : option string }.
End ActiveTracking.

(** One closed segment of the activity log. *)
Module Activity.
Record t := mk {
  id : nat;
  branch : string;
  directory : string;
  startTime : Z;
  endTime : option Z;
  issueId : option JsId;
  description : option string;
  synced : bool }.

(** The partial record handed to [updateActivityLog]. *)
Record patch := mkPatch {
  newIssueId : option JsId;
  newSynced : option bool }.

Definition apply (p : patch) (a : t) : t :=
  mk (id a) (branch a) (directory a) (startTime a) (endTime a)
     (match newIssueId p with Some i => Some i | None => issueId a end)
     (description a)
     (match newSynced p with Some b => b | None => synced a end).
End Activity.

Record Config := mkConfig {
  apiKey : option string;
  jiraAccountId : option string;
  tempoBaseUrl : string;
  activeTracking : option ActiveTracking.t;
  activityLog : list Activity.t;
  nextId : nat }.

(** Modelled from the spec: [src/config.ts] is not among the sources, so
    the store operations the commands call ([updateConfig],
    [addActivityLog], [updateActivityLog]) follow the Activity Log Store
    of the specification: an append gives the new entry a unique id and
    [synced = false], an update rewrites the entry with the given id.  The
    counter [nextId] stands for the id generator. *)
Definition updateConfig (v : option ActiveTracking.t) (c : Config) : Config :=
  mkConfig (apiKey c) (jiraAccountId c) (tempoBaseUrl c) v
           (activityLog c) (nextId c).

Definition addActivityLog (branch directory : string) (startTime : Z)
    (endTime : option Z) (issueId : option JsId) (description : option string)
    (c : Config) : Config :=
  mkConfig (apiKey c) (jiraAccountId c) (tempoBaseUrl c) (activeTracking c)
    (activityLog c
       ++ [Activity.mk (nextId c) branch directory startTime endTime issueId
             description false])%list
    (S (nextId c)).

Definition updateActivityLog (id : nat) (p : Activity.patch) (c : Config)
    : Config :=
  mkConfig (apiKey c) (jiraAccountId c) (tempoBaseUrl c) (activeTracking c)
    (map (fun a => if Nat.eqb (Activity.id a) id then Activity.apply p a else a)
         (activityLog c))
    (nextId c).

(** The entry stored under an id. *)
Definition findActivity (id : nat) (l : list Activity.t) : option Activity.t :=
  find (fun a => Nat.eqb (Activity.id a) id) l.

(** ** The world: store, timers, requests sent *)

(** A pending [setTimeout]: the clock reading when it was armed and its
    delay.  The runtime runs the callback no earlier than [deadline]. *)
Record Timeout := mkTimeout {
  armedAt : Z;
  delay : Z }.


Record PulseRequest := mkPulse {
  pulseBranch : string;
  pulseIssueId : Z;
  pulseDescription : option string;
  pulseApiKey : option string;
  pulseBaseUrl : string }.

Record WorklogRequest := mkWorklog {
  worklogIssueId : option JsId;
  timeSpentSeconds : Z;
  startDate : string;
  worklogStartTime : string;
  worklogDescription : string;
  authorAccountId : option string }.

Inductive DaemonCall :=
| CallStart (description : option string) (issueId : option Z)
| CallStop
| CallSync (date : string).

(** A request that left the process, with whether it succeeded. *)
Inductive Effect :=
| Pulse (req : PulseRequest) (ok : bool)
| Worklog (activity : Activity.t) (req : WorklogRequest) (ok : bool)
| Daemon (call : DaemonCall) (ok : bool).

Record World := mkWorld {
  config : Config;
  activeCheckInterval : option Z;
  activePulseInterval : option Z;
  autoStopTimer : option Timeout;
  trace : list Effect }.

(** ** Asynchronous code: state and exceptions

    A thrown exception keeps the writes made before it. *)
Inductive Result (A : Type) :=
| Ok (a : A)
| Thrown (message : string).
Arguments Ok {A} a.
Arguments Thrown {A} message.

Definition M (A : Type) : Type := World -> Result A * World.

Definition ret {A} (a : A) : M A := fun w => (Ok a, w).

Definition throw {A} (message : string) : M A := fun w => (Thrown message, w).

Definition bind {A B} (c : M A) (k : A -> M B) : M B :=
  fun w =>
    match c w with
    | (Ok a, w') => k a w'
    | (Thrown e, w') => (Thrown e, w')
    end.

(** [try { c } catch (e) { h e }] *)
Definition tryCatch {A} (c : M A) (h : string -> M A) : M A :=
  fun w =>
    match c w with
    | (Ok a, w') => (Ok a, w')
    | (Thrown e, w') => h e w'
    end.

(** An awaited call whose outcome the environment decides. *)
Definition await {A} (r : Result A) : M A := fun w => (r, w).

Notation "x <- c ;; k" := (bind c (fun x => k))
  (at level 61, c at next level, right associativity).
Notation "c ;; k" := (bind c (fun _ => k))
  (at level 61, right associativity).

Definition getConfig : M Config := fun w => (Ok (config w), w).

Definition onConfig (f : Config -> Config) : M unit :=
  fun w =>
    (Ok tt, mkWorld (f (config w)) (activeCheckInterval w)
              (activePulseInterval w) (autoStopTimer w) (trace w)).

Definition setCheckInterval (h : option Z) : M unit :=
  fun w =>
    (Ok tt, mkWorld (config w) h (activePulseInterval w) (autoStopTimer w)
              (trace w)).

Definition setPulseInterval (h : option Z) : M unit :=
  fun w =>
    (Ok tt, mkWorld (config w) (activeCheckInterval w) h (autoStopTimer w)
              (trace w)).

Definition setAutoStopTimer (h : option Timeout) : M unit :=
  fun w =>
    (Ok tt, mkWorld (config w) (activeCheckInterval w) (activePulseInterval w)
              h (trace w)).

Definition emit (e : Effect) : M unit :=
  fun w =>
    (Ok tt, mkWorld (config w) (activeCheckInterval w) (activePulseInterval w)
              (autoStopTimer w) (trace w ++ [e])%list).


Definition isOk {A} (r : Result A) : bool :=
  match r with Ok _ => true | Thrown _ => false end.

Definition getWorld : M World := fun w => (Ok w, w).

(** ** Constants of [commands.ts] *)

(** Maximum tracking time in milliseconds (8 hours). *)
Definition MAX_TRACKING_TIME_MS : Z := 8 * 60 * 60 * 1000.

(** Pulse interval in milliseconds (5 minutes). *)
Definition PULSE_INTERVAL_MS : Z := 5 * 60 * 1000.

(** The period handed to [setInterval] in [startBranchChecks]. *)
Definition BRANCH_CHECK_INTERVAL_MS : Z := 15 * 60 * 1000.

(** The delay of the connection test in [isDaemonRunning]. *)
Definition PROBE_TIMEOUT_MS : Z := 5000.

(** ** The daemon probe ([daemon/client.ts]) *)

(** What [client.getStatus()] does, and after how many milliseconds. *)
Inductive StatusReply :=
| Replies (after : Z)
| Rejects (after : Z) (message : string)
| Silent.

Record ProbeEnv := mkProbeEnv {
  socketExists : bool;
  connects : bool;
  statusReply : StatusReply }.

(** [Promise.race([statusPromise, timeoutPromise])]: the status promise
    settles the race when it settles before the timer; otherwise the timer
    resolves it to [false].  (A reply in the very millisecond of the
    timeout is counted for the timer.) *)
Definition raceStatus (r : StatusReply) : Result bool :=
  match r with
  | Replies d => if d <? PROBE_TIMEOUT_MS then Ok true else Ok false
  | Rejects d m => if d <? PROBE_TIMEOUT_MS then Thrown m else Ok false
  | Silent => Ok false
  end.

Definition isDaemonRunning (e : ProbeEnv) : M bool :=
  if negb (socketExists e) then ret false
  else if negb (connects e) then ret false
  else tryCatch (await (raceStatus (statusReply e))) (fun _ => ret false).



(** A call forwarded to the daemon through the IPC client. *)
Definition daemonCall (c : DaemonCall) (r : Result unit) : M unit :=
  emit (Daemon c (isOk r)) ;; await r.

(** One entry of [StatusResponse.activeSessions]. *)
Module Session.
Record t := mk {
  directory : string;
  branch : string;
  startTime : Z;
  issueId : option Z;
  description : option string }.
End Session.

(** ** Timers *)

Definition stopBranchChecks : M unit :=
  w <- getWorld ;;
  match activeCheckInterval w with
  | Some _ => setCheckInterval None
  | None => ret tt
  end.

Definition startBranchChecks : M unit :=
  stopBranchChecks ;;
  setCheckInterval (Some BRANCH_CHECK_INTERVAL_MS).

Definition scheduleAutoStop (now : Z) : M unit :=
  setAutoStopTimer (Some (mkTimeout now MAX_TRACKING_TIME_MS)).

Definition cancelAutoStop : M unit :=
  w <- getWorld ;;
  match autoStopTimer w with
  | Some _ => setAutoStopTimer None
  | None => ret tt
  end.

Definition stopPulseSending : M unit :=
  w <- getWorld ;;
  match activePulseInterval w with
  | Some _ => setPulseInterval None
  | None => ret tt
  end.

(** The runtime calls an interval's callback only while its handle is
    live: after [clearInterval] the callback is not called again. *)
Definition onInterval (handle : World -> option Z) (callback : M unit)
    : M unit :=
  fun w =>
    match handle w with
    | Some _ => callback w
    | None => (Ok tt, w)
    end.

(** ** Pulses *)

Definition sendPulse (remote : Result unit) : M unit :=
  config <- getConfig ;;
  if negb (truthyStr (apiKey config)) || negb (truthyStr (jiraAccountId config))
  then ret tt
  else
    tryCatch
      (match activeTracking config with
       | None => ret tt
       | Some s =>
           emit (Pulse (mkPulse (ActiveTracking.branch s)
                          (ActiveTracking.issueId s)
                          (ActiveTracking.description s)
                          (apiKey config) (tempoBaseUrl config))
                   (isOk remote)) ;;
           await remote
       end)
      (fun _ => ret tt).

Definition startPulseSending (remote : Result unit) : M unit :=
  w <- getWorld ;;
  match activePulseInterval w with
  | Some _ => ret tt
  | None =>
      tryCatch (sendPulse remote) (fun _ => ret tt) ;;
      setPulseInterval (Some PULSE_INTERVAL_MS)
  end.

(** ** stopTracking *)

Record StopEnv := mkStopEnv {
  stopProbe : ProbeEnv;
  stopGitRoot : option string;
  stopViaDaemon : Result unit;
  stopNow : Z }.

(** The part of [stopTracking] after the daemon attempt: the in-process
    stop. *)
Definition stopTrackingLocal (now : Z) : M unit :=
  config <- getConfig ;;
  match activeTracking config with
  | None => ret tt
  | Some s =>
      let endTime := now in
      onConfig (addActivityLog (ActiveTracking.branch s)
                  (ActiveTracking.directory s) (ActiveTracking.startTime s)
                  (Some endTime) (Some (IdNum (ActiveTracking.issueId s)))
                  (ActiveTracking.description s)) ;;
      onConfig (updateConfig None) ;;
      stopBranchChecks ;;
      stopPulseSending ;;
      cancelAutoStop
  end.

(** The daemon attempt of [stopTracking]: [true] when the command
    returned from inside it. *)
Definition stopTrackingDaemon (env : StopEnv) : M bool :=
  tryCatch
    (running <- isDaemonRunning (stopProbe env) ;;
     if running then
       match stopGitRoot env with
       | Some _ => daemonCall CallStop (stopViaDaemon env) ;; ret true
       | None => ret false
       end
     else ret false)
    (fun _ => ret false).

Definition stopTracking (env : StopEnv) : M unit :=
  handled <- stopTrackingDaemon env ;;
  if handled then ret tt else stopTrackingLocal (stopNow env).

(** The callback [scheduleAutoStop] hands to [setTimeout]. *)
Definition autoStopCallback (env : StopEnv) : M unit := stopTracking env.

(** ** checkCurrentBranch *)

Record PollEnv := mkPollEnv {
  pollBranch : Result string;
  pollNow : Z }.

Definition checkCurrentBranch (env : PollEnv) : M unit :=
  tryCatch
    (config <- getConfig ;;
     match activeTracking config with
     | None => stopBranchChecks
     | Some s =>
         currentBranch <- await (pollBranch env) ;;
         if negb (currentBranch =? ActiveTracking.branch s)%string then
           let endTime := pollNow env in
           onConfig (addActivityLog (ActiveTracking.branch s)
                       (ActiveTracking.directory s)
                       (ActiveTracking.startTime s) (Some endTime)
                       (Some (IdNum (ActiveTracking.issueId s)))
                       (ActiveTracking.description s)) ;;
           onConfig (updateConfig
                       (Some (ActiveTracking.mk currentBranch
                                (ActiveTracking.directory s) endTime
                                (ActiveTracking.issueId s)
                                (ActiveTracking.description s))))
         else ret tt
     end)
    (fun _ => ret tt).

(** The branch-poll timer firing. *)
Definition branchPollTick (env : PollEnv) : M unit :=
  onInterval activeCheckInterval (checkCurrentBranch env).

(** ** startTracking *)

Record Options := mkOptions {
  optDescription : option string;
  optIssueId : option Z }.

Definition truthyNum (v : option Z) : bool :=
  match v with
  | None => false
  | Some n => negb (n =? 0)
  end.

(** [options.issueId || 0] *)
Definition issueIdOrZero (v : option Z) : Z :=
  match v with
  | Some n => if truthyNum v then n else 0
  | None => 0
  end.

Record StartEnv := mkStartEnv {
  startGitRoot : option string;
  startProbe : ProbeEnv;
  daemonBranch : Result string;
  daemonStatus : Result (list Session.t);
  startViaDaemon : Result unit;
  verifyStatus : Result (list Session.t);
  shouldContinue : Result bool;
  replaceStop : StopEnv;
  localBranch : Result string;
  startNow : Z;
  initialPulse : Result unit;
  armNow : Z }.

(** The daemon attempt of [startTracking]: [true] when the command
    returned from inside it (a session of this repository is already
    tracked by the daemon, or the daemon started one). *)
Definition startTrackingDaemon (gitRoot : string) (env : StartEnv)
    (options : Options) : M bool :=
  tryCatch
    (daemonRunning <- isDaemonRunning (startProbe env) ;;
     if daemonRunning then
       branch <- await (daemonBranch env) ;;
       status <- await (daemonStatus env) ;;
       match find (fun s => Session.directory s =? gitRoot)%string status with
       | Some _ => ret true
       | None =>
           tryCatch
             (daemonCall (CallStart (optDescription options)
                            (optIssueId options))
                (startViaDaemon env) ;;
              verify <- await (verifyStatus env) ;;
              if existsb
                   (fun s => (Session.directory s =? gitRoot)%string
                             && (Session.branch s =? branch)%string)
                   verify
              then ret true
              else throw "Failed to start tracking in daemon - session not found after start command")
             (fun _ => ret false)
       end
     else ret false)
    (fun _ => ret false).

(** The check of [startTracking] for a session already recorded: the user
    is asked whether to stop it; [false] when the command returns from
    the check. *)
Definition confirmReplace (env : StartEnv) : M bool :=
  config <- getConfig ;;
  match activeTracking config with
  | Some _ =>
      answer <- await (shouldContinue env) ;;
      if (answer : bool) then stopTracking (replaceStop env) ;; ret true
      else ret false
  | None => ret true
  end.

(** The part of [startTracking] after the daemon attempt: the in-process
    start. *)
Definition startTrackingLocal (gitRoot : string) (env : StartEnv)
    (options : Options) : M unit :=
  proceed <- confirmReplace env ;;
  if (proceed : bool) then
    branch <- await (localBranch env) ;;
    let startTime := startNow env in
    onConfig (updateConfig
                (Some (ActiveTracking.mk branch gitRoot startTime
                         (issueIdOrZero (optIssueId options))
                         (optDescription options)))) ;;
    startBranchChecks ;;
    startPulseSending (initialPulse env) ;;
    scheduleAutoStop (armNow env)
  else ret tt.

Definition startTracking (env : StartEnv) (options : Options) : M unit :=
  match startGitRoot env with
  | None =>
      throw "Not in a git repository. Please navigate to a git repository to start tracking."
  | Some gitRoot =>
      handled <- startTrackingDaemon gitRoot env options ;;
      if (handled : bool) then ret tt
      else startTrackingLocal gitRoot env options
  end.

(** ** statusTracking

    The lines the command prints, up to and including the line for "no
    active session"; the summary of the day printed after that line is
    left out. *)

Inductive Line :=
| LineUsingDaemon
| LineActiveSessions
| LineRepository (directory : string)
| LineActiveSession
| LineBranch (branch : string)
| LineStarted (startTime : Z)
| LineIssue (issueId : Z)
| LineDescription (description : string)
| LineDuration (hours minutes : Z)
| LineDifferentBranch (tracking current : string)
| LineNoActive.

Definition durationLine (startTime now : Z) : Line :=
  let durationMinutes := roundDiv (now - startTime) 60000 in
  LineDuration (durationMinutes / 60) (Z.rem durationMinutes 60).

Definition optionalLine {A} (truthy : bool) (v : option A) (line : A -> Line)
    : list Line :=
  match v with
  | Some x => if truthy then [line x] else []
  | None => []
  end.

Definition sessionLines (now : Z) (s : Session.t) : list Line :=
  [LineRepository (Session.directory s); LineBranch (Session.branch s);
   LineStarted (Session.startTime s)]
  ++ optionalLine (truthyNum (Session.issueId s)) (Session.issueId s) LineIssue
  ++ optionalLine (truthyStr (Session.description s)) (Session.description s)
       LineDescription
  ++ [durationLine (Session.startTime s) now].

Record StatusEnv := mkStatusEnv {
  statusProbe : ProbeEnv;
  statusSessions : Result (list Session.t);
  statusNow : Z;
  statusGitRoot : option string;
  statusBranch : Result string }.

Definition localStatusLines (env : StatusEnv) (config : Config) : list Line :=
  match activeTracking config with
  | Some s =>
      [LineActiveSession; LineBranch (ActiveTracking.branch s);
       LineStarted (ActiveTracking.startTime s);
       durationLine (ActiveTracking.startTime s) (statusNow env)]
      ++ (if truthyNum (Some (ActiveTracking.issueId s))
          then [LineIssue (ActiveTracking.issueId s)] else [])
      ++ optionalLine (truthyStr (ActiveTracking.description s))
           (ActiveTracking.description s) LineDescription
      ++ match statusGitRoot env, statusBranch env with
         | Some _, Ok currentBranch =>
             if negb (currentBranch =? ActiveTracking.branch s)%string
             then [LineDifferentBranch (ActiveTracking.branch s) currentBranch]
             else []
         | _, _ => []
         end
  | None => [LineNoActive]
  end.

Definition statusTracking (env : StatusEnv) : M (list Line) :=
  running <- tryCatch (isDaemonRunning (statusProbe env))
               (fun _ => ret false) ;;
  config <- getConfig ;;
  if (running : bool) then
    match statusSessions env with
    | Ok (s :: rest) =>
        ret (LineUsingDaemon :: LineActiveSessions
               :: flat_map (sessionLines (statusNow env)) (s :: rest))
    | _ => ret (LineUsingDaemon :: localStatusLines env config)
    end
  else ret (localStatusLines env config).

(** ** syncTempo *)

(** [validate] of the issue-id prompt: the input must be non-empty. *)
Definition validate (input : string) : bool :=
  negb (input =? EmptyString)%string.

(** The prompt asks again until an input passes [validate]; when the user
    gives up (the inputs run out) the prompt rejects. *)
Fixpoint promptIssueId (inputs : list string) : Result string :=
  match inputs with
  | [] => Thrown "User force closed the prompt"
  | input :: more => if validate input then Ok input else promptIssueId more
  end.

(** What the outside world answers while one activity is processed. *)
Record ItemEnv := mkItemEnv {
  typed : list string;
  createWorklog : Result unit }.

Record SyncEnv := mkSyncEnv {
  syncProbe : ProbeEnv;
  syncViaDaemon : Result unit;
  items : nat -> ItemEnv }.

Record SyncReport := mkReport {
  successCount : nat;
  failCount : nat }.

(** [Math.round((end - start) / 1000)].  The source computes it in
    doubles; the integer rounding below is what the doubles give as
    long as the span is at most 8.64e15 ms either way (the range of
    [Date] on one side of the epoch): the difference is then exact and
    the quotient stays below 2^43, where neighbouring doubles are less
    than a thousandth apart, so that no quotient is rounded across a
    half. *)
Definition durationSeconds (startTime endTime : Z) : Z :=
  roundDiv (endTime - startTime) 1000.

(** [activity.description || `Work on branch: ${activity.branch}`] *)
Definition describe (activity : Activity.t) : string :=
  match Activity.description activity with
  | Some d =>
      if truthyStr (Some d) then d
      else "Work on branch: " ++ Activity.branch activity
  | None => "Work on branch: " ++ Activity.branch activity
  end.

(** The body of the loop of [syncTempo], with its [try]/[catch]. *)
Definition syncActivity (date : string) (e : ItemEnv) (activity : Activity.t)
    (counts : SyncReport) : M SyncReport :=
  tryCatch
    (match Activity.endTime activity with
     | None => ret counts
     | Some endTime =>
         let seconds := durationSeconds (Activity.startTime activity) endTime in
         if seconds <? 60 then ret counts
         else
           let description := describe activity in
           issueId <-
             (if negb (truthyId (Activity.issueId activity)) then
                providedIssueId <- await (promptIssueId (typed e)) ;;
                onConfig (updateActivityLog (Activity.id activity)
                            (Activity.mkPatch (Some (IdStr providedIssueId))
                               None)) ;;
                ret (Some (IdStr providedIssueId))
              else ret (Activity.issueId activity)) ;;
           config <- getConfig ;;
           if negb (truthyStr (jiraAccountId config)) then
             throw "Jira Account ID not configured"
           else
             emit (Worklog activity
                     (mkWorklog issueId seconds date
                        (Date.hhmm (Activity.startTime activity)) description
                        (jiraAccountId config))
                     (isOk (createWorklog e))) ;;
             await (createWorklog e) ;;
             onConfig (updateActivityLog (Activity.id activity)
                         (Activity.mkPatch None (Some true))) ;;
             ret (mkReport (S (successCount counts)) (failCount counts))
     end)
    (fun _ => ret (mkReport (successCount counts) (S (failCount counts)))).

(** [for (const activity of dateActivities)], the [i]-th activity reading
    the [i]-th answers of the environment. *)
Fixpoint syncLoop (date : string) (env : nat -> ItemEnv) (i : nat)
    (activities : list Activity.t) (counts : SyncReport) : M SyncReport :=
  match activities with
  | [] => ret counts
  | activity :: rest =>
      counts' <- syncActivity date (env i) activity counts ;;
      syncLoop date env (S i) rest counts'
  end.

(** The filter that selects the activities of the date still to sync. *)
Definition dueOn (date : string) (activity : Activity.t) : bool :=
  prefix date (Date.toISOString (Activity.startTime activity))
  && negb (Activity.synced activity).

(** The part of [syncTempo] after the daemon attempt: the in-process
    sync.  It reports nothing when it returns before the loop. *)
Definition syncTempoLocal (date : string) (env : nat -> ItemEnv)
    : M (option SyncReport) :=
  config <- getConfig ;;
  if negb (truthyStr (apiKey config)) || negb (truthyStr (jiraAccountId config))
  then ret None
  else
    let dateActivities := filter (dueOn date) (activityLog config) in
    if (List.length dateActivities =? 0)%nat then ret None
    else
      counts <- syncLoop date env 0 dateActivities (mkReport 0 0) ;;
      ret (Some counts).

Definition syncTempoDaemon (date : string) (env : SyncEnv) : M bool :=
  tryCatch
    (running <- isDaemonRunning (syncProbe env) ;;
     if running then daemonCall (CallSync date) (syncViaDaemon env) ;; ret true
     else ret false)
    (fun _ => ret false).

Definition syncTempo (date : string) (env : SyncEnv)
    : M (option SyncReport) :=
  handled <- syncTempoDaemon date env ;;
  if (handled : bool) then ret None else syncTempoLocal date (items env).


(** ** git.ts *)

Module Git.

(** A directory is an absolute, normalized path (what [process.cwd()]
    returns): the list of its segments below the root, the root itself
    being the empty list.  [path.dirname] drops the last segment,
    [path.join (d, name)] adds one, [path.parse(d).root] is the root. *)
Definition Dir : Type := list string.

Definition dotGit (d : Dir) : Dir := (d ++ [".git"])%list.

(** The loop of [findGitRoot], on the segments of [currentDir] read
    upwards: it ends without a result when [currentDir] is the root. *)
Fixpoint climb (existsSync : Dir -> bool) (upwards : list string)
    : option Dir :=
  match upwards with
  | [] => None
  | _ :: parents =>
      if existsSync (dotGit (rev upwards)) then Some (rev upwards)
      else climb existsSync parents
  end.

Definition findGitRoot (existsSync : Dir -> bool) (startDirectory : Dir)
    : option Dir :=
  climb existsSync (rev startDirectory).

(** [getCurrentBranch], given what [git.revparse] does. *)
Definition getCurrentBranch (revparse : Result string) : Result string :=
  match revparse with
  | Ok branch => Ok branch
  | Thrown message => Thrown ("Failed to get current branch: " ++ message)
  end.

(** One element of [git.getRemotes(true)]; [fetch] is [refs.fetch]. *)
Record Remote := mkRemote {
  name : string;
  fetch : string }.

Fixpoint hasSlash (s : string) : bool :=
  match s with
  | EmptyString => false
  | String c rest => (c =? "/")%char || hasSlash rest
  end.

(** The text after the last slash. *)
Fixpoint lastSegment (s : string) : string :=
  match s with
  | EmptyString => EmptyString
  | String c rest => if hasSlash s then lastSegment rest else s
  end.

(** [url.match(/([^\/]+)(?:\.git)?$/)], its first group: the match
    starts at the leftmost position from which no slash follows, and the
    greedy group takes all that is left, so that the optional [.git]
    group matches nothing; there is no match when the text is empty or
    ends with a slash. *)
Definition matchName (url : string) : option string :=
  match lastSegment url with
  | EmptyString => None
  | segment => Some segment
  end.

(** [remotes.find((r) => r.name === "origin") || remotes[0]], for a list
    that is not empty. *)
Definition chooseRemote (remotes : list Remote) : option Remote :=
  match find (fun r => (name r =? "origin")%string) remotes with
  | Some r => Some r
  | None => hd_error remotes
  end.

(** [getRepositoryName]; [basename] is [path.basename(directory)]. *)
Definition getRepositoryName (getRemotes : Result (list Remote))
    (basename : string) : string :=
  match getRemotes with
  | Thrown _ => basename
  | Ok remotes =>
      match chooseRemote remotes with
      | None => basename
      | Some remote =>
          match matchName (fetch remote) with
          | Some repository => repository
          | None => basename
          end
      end
  end.

End Git.

(** ** The daemon client ([daemon/client.ts])

    The calls made on the IPC client are recorded in order; a command run
    is a function from the calls made so far to its result and the calls
    made after it. *)

Module Client.

Inductive Request :=
| GetStatus
| StartTracking (directory branch : string) (issueId : option Z)
    (description : option string)
| StopTracking (directory : string)
| SyncTempo (date : option string).

Inductive Call :=
| Connect (connected : bool)
| Send (request : Request) (ok : bool)
| Disconnect.

Definition Run (A : Type) : Type := list Call -> Result A * list Call.

Definition ret {A} (a : A) : Run A := fun calls => (Ok a, calls).

Definition throw {A} (message : string) : Run A :=
  fun calls => (Thrown message, calls).

Definition bind {A B} (c : Run A) (k : A -> Run B) : Run B :=
  fun calls =>
    match c calls with
    | (Ok a, calls') => k a calls'
    | (Thrown e, calls') => (Thrown e, calls')
    end.

(** [try { c } catch (e) { h e }] *)
Definition tryCatch {A} (c : Run A) (h : string -> Run A) : Run A :=
  fun calls =>
    match c calls with
    | (Ok a, calls') => (Ok a, calls')
    | (Thrown e, calls') => h e calls'
    end.

(** [try { c } finally { f }], for an [f] that does not throw. *)
Definition tryFinally {A} (c : Run A) (f : Run unit) : Run A :=
  fun calls =>
    match c calls with
    | (r, calls') => (r, snd (f calls'))
    end.

Definition call (c : Call) : Run unit :=
  fun calls => (Ok tt, (calls ++ [c])%list).

(** [client.connect()] *)
Definition connect (connected : bool) : Run bool :=
  bind (call (Connect connected)) (fun _ => ret connected).

(** [client.disconnect()] *)
Definition disconnect : Run unit := call Disconnect.

(** A request on the connected client, answered as the daemon says. *)
Definition send {A} (request : Request) (reply : Result A) : Run A :=
  bind (call (Send request (isOk reply))) (fun _ calls => (reply, calls)).

(** What the outside answers to one command. *)
Record Env (A : Type) := mkEnv {
  gitRoot : option string;
  branch : Result string;
  connected : bool;
  reply : Result A }.
Arguments mkEnv {A} gitRoot branch connected reply.
Arguments gitRoot {A} e.
Arguments branch {A} e.
Arguments connected {A} e.
Arguments reply {A} e.

Definition notRunning : string :=
  "Daemon is not running. Start it with 'tempo daemon start' first.".

Definition startTrackingViaDaemon (env : Env unit) (options : Options)
    : Run unit :=
  match gitRoot env with
  | None =>
      throw "Not in a git repository. Please navigate to a git repository to start tracking."
  | Some root =>
      bind (fun calls => (branch env, calls)) (fun current =>
      bind (connect (connected env)) (fun isConnected =>
      if negb isConnected then throw notRunning
      else
        tryFinally
          (tryCatch
             (send (StartTracking root current (optIssueId options)
                      (optDescription options))
                (reply env))
             (fun error => bind disconnect (fun _ => throw error)))
          disconnect))
  end.

Definition stopTrackingViaDaemon (env : Env unit) : Run unit :=
  match gitRoot env with
  | None =>
      throw "Not in a git repository. Please navigate to a git repository to stop tracking."
  | Some root =>
      bind (connect (connected env)) (fun isConnected =>
      if negb isConnected then throw notRunning
      else
        tryFinally
          (tryCatch (send (StopTracking root) (reply env))
             (fun error => bind disconnect (fun _ => throw error)))
          disconnect)
  end.

Definition getStatusFromDaemon (env : Env (list Session.t))
    : Run (list Session.t) :=
  bind (connect (connected env)) (fun isConnected =>
  if negb isConnected then throw notRunning
  else
    tryFinally
      (tryCatch (send GetStatus (reply env))
         (fun error => bind disconnect (fun _ => throw error)))
      disconnect).

Definition syncTempoViaDaemon (env : Env unit) (date : option string)
    : Run unit :=
  bind (connect (connected env)) (fun isConnected =>
  if negb isConnected then throw notRunning
  else
    tryFinally
      (tryCatch (send (SyncTempo date) (reply env))
         (fun error => bind disconnect (fun _ => throw error)))
      disconnect).

End Client.

(** ** Listing and clearing the log *)

Inductive Format := FormatTable | FormatJson.

Module Worklogs.

(** [WorklogDisplayOptions] *)
Record Options := mkOptions {
  limit : option Z;
  date : option string;
  branch : option string;
  issueId : option Z;
  all : option bool;
  format : option Format }.

(** What [displayWorklogs] prints: nothing found, the entries as JSON, or
    the table (one row for each entry, in this order) with the totals and
    the counts under it. *)
Inductive Display :=
| NoWorklogs
| Json (logs : list Activity.t)
| Table (rows : list Activity.t) (totalHours totalMinutes : Z)
    (syncedLogs unsyncedLogs : nat).

End Worklogs.

(** [hay.includes(needle)] *)
Fixpoint includes (needle hay : string) : bool :=
  prefix needle hay
  || match hay with
     | EmptyString => false
     | String _ rest => includes needle rest
     end.

(** [log.issueId === n] for a number [n] *)
Definition isNumber (n : Z) (v : option JsId) : bool :=
  match v with
  | Some (IdNum m) => m =? n
  | _ => false
  end.

(** [logs.sort((a, b) => start(b) - start(a))]: newest first, entries
    with the same start in their former order. *)
Fixpoint insertNewest (a : Activity.t) (l : list Activity.t)
    : list Activity.t :=
  match l with
  | [] => [a]
  | b :: rest =>
      if Activity.startTime b <=? Activity.startTime a then a :: b :: rest
      else b :: insertNewest a rest
  end.

Definition newestFirst (l : list Activity.t) : list Activity.t :=
  fold_right insertNewest [] l.

(** [l.slice(0, n)] for an integer [n]: a negative [n] counts from the
    end. *)
Definition slice0 {A} (n : Z) (l : list A) : list A :=
  if 0 <=? n then firstn (Z.to_nat n) l
  else firstn (Z.to_nat (Z.of_nat (List.length l) + n)) l.

(** The filters, the sort and the limit of [displayWorklogs]. *)
Definition selectWorklogs (options : Worklogs.Options)
    (activityLog : list Activity.t) : list Activity.t :=
  let byDate :=
    match Worklogs.date options with
    | Some d =>
        if truthyStr (Some d) then
          filter
            (fun log => prefix d (Date.toISOString (Activity.startTime log)))
            activityLog
        else activityLog
    | None => activityLog
    end in
  let byBranch :=
    match Worklogs.branch options with
    | Some b =>
        if truthyStr (Some b) then
          filter (fun log => includes b (Activity.branch log)) byDate
        else byDate
    | None => byDate
    end in
  let byIssue :=
    match Worklogs.issueId options with
    | Some n =>
        if truthyNum (Some n) then
          filter (fun log => isNumber n (Activity.issueId log)) byBranch
        else byBranch
    | None => byBranch
    end in
  let sorted := newestFirst byIssue in
  match Worklogs.limit options with
  | Some n =>
      if negb (match Worklogs.all options with Some b => b | None => false end)
         && truthyNum (Some n)
      then slice0 n sorted
      else sorted
  | None => sorted
  end.

(** [logs.reduce((total, log) => total + (end - start), 0)], the [i]-th
    entry without end read against the clock reading [now i]. *)
Fixpoint totalDuration (now : nat -> Z) (i : nat) (logs : list Activity.t)
    : Z :=
  match logs with
  | [] => 0
  | log :: rest =>
      (match Activity.endTime log with
       | Some endTime => endTime
       | None => now i
       end - Activity.startTime log)
      + totalDuration now (S i) rest
  end.

Definition displayWorklogs (options : Worklogs.Options) (now : nat -> Z)
    (activityLog : list Activity.t) : Worklogs.Display :=
  let filteredLogs := selectWorklogs options activityLog in
  if (List.length filteredLogs =? 0)%nat then Worklogs.NoWorklogs
  else
    match Worklogs.format options with
    | Some FormatJson => Worklogs.Json filteredLogs
    | _ =>
        let totalDurationMs := totalDuration now 0 filteredLogs in
        Worklogs.Table filteredLogs
          (totalDurationMs / (1000 * 60 * 60))
          (Z.rem totalDurationMs (1000 * 60 * 60) / (1000 * 60))
          (List.length (filter Activity.synced filteredLogs))
          (List.length
             (filter (fun log => negb (Activity.synced log)) filteredLogs))
    end.

(** Modelled from the spec: [clearActivityLog] of [src/config.ts], which
    is not among the sources, is taken to empty the Activity Log Store
    and to keep the rest of the configuration, as the command announces
    ("All logs have been cleared"). *)
Definition clearActivityLog (c : Config) : Config :=
  mkConfig (apiKey c) (jiraAccountId c) (tempoBaseUrl c) (activeTracking c)
    [] (nextId c).

Definition clearLogsCommand (confirmClear : Result bool) : M unit :=
  tryCatch
    (config <- getConfig ;;
     if (List.length (activityLog config) =? 0)%nat then ret tt
     else
       answer <- await confirmClear ;;
       if negb answer then ret tt else onConfig clearActivityLog)
    (fun _ => ret tt).

(** ** Configuration commands *)

(** Modelled from the spec: [updateConfig] of [src/config.ts], which is
    not among the sources, for the keys [apiKey] and [jiraAccountId],
    taken as [updateConfig] above is for the key [activeTracking]: a key
    that is given is stored, or removed when it is given as [undefined]
    (the command announces "Removed ... from configuration"); the other
    keys stay. *)
Definition updateKeys (newApiKey newJiraAccountId : option (option string))
    (c : Config) : Config :=
  mkConfig
    (match newApiKey with Some v => v | None => apiKey c end)
    (match newJiraAccountId with Some v => v | None => jiraAccountId c end)
    (tempoBaseUrl c) (activeTracking c) (activityLog c) (nextId c).

(** The white space [String.prototype.trim] removes, among the
    characters below 256 that a [string] holds. *)
Definition isWhiteSpace (c : ascii) : bool :=
  let n := nat_of_ascii c in
  ((9 <=? n) && (n <=? 13) || (n =? 32) || (n =? 160))%nat.

(** [value.trim()] is the empty string. *)
Fixpoint isBlank (value : string) : bool :=
  match value with
  | EmptyString => true
  | String c rest => isWhiteSpace c && isBlank rest
  end.

Inductive PromptAction := ActionUpdate | ActionAbort.

(** [handleConfigDeletionPrompt], called for the key [jiraAccountId]. *)
Definition handleConfigDeletionPrompt (value : string)
    (shouldDelete : Result bool) : M PromptAction :=
  if isBlank value then
    answer <- await shouldDelete ;;
    if (answer : bool) then
      onConfig (updateKeys None (Some None)) ;; ret ActionAbort
    else ret ActionAbort
  else ret ActionUpdate.

Definition setApiKeyCommand (key : string) : M unit :=
  onConfig (updateKeys (Some (Some key)) None).

Definition setJiraAccountIdCommand (id : string) (shouldDelete : Result bool)
    : M unit :=
  action <- handleConfigDeletionPrompt id shouldDelete ;;
  match action with
  | ActionAbort => ret tt
  | ActionUpdate => onConfig (updateKeys None (Some (Some id)))
  end.

(** The two prompts of [setupCommand] validate like the issue-id prompt:
    the input must not be empty. *)
Definition promptRequired (inputs : list string) : Result string :=
  promptIssueId inputs.

Definition setupCommand (typedApiKey typedAccountId : list string) : M unit :=
  apiKey <- await (promptRequired typedApiKey) ;;
  jiraAccountId <- await (promptRequired typedAccountId) ;;
  onConfig (updateKeys (Some (Some apiKey)) (Some (Some jiraAccountId))).

(** ** Commands with error handling *)

(** [try { await command } catch (error) { console.error (...) }] *)
Definition withErrorHandling (command : M unit) : M unit :=
  tryCatch command (fun _ => ret tt).

Definition startTrackingWithErrorHandling (env : StartEnv)
    (options : Options) : M unit :=
  withErrorHandling (startTracking env options).

Definition stopTrackingWithErrorHandling (env : StopEnv) : M unit :=
  withErrorHandling (stopTracking env).
(** ** Vocabulary of the properties *)

(** Whether the probe finds a daemon: the socket path exists, the
    connection is made and the status request is answered in time. *)
Definition daemonAnswers (e : ProbeEnv) : bool :=
  socketExists e && connects e
  && match statusReply e with
     | Replies d => d <? PROBE_TIMEOUT_MS
     | _ => false
     end.

(** Whether the daemon takes a stop: it answers the probe, the command
    runs inside a git repository and the daemon accepts the request. *)
Definition daemonTakesStop (env : StopEnv) : bool :=
  daemonAnswers (stopProbe env)
  && match stopGitRoot env with Some _ => true | None => false end
  && isOk (stopViaDaemon env).

(** The entries appended to the activity log between two worlds. *)
Definition producedBetween (before after : World) : list Activity.t :=
  skipn (List.length (activityLog (config before)))
        (activityLog (config after)).




(** The branch-poll timer firing once for each element of [polls]. *)
Fixpoint pollAll (polls : list PollEnv) : M unit :=
  match polls with
  | [] => ret tt
  | p :: rest => branchPollTick p ;; pollAll rest
  end.

(** One tracking lifetime in this process: start, polls, stop. *)
Definition trackingRun (start : StartEnv) (options : Options)
    (polls : list PollEnv) (stop : StopEnv) : M unit :=
  startTracking start options ;;
  pollAll polls ;;
  stopTracking stop.

(** The pulse [sendPulse] sends for a configuration, if any. *)
Definition pulseEffects (c : Config) (remote : Result unit) : list Effect :=
  if negb (truthyStr (apiKey c)) || negb (truthyStr (jiraAccountId c)) then []
  else
    match activeTracking c with
    | None => []
    | Some s =>
        [Pulse (mkPulse (ActiveTracking.branch s) (ActiveTracking.issueId s)
                  (ActiveTracking.description s) (apiKey c) (tempoBaseUrl c))
           (isOk remote)]
    end.

(** The session [startTracking] records. *)
Definition newSession (gitRoot branch : string) (env : StartEnv)
    (options : Options) : ActiveTracking.t :=
  ActiveTracking.mk branch gitRoot (startNow env)
    (issueIdOrZero (optIssueId options)) (optDescription options).

(** The store after the open segment of [s] is closed at [endTime]. *)
Definition closeSegment (s : ActiveTracking.t) (endTime : Z) (c : Config)
    : Config :=
  addActivityLog (ActiveTracking.branch s) (ActiveTracking.directory s)
    (ActiveTracking.startTime s) (Some endTime)
    (Some (IdNum (ActiveTracking.issueId s))) (ActiveTracking.description s) c.




(** ** What one pass of the sync loop does to one activity *)

Inductive Verdict :=
| Skipped
| Abandoned
| Sent (req : WorklogRequest) (ok : bool).

(** The issue id the request will carry: the stored one, or the one typed
    at the prompt when the stored one is falsy. *)
Definition resolveIssueId (e : ItemEnv) (a : Activity.t)
    : Result (option JsId) :=
  if negb (truthyId (Activity.issueId a)) then
    match promptIssueId (typed e) with
    | Ok provided => Ok (Some (IdStr provided))
    | Thrown m => Thrown m
    end
  else Ok (Activity.issueId a).

Definition skipped (a : Activity.t) : bool :=
  match Activity.endTime a with
  | None => true
  | Some endTime => durationSeconds (Activity.startTime a) endTime <? 60
  end.

Definition verdict (date : string) (account : option string) (e : ItemEnv)
    (a : Activity.t) : Verdict :=
  if skipped a then Skipped
  else
    match resolveIssueId e a with
    | Thrown _ => Abandoned
    | Ok issue =>
        Sent (mkWorklog issue
                (durationSeconds (Activity.startTime a)
                   (match Activity.endTime a with Some t => t | None => 0 end))
                date (Date.hhmm (Activity.startTime a)) (describe a) account)
             (isOk (createWorklog e))
    end.

(** The store after the pass. *)
Definition settle (a : Activity.t) (v : Verdict) (c : Config) : Config :=
  match v with
  | Sent req ok =>
      let c1 :=
        if truthyId (Activity.issueId a) then c
        else updateActivityLog (Activity.id a)
               (Activity.mkPatch (worklogIssueId req) None) c in
      if ok then
        updateActivityLog (Activity.id a) (Activity.mkPatch None (Some true)) c1
      else c1
  | _ => c
  end.

(** The activity after the pass. *)
Definition settled (a : Activity.t) (v : Verdict) : Activity.t :=
  match v with
  | Sent req ok =>
      Activity.mk (Activity.id a) (Activity.branch a) (Activity.directory a)
        (Activity.startTime a) (Activity.endTime a)
        (if truthyId (Activity.issueId a) then Activity.issueId a
         else worklogIssueId req)
        (Activity.description a)
        (if ok then true else Activity.synced a)
  | _ => a
  end.

Definition tally (v : Verdict) (counts : SyncReport) : SyncReport :=
  match v with
  | Skipped => counts
  | Abandoned | Sent _ false =>
      mkReport (successCount counts) (S (failCount counts))
  | Sent _ true => mkReport (S (successCount counts)) (failCount counts)
  end.

Definition effectOf (a : Activity.t) (v : Verdict) : list Effect :=
  match v with
  | Sent req ok => [Worklog a req ok]
  | _ => []
  end.

(** The verdicts of a whole loop, the [i]-th activity with the [i]-th
    answers. *)
Fixpoint verdicts (date : string) (account : option string)
    (env : nat -> ItemEnv) (i : nat) (l : list Activity.t) : list Verdict :=
  match l with
  | [] => []
  | a :: rest =>
      verdict date account (env i) a :: verdicts date account env (S i) rest
  end.

Fixpoint settleAll (l : list Activity.t) (vs : list Verdict) (c : Config)
    : Config :=
  match l, vs with
  | a :: rest, v :: vs' => settleAll rest vs' (settle a v c)
  | _, _ => c
  end.

Fixpoint effectsOf (l : list Activity.t) (vs : list Verdict) : list Effect :=
  match l, vs with
  | a :: rest, v :: vs' => (effectOf a v ++ effectsOf rest vs')%list
  | _, _ => []
  end.

Definition isSuccess (v : Verdict) : bool :=
  match v with Sent _ true => true | _ => false end.

Definition isFailure (v : Verdict) : bool :=
  match v with Abandoned | Sent _ false => true | _ => false end.

Definition isRejected (v : Verdict) : bool :=
  match v with Sent _ false => true | _ => false end.

Definition isAbandoned (v : Verdict) : bool :=
  match v with Abandoned => true | _ => false end.

(** The requests added to the trace between two worlds. *)
Definition sentBetween (before after : World) : list Effect :=
  skipn (List.length (trace before)) (trace after).

(** The store is set up for syncing. *)
Definition configured (c : Config) : bool :=
  truthyStr (apiKey c) && truthyStr (jiraAccountId c).

Definition tallyAll (vs : list Verdict) (counts : SyncReport) : SyncReport :=
  fold_left (fun c v => tally v c) vs counts.

(** The activity log after a sync of [date], entry by entry: the entries
    due on the date meet their verdict in order, the others stay. *)
Fixpoint syncedLog (date : string) (account : option string)
    (env : nat -> ItemEnv) (i : nat) (log : list Activity.t)
    : list Activity.t :=
  match log with
  | [] => []
  | b :: rest =>
      if dueOn date b then
        settled b (verdict date account (env i) b)
          :: syncedLog date account env (S i) rest
      else b :: syncedLog date account env i rest
  end.

(** Ids identify the entries of the log. *)
Definition uniqueIds (log : list Activity.t) : Prop :=
  NoDup (map Activity.id log).

(** The invariant of the store: ids identify the entries and are below
    the next id to be given. *)
Definition freshIds (c : Config) : Prop :=
  uniqueIds (activityLog c)
  /\ Forall (fun a => (Activity.id a < nextId c)%nat) (activityLog c).

(** The same start with another outcome of the initial pulse. *)
Definition withInitialPulse (env : StartEnv) (remote : Result unit)
    : StartEnv :=
  mkStartEnv (startGitRoot env) (startProbe env) (daemonBranch env)
    (daemonStatus env) (startViaDaemon env) (verifyStatus env)
    (shouldContinue env) (replaceStop env) (localBranch env) (startNow env)
    remote (armNow env).


(** The worklog requests of a trace, by outcome. *)
Definition isWorklog (ok : bool) (e : Effect) : bool :=
  match e with
  | Worklog _ _ ok' => Bool.eqb ok ok'
  | _ => false
  end.

(** Two worlds that differ at most in what their traces recorded. *)
Definition sameState (a b : World) : Prop :=
  config a = config b
  /\ activeCheckInterval a = activeCheckInterval b
  /\ activePulseInterval a = activePulseInterval b
  /\ autoStopTimer a = autoStopTimer b
  /\ List.length (trace a) = List.length (trace b).

(** Two records of one entry that differ at most in the issue id. *)
Definition sameButIssueId (a b : Activity.t) : Prop :=
  Activity.id b = Activity.id a
  /\ Activity.branch b = Activity.branch a
  /\ Activity.directory b = Activity.directory a
  /\ Activity.startTime b = Activity.startTime a
  /\ Activity.endTime b = Activity.endTime a
  /\ Activity.description b = Activity.description a
  /\ Activity.synced b = Activity.synced a.

(** An entry without end, or whose end is less than [limit] milliseconds
    after its start. *)
Definition openOrShorter (limit : Z) (a : Activity.t) : Prop :=
  match Activity.endTime a with
  | None => True
  | Some endTime => endTime - Activity.startTime a < limit
  end.

(** ** Sample inputs *)

Definition noDaemon : ProbeEnv := mkProbeEnv false false Silent.

Definition liveDaemon : ProbeEnv := mkProbeEnv true true (Replies 12).

Definition sampleConfig : Config :=
  mkConfig (Some "tempo-key") (Some "account-1") "https://api.tempo.io/4"
    None [] 0.

Definition idleWorld : World := mkWorld sampleConfig None None None [].

(** 2023-11-14T22:13:20.000Z *)
Definition T0 : Z := 1700000000000.

Definition minutes (n : Z) : Z := n * 60000.

Definition noOptions : Options := mkOptions None None.

Definition stopAt (now : Z) : StopEnv :=
  mkStopEnv noDaemon (Some "/repo") (Ok tt) now.

(** A start in "/repo" without a daemon: the branch, the clock reading
    taken for [startTime], the clock reading when the auto-stop timer is
    armed, the answer to the replace prompt. *)
Definition startAt (branch : string) (now armed : Z) (answer : bool)
    : StartEnv :=
  mkStartEnv (Some "/repo") noDaemon (Ok branch) (Ok []) (Ok tt) (Ok [])
    (Ok answer) (stopAt now) (Ok branch) now (Ok tt) armed.

(** The scenario of the specification: the poll after a switch from
    "feature/x" to "main" fires 15 minutes in, the stop comes 25 minutes
    in. *)
Definition scenarioPolls : list PollEnv :=
  [mkPollEnv (Ok "main") (T0 + minutes 15)].

(** A world in which "/repo" is being tracked since [T0]. *)
Definition busyWorld : World :=
  mkWorld
    (mkConfig (Some "tempo-key") (Some "account-1") "https://api.tempo.io/4"
       (Some (ActiveTracking.mk "main" "/repo" T0 0 None)) [] 0)
    (Some BRANCH_CHECK_INTERVAL_MS) (Some PULSE_INTERVAL_MS)
    (Some (mkTimeout T0 MAX_TRACKING_TIME_MS)) [].

(** An unsynced entry of the day of [T0], started at [T0]. *)
Definition entryOf (id : nat) (duration : Z) (issueId : option JsId)
    : Activity.t :=
  Activity.mk id "main" "/repo" T0 (Some (T0 + duration)) issueId None false.

Definition worldWithLog (log : list Activity.t) : World :=
  mkWorld
    (mkConfig (Some "tempo-key") (Some "account-1") "https://api.tempo.io/4"
       None log (List.length log))
    None None None [].

Definition localSync (answers : nat -> ItemEnv) : SyncEnv :=
  mkSyncEnv noDaemon (Ok tt) answers.

Definition accepted : ItemEnv := mkItemEnv ["ABC-1"] (Ok tt).

Definition rejected : ItemEnv := mkItemEnv ["ABC-1"] (Thrown "500").

Definition abandoned : ItemEnv := mkItemEnv [EmptyString] (Ok tt).

(** Two entries of the day of [T0] with an issue id. *)
Definition twoEntries : World :=
  worldWithLog [entryOf 0 (minutes 30) (Some (IdNum 42));
                entryOf 1 (minutes 45) (Some (IdNum 42))].

(** The first submission is accepted, the later ones are rejected. *)
Definition acceptsOnlyFirst : SyncEnv :=
  localSync (fun i => match i with O => accepted | _ => rejected end).

(** ** Vocabulary of the further properties *)

(** [r] is the directory [d] or one above it. *)
Definition atOrAbove (r d : Git.Dir) : Prop :=
  exists below, d = (r ++ below)%list.

(** The calls of one request on a connected client: the client
    disconnects once after an answer, twice after an error. *)
Definition roundTrip {A} (request : Client.Request) (reply : Result A)
    : list Client.Call :=
  ([Client.Connect true; Client.Send request (isOk reply); Client.Disconnect]
     ++ if isOk reply then [] else [Client.Disconnect])%list.

(** The world after a call to the daemon was recorded. *)
Definition afterCall (call : DaemonCall) (ok : bool) (w : World) : World :=
  mkWorld (config w) (activeCheckInterval w) (activePulseInterval w)
    (autoStopTimer w) (trace w ++ [Daemon call ok]).

(** The daemon reports a session of the directory on the branch. *)
Definition tracks (gitRoot branch : string) (sessions : list Session.t)
    : bool :=
  existsb
    (fun s => (Session.directory s =? gitRoot)%string
              && (Session.branch s =? branch)%string)
    sessions.

(** What a sync of [date] may do to a stored entry [b], giving [b']: only
    the issue id and the synced flag can change, the flag only from
    false to true, and only for an entry due on the date. *)
Definition keptBySync (date : string) (b b' : Activity.t) : Prop :=
  Activity.id b' = Activity.id b
  /\ Activity.branch b' = Activity.branch b
  /\ Activity.directory b' = Activity.directory b
  /\ Activity.startTime b' = Activity.startTime b
  /\ Activity.endTime b' = Activity.endTime b
  /\ Activity.description b' = Activity.description b
  /\ (Activity.synced b = true -> b' = b)
  /\ (dueOn date b = false -> b' = b)
  /\ (truthyId (Activity.issueId b) = true ->
      Activity.issueId b' = Activity.issueId b).

(** The largest time value of a [Date]. *)
Definition maxTime : Z := 8640000000000000.

(** The times of the entry are time values of a [Date], and its end is
    at most [maxTime] away from its start: on such an entry the doubles
    of the source compute the duration as [durationSeconds] does. *)
Definition plainTimes (a : Activity.t) : Prop :=
  - maxTime <= Activity.startTime a <= maxTime
  /\ forall endTime,
       Activity.endTime a = Some endTime ->
       - maxTime <= endTime <= maxTime
       /\ - maxTime <= endTime - Activity.startTime a <= maxTime.

(** The entry passes the filters of [options] that are set: a date, a
    branch and an issue id that are falsy (empty, 0) are not set. *)
Definition passes (options : Worklogs.Options) (log : Activity.t) : bool :=
  (if truthyStr (Worklogs.date options) then
     match Worklogs.date options with
     | Some d => prefix d (Date.toISOString (Activity.startTime log))
     | None => true
     end
   else true)
  && (if truthyStr (Worklogs.branch options) then
        match Worklogs.branch options with
        | Some b => includes b (Activity.branch log)
        | None => true
        end
      else true)
  && (if truthyNum (Worklogs.issueId options) then
        match Worklogs.issueId options with
        | Some n => isNumber n (Activity.issueId log)
        | None => true
        end
      else true).

(** The limit of [options] that applies, if any. *)
Definition limitOf (options : Worklogs.Options) : option Z :=
  match Worklogs.all options with
  | Some true => None
  | _ => if truthyNum (Worklogs.limit options) then Worklogs.limit options
         else None
  end.

(** Newest first. *)
Definition newerOrSame (a b : Activity.t) : Prop :=
  Activity.startTime b <= Activity.startTime a.

(** The time an entry spans, an entry without end read against [now]. *)
Definition spanOf (now : Z) (log : Activity.t) : Z :=
  match Activity.endTime log with
  | Some endTime => endTime
  | None => now
  end - Activity.startTime log.

(** * Properties *)

(** ** Dates *)

Example toISOString_epoch :
  Date.toISOString 0 = "1970-01-01T00:00:00.000Z".
Proof. reflexivity. Qed.

Example toISOString_sample :
  Date.toISOString T0 = "2023-11-14T22:13:20.000Z".
Proof. vm_compute. reflexivity. Qed.

Example toISOString_leap_day :
  Date.toISOString 1709210096789 = "2024-02-29T12:34:56.789Z".
Proof. vm_compute. reflexivity. Qed.

Example toISOString_before_epoch :
  Date.toISOString (-1) = "1969-12-31T23:59:59.999Z".
Proof. vm_compute. reflexivity. Qed.

Example hhmm_sample : Date.hhmm T0 = "22:13".
Proof. vm_compute. reflexivity. Qed.

Example round_half_up : roundDiv 59500 1000 = 60 /\ roundDiv 59499 1000 = 59.
Proof. split; reflexivity. Qed.

Example round_negative_half : roundDiv (-1500) 1000 = -1.
Proof. reflexivity. Qed.

(** ** Lists and tactics *)

Lemma skipn_prefix {A} (l extra : list A) :
  skipn (List.length l) (l ++ extra) = extra.
Proof. rewrite skipn_app, skipn_all, Nat.sub_diag. reflexivity. Qed.

(** Closes [uniqueIds] of a log that is written out. *)
Ltac unique_ids :=
  unfold uniqueIds; cbn; repeat constructor; cbn; intuition discriminate.

(** ** Running the building blocks *)

Lemma isDaemonRunning_run (e : ProbeEnv) (w : World) :
  isDaemonRunning e w = (Ok (daemonAnswers e), w).
Proof.
  unfold isDaemonRunning, daemonAnswers.
  destruct (socketExists e), (connects e); cbn; try reflexivity.
  unfold tryCatch, await, raceStatus.
  destruct (statusReply e) as [d | d m |]; cbn; try reflexivity;
    destruct (d <? PROBE_TIMEOUT_MS); reflexivity.
Qed.


Lemma sendPulse_run (remote : Result unit) (w : World) :
  sendPulse remote w
  = (Ok tt, mkWorld (config w) (activeCheckInterval w) (activePulseInterval w)
              (autoStopTimer w) (trace w ++ pulseEffects (config w) remote)).
Proof.
  destruct w as [c ci pi ast tr].
  unfold sendPulse, pulseEffects, bind, getConfig, tryCatch; cbn.
  destruct (negb (truthyStr (apiKey c)) || negb (truthyStr (jiraAccountId c)));
    cbn; [now rewrite app_nil_r |].
  destruct (activeTracking c) as [s |]; cbn; [| now rewrite app_nil_r].
  destruct remote as [[] | m]; reflexivity.
Qed.

Lemma startPulseSending_run (remote : Result unit) (w : World) :
  startPulseSending remote w
  = (Ok tt,
     match activePulseInterval w with
     | Some _ => w
     | None =>
         mkWorld (config w) (activeCheckInterval w) (Some PULSE_INTERVAL_MS)
           (autoStopTimer w) (trace w ++ pulseEffects (config w) remote)
     end).
Proof.
  unfold startPulseSending, bind, getWorld, tryCatch.
  destruct (activePulseInterval w) eqn:E; [reflexivity |].
  rewrite sendPulse_run. cbn. rewrite E. reflexivity.
Qed.



Lemma stopTrackingLocal_run (now : Z) (w : World) :
  stopTrackingLocal now w
  = (Ok tt,
     match activeTracking (config w) with
     | None => w
     | Some s =>
         mkWorld (updateConfig None (closeSegment s now (config w)))
           None None None (trace w)
     end).
Proof.
  destruct w as [c ci pi ast tr].
  unfold stopTrackingLocal, bind, getConfig; cbn.
  destruct (activeTracking c) as [s |]; [| reflexivity].
  destruct ci, pi, ast; reflexivity.
Qed.

Lemma stopTrackingDaemon_down (env : StopEnv) (w : World) :
  daemonAnswers (stopProbe env) = false ->
  stopTrackingDaemon env w = (Ok false, w).
Proof.
  intros H. unfold stopTrackingDaemon, tryCatch, bind.
  rewrite isDaemonRunning_run, H. reflexivity.
Qed.

Lemma stopTracking_down (env : StopEnv) (w : World) :
  daemonAnswers (stopProbe env) = false ->
  stopTracking env w = stopTrackingLocal (stopNow env) w.
Proof.
  intros H. unfold stopTracking, bind.
  rewrite stopTrackingDaemon_down by exact H. reflexivity.
Qed.

Lemma checkCurrentBranch_run (env : PollEnv) (w : World) :
  checkCurrentBranch env w
  = (Ok tt,
     match activeTracking (config w) with
     | None =>
         mkWorld (config w) None (activePulseInterval w) (autoStopTimer w)
           (trace w)
     | Some s =>
         match pollBranch env with
         | Ok currentBranch =>
             if (currentBranch =? ActiveTracking.branch s)%string then w
             else
               mkWorld
                 (updateConfig
                    (Some (ActiveTracking.mk currentBranch
                             (ActiveTracking.directory s) (pollNow env)
                             (ActiveTracking.issueId s)
                             (ActiveTracking.description s)))
                    (closeSegment s (pollNow env) (config w)))
                 (activeCheckInterval w) (activePulseInterval w)
                 (autoStopTimer w) (trace w)
         | Thrown _ => w
         end
     end).
Proof.
  destruct w as [c ci pi ast tr].
  unfold checkCurrentBranch, tryCatch, bind, getConfig; cbn.
  destruct (activeTracking c) as [s |].
  - destruct (pollBranch env) as [b | m]; cbn; [| reflexivity].
    destruct (b =? ActiveTracking.branch s)%string; reflexivity.
  - destruct ci; reflexivity.
Qed.

Lemma startTrackingDaemon_down (gitRoot : string) (env : StartEnv)
    (options : Options) (w : World) :
  daemonAnswers (startProbe env) = false ->
  startTrackingDaemon gitRoot env options w = (Ok false, w).
Proof.
  intros H. unfold startTrackingDaemon, tryCatch, bind.
  rewrite isDaemonRunning_run, H. reflexivity.
Qed.

Lemma startTracking_down (gitRoot : string) (env : StartEnv)
    (options : Options) (w : World) :
  startGitRoot env = Some gitRoot ->
  daemonAnswers (startProbe env) = false ->
  startTracking env options w = startTrackingLocal gitRoot env options w.
Proof.
  intros Hg H. unfold startTracking. rewrite Hg. unfold bind.
  rewrite startTrackingDaemon_down by exact H. reflexivity.
Qed.

Lemma startTrackingLocal_fresh (gitRoot branch : string) (env : StartEnv)
    (options : Options) (w : World) :
  activeTracking (config w) = None ->
  localBranch env = Ok branch ->
  startTrackingLocal gitRoot env options w
  = (Ok tt,
     let c := updateConfig (Some (newSession gitRoot branch env options))
                (config w) in
     mkWorld c (Some BRANCH_CHECK_INTERVAL_MS)
       (match activePulseInterval w with
        | Some h => Some h
        | None => Some PULSE_INTERVAL_MS
        end)
       (Some (mkTimeout (armNow env) MAX_TRACKING_TIME_MS))
       (match activePulseInterval w with
        | Some _ => trace w
        | None => trace w ++ pulseEffects c (initialPulse env)
        end)).
Proof.
  intros Hnone Hb. destruct w as [c ci pi ast tr]. cbn in Hnone.
  unfold startTrackingLocal, confirmReplace, bind, getConfig.
  cbn -[startPulseSending]. rewrite Hnone, Hb.
  destruct ci; cbn -[startPulseSending]; rewrite startPulseSending_run;
    destruct pi; reflexivity.
Qed.

Lemma stopTrackingDaemon_run (env : StopEnv) (w : World) :
  stopTrackingDaemon env w
  = if daemonAnswers (stopProbe env) then
      match stopGitRoot env with
      | Some _ =>
          (Ok (isOk (stopViaDaemon env)),
           mkWorld (config w) (activeCheckInterval w) (activePulseInterval w)
             (autoStopTimer w)
             (trace w ++ [Daemon CallStop (isOk (stopViaDaemon env))]))
      | None => (Ok false, w)
      end
    else (Ok false, w).
Proof.
  unfold stopTrackingDaemon, tryCatch, bind.
  rewrite isDaemonRunning_run.
  destruct (daemonAnswers (stopProbe env)); [| reflexivity].
  destruct (stopGitRoot env); [| reflexivity].
  unfold daemonCall, bind, emit, await. cbn.
  destruct (stopViaDaemon env) as [[] | m]; reflexivity.
Qed.

Lemma confirmReplace_confirmed (env : StartEnv) (w : World)
    (s : ActiveTracking.t) :
  activeTracking (config w) = Some s ->
  shouldContinue env = Ok true ->
  confirmReplace env w
  = match stopTracking (replaceStop env) w with
    | (Ok _, w') => (Ok true, w')
    | (Thrown e, w') => (Thrown e, w')
    end.
Proof.
  intros Hs Hyes. unfold confirmReplace, bind, getConfig.
  cbn -[stopTracking]. rewrite Hs, Hyes. cbn -[stopTracking].
  destruct (stopTracking (replaceStop env) w) as [[[] | m] w']; reflexivity.
Qed.

(** [stopTracking] in closed form: the daemon takes the stop, or the
    stop is made in this process, after the refused request when the
    daemon was asked. *)
Lemma stopTracking_run (env : StopEnv) (w : World) :
  stopTracking env w
  = if daemonTakesStop env then (Ok tt, afterCall CallStop true w)
    else
      stopTrackingLocal (stopNow env)
        (if daemonAnswers (stopProbe env)
            && match stopGitRoot env with Some _ => true | None => false end
         then afterCall CallStop false w
         else w).
Proof.
  unfold stopTracking, bind, daemonTakesStop.
  rewrite stopTrackingDaemon_run.
  destruct (daemonAnswers (stopProbe env)); [| reflexivity].
  destruct (stopGitRoot env); [| reflexivity].
  destruct (stopViaDaemon env) as [[] | m]; reflexivity.
Qed.

Lemma confirmReplace_closed (env : StartEnv) (w : World) (m : string) :
  activeTracking (config w) <> None ->
  shouldContinue env = Thrown m ->
  confirmReplace env w = (Thrown m, w).
Proof.
  intros Hbusy Hm. unfold confirmReplace, bind, getConfig. cbn.
  destruct (activeTracking (config w)); [| congruence].
  rewrite Hm. reflexivity.
Qed.

(** ** The store keeps its ids apart *)

Lemma addActivityLog_freshIds (branch directory : string) (startTime : Z)
    (endTime : option Z) (issueId : option JsId) (description : option string)
    (c : Config) :
  freshIds c ->
  freshIds (addActivityLog branch directory startTime endTime issueId
              description c).
Proof.
  unfold freshIds, uniqueIds. intros [Hu Hlt]. cbn. split.
  - rewrite map_app. cbn. apply NoDup_app;
      [exact Hu | repeat constructor; intros [] |].
    intros j Hj [<- | []]. apply in_map_iff in Hj.
    destruct Hj as (a & Ha & Hin).
    rewrite Forall_forall in Hlt. specialize (Hlt a Hin). lia.
  - apply Forall_app. split.
    + eapply Forall_impl; [| exact Hlt]. cbn. intros a Ha. lia.
    + repeat constructor.
Qed.

Lemma apply_id (p : Activity.patch) (a : Activity.t) :
  Activity.id (Activity.apply p a) = Activity.id a.
Proof. reflexivity. Qed.

Lemma updateActivityLog_ids (id : nat) (p : Activity.patch) (c : Config) :
  map Activity.id (activityLog (updateActivityLog id p c))
  = map Activity.id (activityLog c).
Proof.
  cbn. rewrite map_map. apply map_ext. intros a.
  destruct (Nat.eqb (Activity.id a) id); reflexivity.
Qed.

Lemma updateActivityLog_freshIds (id : nat) (p : Activity.patch) (c : Config) :
  freshIds c -> freshIds (updateActivityLog id p c).
Proof.
  unfold freshIds, uniqueIds. intros [Hu Hlt].
  rewrite updateActivityLog_ids. split; [exact Hu |].
  cbn. rewrite Forall_map. eapply Forall_impl; [| exact Hlt].
  cbn. intros a Ha. destruct (Nat.eqb (Activity.id a) id); exact Ha.
Qed.

Example sample_logs_have_fresh_ids : freshIds (config twoEntries).
Proof.
  split.
  - unique_ids.
  - cbn. repeat constructor.
Qed.

(** ** Segment tiling *)









Section OneLifetime.

Variables (log0 : list Activity.t) (dir : string) (t0 : Z).



End OneLifetime.



Lemma producedBetween_app (w0 w : World) (es : list Activity.t) :
  activityLog (config w) = (activityLog (config w0) ++ es)%list ->
  producedBetween w0 w = es.
Proof.
  intros H. unfold producedBetween. rewrite H.
  apply skipn_prefix.
Qed.



Example scenario_entries :
  producedBetween idleWorld
    (snd (trackingRun (startAt "feature/x" T0 T0 false) noOptions
            scenarioPolls (stopAt (T0 + minutes 25)) idleWorld))
  = [Activity.mk 0 "feature/x" "/repo" T0 (Some (T0 + minutes 15))
       (Some (IdNum 0)) None false;
     Activity.mk 1 "main" "/repo" (T0 + minutes 15) (Some (T0 + minutes 25))
       (Some (IdNum 0)) None false].
Proof. vm_compute. reflexivity. Qed.


(** ** The sync loop in closed form *)

Lemma syncActivity_run (date : string) (e : ItemEnv) (a : Activity.t)
    (counts : SyncReport) (w : World) :
  truthyStr (jiraAccountId (config w)) = true ->
  let v := verdict date (jiraAccountId (config w)) e a in
  syncActivity date e a counts w
  = (Ok (tally v counts),
     mkWorld (settle a v (config w)) (activeCheckInterval w)
       (activePulseInterval w) (autoStopTimer w)
       (trace w ++ effectOf a v)).
Proof.
  intros Hj. destruct w as [c ci pi ast tr]. cbn in Hj |- *.
  unfold syncActivity, verdict, skipped, resolveIssueId, tryCatch, bind.
  destruct (Activity.endTime a) as [t |]; cbn; [| now rewrite app_nil_r].
  destruct (durationSeconds (Activity.startTime a) t <? 60); cbn;
    [now rewrite app_nil_r |].
  destruct (truthyId (Activity.issueId a)) eqn:Ei; cbn.
  - rewrite Hj. cbn. destruct (createWorklog e) as [[] | m]; cbn;
      rewrite Ei; reflexivity.
  - destruct (promptIssueId (typed e)) as [s | m]; cbn;
      [| now rewrite app_nil_r].
    rewrite Hj. cbn.
    destruct (createWorklog e) as [[] | m]; cbn; rewrite Ei; reflexivity.
Qed.

Lemma settle_account (a : Activity.t) (v : Verdict) (c : Config) :
  jiraAccountId (settle a v c) = jiraAccountId c.
Proof.
  destruct v as [| | req ok]; try reflexivity.
  cbn. destruct ok, (truthyId (Activity.issueId a)); reflexivity.
Qed.

Lemma syncLoop_run (date : string) (env : nat -> ItemEnv) :
  forall (l : list Activity.t) (i : nat) (counts : SyncReport) (w : World),
    truthyStr (jiraAccountId (config w)) = true ->
    let vs := verdicts date (jiraAccountId (config w)) env i l in
    syncLoop date env i l counts w
    = (Ok (tallyAll vs counts),
       mkWorld (settleAll l vs (config w)) (activeCheckInterval w)
         (activePulseInterval w) (autoStopTimer w)
         (trace w ++ effectsOf l vs)).
Proof.
  induction l as [| a l IH]; intros i counts w Hj.
  - destruct w; cbn. now rewrite app_nil_r.
  - cbn [syncLoop]. unfold bind. rewrite syncActivity_run by exact Hj.
    cbv zeta. rewrite IH by (cbn; now rewrite settle_account).
    cbn. rewrite settle_account, app_assoc. reflexivity.
Qed.

Lemma tallyAll_counts (vs : list Verdict) :
  forall counts,
    successCount (tallyAll vs counts)
    = (successCount counts + List.length (filter isSuccess vs))%nat
    /\ failCount (tallyAll vs counts)
       = (failCount counts + List.length (filter isFailure vs))%nat.
Proof.
  unfold tallyAll.
  induction vs as [| v vs IH]; intros counts; cbn [fold_left].
  - cbn. lia.
  - destruct (IH (tally v counts)) as [Hs Hf]. rewrite Hs, Hf.
    destruct v as [| | req [|]]; cbn; lia.
Qed.

Lemma syncTempoLocal_run (date : string) (env : nat -> ItemEnv) (w : World) :
  configured (config w) = true ->
  let due := filter (dueOn date) (activityLog (config w)) in
  let vs := verdicts date (jiraAccountId (config w)) env 0 due in
  syncTempoLocal date env w
  = (Ok (match due with
         | [] => None
         | _ => Some (mkReport (List.length (filter isSuccess vs))
                        (List.length (filter isFailure vs)))
         end),
     mkWorld (settleAll due vs (config w)) (activeCheckInterval w)
       (activePulseInterval w) (autoStopTimer w)
       (trace w ++ effectsOf due vs)).
Proof.
  intros Hc due vs. unfold configured in Hc.
  apply andb_true_iff in Hc. destruct Hc as [Hk Hj].
  unfold syncTempoLocal, bind, getConfig. rewrite Hk, Hj. cbn [negb orb].
  fold due. destruct due as [| a l] eqn:Ed.
  - destruct w; cbn. now rewrite app_nil_r.
  - cbn [List.length Nat.eqb]. rewrite syncLoop_run by exact Hj.
    fold vs. destruct (tallyAll_counts vs (mkReport 0 0)) as [Hs Hf].
    destruct (tallyAll vs (mkReport 0 0)) as [sc fc]. cbn in Hs, Hf.
    subst. reflexivity.
Qed.

Lemma syncTempoLocal_unconfigured (date : string) (env : nat -> ItemEnv)
    (w : World) :
  configured (config w) = false ->
  syncTempoLocal date env w = (Ok None, w).
Proof.
  intros Hc. unfold configured in Hc. unfold syncTempoLocal, bind, getConfig.
  destruct (truthyStr (apiKey (config w))),
    (truthyStr (jiraAccountId (config w))); try discriminate; reflexivity.
Qed.

(** ** The activity log after a sync *)

Lemma map_other_ids (j : nat) (f : Activity.t -> Activity.t)
    (l : list Activity.t) :
  ~ In j (map Activity.id l) ->
  map (fun b => if Nat.eqb (Activity.id b) j then f b else b) l = l.
Proof.
  induction l as [| b l IH]; intros Hn; [reflexivity |].
  cbn in Hn |- *.
  destruct (Nat.eqb_spec (Activity.id b) j) as [E | E]; [tauto |].
  rewrite IH by tauto. reflexivity.
Qed.

Lemma updateActivityLog_unique (p : Activity.patch) (a : Activity.t)
    (done todo : list Activity.t) (c : Config) :
  activityLog c = (done ++ a :: todo)%list ->
  uniqueIds (done ++ a :: todo) ->
  activityLog (updateActivityLog (Activity.id a) p c)
  = (done ++ Activity.apply p a :: todo)%list.
Proof.
  unfold uniqueIds. intros Hlog Hu. cbn. rewrite Hlog.
  rewrite map_app in Hu. cbn in Hu.
  pose proof (NoDup_remove_2 _ _ _ Hu) as Hn.
  rewrite in_app_iff in Hn.
  rewrite map_app. cbn. rewrite Nat.eqb_refl.
  rewrite !map_other_ids by tauto. reflexivity.
Qed.

Lemma settled_id (a : Activity.t) (v : Verdict) :
  Activity.id (settled a v) = Activity.id a.
Proof. destruct v; reflexivity. Qed.

Lemma settle_log (date : string) (account : option string) (e : ItemEnv)
    (a : Activity.t) (done todo : list Activity.t) (c : Config) :
  activityLog c = (done ++ a :: todo)%list ->
  uniqueIds (done ++ a :: todo) ->
  let v := verdict date account e a in
  activityLog (settle a v c) = (done ++ settled a v :: todo)%list.
Proof.
  intros Hlog Hu v. subst v. unfold verdict.
  destruct (skipped a); [exact Hlog |].
  unfold resolveIssueId.
  destruct (truthyId (Activity.issueId a)) eqn:Ei; cbn [negb].
  - cbn [settle settled worklogIssueId]. rewrite Ei.
    destruct (isOk (createWorklog e)).
    + rewrite (updateActivityLog_unique _ a done todo) by assumption.
      reflexivity.
    + rewrite Hlog. destruct a; reflexivity.
  - destruct (promptIssueId (typed e)) as [s | m]; [| exact Hlog].
    cbn [settle settled worklogIssueId]. rewrite Ei.
    pose proof (updateActivityLog_unique
                  (Activity.mkPatch (Some (IdStr s)) None) a done todo c
                  Hlog Hu) as H1.
    destruct (isOk (createWorklog e)); [| exact H1].
    set (a1 := Activity.apply (Activity.mkPatch (Some (IdStr s)) None) a) in *.
    change (Activity.id a) with (Activity.id a1).
    rewrite (updateActivityLog_unique _ a1 done todo) by
      (try exact H1; unfold uniqueIds in *; rewrite map_app in *; exact Hu).
    reflexivity.
Qed.

Lemma settleAll_log (date : string) (account : option string)
    (env : nat -> ItemEnv) :
  forall (todo done : list Activity.t) (c : Config) (i : nat),
    activityLog c = (done ++ todo)%list ->
    uniqueIds (done ++ todo) ->
    activityLog
      (settleAll (filter (dueOn date) todo)
         (verdicts date account env i (filter (dueOn date) todo)) c)
    = (done ++ syncedLog date account env i todo)%list.
Proof.
  induction todo as [| b todo IH]; intros done c i Hlog Hu.
  - cbn. exact Hlog.
  - cbn [filter syncedLog]. destruct (dueOn date b).
    + cbn [verdicts settleAll].
      pose proof (settle_log date account (env i) b done todo c Hlog Hu) as H.
      cbv zeta in H.
      rewrite (IH (done ++ [settled b (verdict date account (env i) b)])%list).
      * rewrite <- app_assoc. reflexivity.
      * rewrite H, <- app_assoc. reflexivity.
      * unfold uniqueIds in *. rewrite <- app_assoc. cbn.
        rewrite map_app in *. cbn in *. rewrite settled_id. exact Hu.
    + rewrite (IH (done ++ [b])%list).
      * rewrite <- app_assoc. reflexivity.
      * rewrite Hlog, <- app_assoc. reflexivity.
      * rewrite <- app_assoc. exact Hu.
Qed.

Section SyncFacts.

Variables (date : string) (account : option string) (env : nat -> ItemEnv).

Lemma effectsOf_In (a : Activity.t) (req : WorklogRequest) (ok : bool) :
  forall (l : list Activity.t) (i : nat),
    In (Worklog a req ok) (effectsOf l (verdicts date account env i l))
    <-> exists k, nth_error l k = Some a
                  /\ verdict date account (env (i + k)%nat) a = Sent req ok.
Proof.
  induction l as [| b l IH]; intros i; cbn [verdicts effectsOf].
  - split; [intros [] | intros (k & Hk & _); destruct k; discriminate].
  - rewrite in_app_iff, IH. split.
    + intros [H | (k & Hk & Hv)].
      * exists 0%nat. rewrite Nat.add_0_r.
        destruct (verdict date account (env i) b) as [| | r o] eqn:Ev;
          cbn in H; try tauto.
        destruct H as [H | []]. injection H as <- <- <-. now split.
      * exists (S k). rewrite Nat.add_succ_r. now split.
    + intros (k & Hk & Hv). destruct k as [| k].
      * left. cbn in Hk. injection Hk as ->. rewrite Nat.add_0_r in Hv.
        rewrite Hv. now left.
      * right. exists k. rewrite Nat.add_succ_r in Hv. now split.
Qed.

Lemma syncedLog_ids (log : list Activity.t) (i : nat) :
  map Activity.id (syncedLog date account env i log) = map Activity.id log.
Proof.
  revert i. induction log as [| b log IH]; intros i; [reflexivity |].
  cbn. destruct (dueOn date b); cbn; rewrite ?settled_id, IH; reflexivity.
Qed.

Lemma syncedLog_due (log : list Activity.t) :
  forall (i k : nat) (a : Activity.t),
    nth_error (filter (dueOn date) log) k = Some a ->
    In (settled a (verdict date account (env (i + k)%nat) a))
       (syncedLog date account env i log).
Proof.
  induction log as [| b log IH]; intros i k a Hk; [destruct k; discriminate |].
  cbn in Hk |- *. destruct (dueOn date b).
  - destruct k as [| k]; cbn in Hk.
    + injection Hk as ->. rewrite Nat.add_0_r. now left.
    + right. rewrite Nat.add_succ_r. now apply (IH (S i)).
  - right. now apply IH.
Qed.

Lemma syncedLog_In (log : list Activity.t) :
  forall (i : nat) (b : Activity.t),
    In b (syncedLog date account env i log) ->
    exists b0, In b0 log
      /\ (b = b0
          \/ exists k, nth_error (filter (dueOn date) log) k = Some b0
               /\ b = settled b0 (verdict date account (env (i + k)%nat) b0)).
Proof.
  induction log as [| c log IH]; intros i b Hin; [destruct Hin |].
  cbn in Hin |- *. destruct (dueOn date c).
  - destruct Hin as [<- | Hin].
    + exists c. split; [now left |]. right. exists 0%nat.
      rewrite Nat.add_0_r. now split.
    + destruct (IH _ _ Hin) as (b0 & Hb0 & [-> | (k & Hk & ->)]).
      * exists b0. split; [now right | now left].
      * exists b0. split; [now right |]. right. exists (S k).
        rewrite Nat.add_succ_r. now split.
  - destruct Hin as [<- | Hin].
    + exists c. split; [now left | now left].
    + destruct (IH _ _ Hin) as (b0 & Hb0 & H).
      exists b0. split; [now right | exact H].
Qed.

End SyncFacts.

Lemma uniqueIds_eq (l : list Activity.t) (x y : Activity.t) :
  uniqueIds l -> In x l -> In y l -> Activity.id x = Activity.id y -> x = y.
Proof.
  unfold uniqueIds. induction l as [| c l IH]; intros Hu Hx Hy E; [destruct Hx |].
  cbn in Hu. inversion Hu as [| ? ? Hn Hu']; subst.
  destruct Hx as [-> | Hx], Hy as [-> | Hy]; auto.
  - exfalso. apply Hn. rewrite E. now apply in_map.
  - exfalso. apply Hn. rewrite <- E. now apply in_map.
Qed.

Lemma findActivity_unique (l : list Activity.t) (x : Activity.t) :
  uniqueIds l -> In x l -> findActivity (Activity.id x) l = Some x.
Proof.
  intros Hu Hx. unfold findActivity.
  destruct (find (fun a => Nat.eqb (Activity.id a) (Activity.id x)) l)
    as [y |] eqn:E.
  - apply find_some in E. destruct E as [Hy E].
    apply Nat.eqb_eq in E. f_equal. eapply uniqueIds_eq; eauto.
  - exfalso. apply (find_none _ _ E) in Hx. now rewrite Nat.eqb_refl in Hx.
Qed.

Lemma syncTempoDaemon_down (date : string) (env : SyncEnv) (w : World) :
  daemonAnswers (syncProbe env) = false ->
  syncTempoDaemon date env w = (Ok false, w).
Proof.
  intros H. unfold syncTempoDaemon, tryCatch, bind.
  rewrite isDaemonRunning_run, H. reflexivity.
Qed.

Lemma syncTempo_down (date : string) (env : SyncEnv) (w : World) :
  daemonAnswers (syncProbe env) = false ->
  syncTempo date env w = syncTempoLocal date (items env) w.
Proof.
  intros H. unfold syncTempo, bind.
  rewrite syncTempoDaemon_down by exact H. reflexivity.
Qed.

(** The sync in this process, in closed form. *)
Lemma syncTempo_closed (date : string) (env : SyncEnv) (w : World) :
  daemonAnswers (syncProbe env) = false ->
  configured (config w) = true ->
  uniqueIds (activityLog (config w)) ->
  let due := filter (dueOn date) (activityLog (config w)) in
  let vs := verdicts date (jiraAccountId (config w)) (items env) 0 due in
  let w' := snd (syncTempo date env w) in
  fst (syncTempo date env w)
  = Ok (match due with
        | [] => None
        | _ => Some (mkReport (List.length (filter isSuccess vs))
                       (List.length (filter isFailure vs)))
        end)
  /\ activityLog (config w')
     = syncedLog date (jiraAccountId (config w)) (items env) 0
         (activityLog (config w))
  /\ sentBetween w w' = effectsOf due vs.
Proof.
  intros Hd Hc Hu due vs w'. subst w'.
  rewrite syncTempo_down by exact Hd.
  rewrite syncTempoLocal_run by exact Hc. cbv zeta. cbn [fst snd config trace].
  fold due. fold vs. split; [reflexivity |]. split.
  - subst vs due.
    rewrite (settleAll_log date _ (items env) (activityLog (config w)) []
               (config w) 0%nat); auto.
  - unfold sentBetween. cbn.
    apply skipn_prefix.
Qed.

(** ** A poll without a session *)

(** C10. When the branch poll fires while no session is recorded, the
    firing changes nothing that is stored (no entry is appended, the
    configuration is the same), sends nothing, and clears its own
    interval, so that the timer does not call it again. *)
Theorem poll_without_session_cancels (env : PollEnv) (w : World) :
  activeTracking (config w) = None ->
  let w' := snd (checkCurrentBranch env w) in
  fst (checkCurrentBranch env w) = Ok tt
  /\ config w' = config w
  /\ producedBetween w w' = []
  /\ trace w' = trace w
  /\ activePulseInterval w' = activePulseInterval w
  /\ autoStopTimer w' = autoStopTimer w
  /\ activeCheckInterval w' = None
  /\ forall later, branchPollTick later w' = (Ok tt, w').
Proof.
  intros Hidle. cbv zeta. rewrite checkCurrentBranch_run, Hidle.
  cbn [fst snd config trace activePulseInterval autoStopTimer
       activeCheckInterval].
  repeat split.
  unfold producedBetween. apply skipn_all.
Qed.

Lemma poll_without_session_sample :
  activeTracking (config idleWorld) = None
  /\ activeCheckInterval
       (snd (checkCurrentBranch (mkPollEnv (Ok "main") T0)
               (mkWorld sampleConfig (Some BRANCH_CHECK_INTERVAL_MS) None None
                  [])))
     = None.
Proof.
  split; [reflexivity |].
  apply (poll_without_session_cancels (mkPollEnv (Ok "main") T0)
           (mkWorld sampleConfig (Some BRANCH_CHECK_INTERVAL_MS) None None [])).
  reflexivity.
Defined.

(** ** Pulses *)

Lemma confirmReplace_pulse (env : StartEnv) (remote : Result unit) :
  confirmReplace (withInitialPulse env remote) = confirmReplace env.
Proof. reflexivity. Qed.

Lemma startTrackingDaemon_pulse (gitRoot : string) (env : StartEnv)
    (remote : Result unit) (options : Options) :
  startTrackingDaemon gitRoot (withInitialPulse env remote) options
  = startTrackingDaemon gitRoot env options.
Proof. reflexivity. Qed.


Lemma pulseEffects_length (c : Config) (r1 r2 : Result unit) :
  List.length (pulseEffects c r1) = List.length (pulseEffects c r2).
Proof.
  unfold pulseEffects.
  destruct (negb (truthyStr (apiKey c)) || negb (truthyStr (jiraAccountId c)));
    [reflexivity |].
  destruct (activeTracking c); reflexivity.
Qed.

Lemma pulseEffects_once (c : Config) (r : Result unit) :
  (List.length (pulseEffects c r) <= 1)%nat.
Proof.
  unfold pulseEffects.
  destruct (negb (truthyStr (apiKey c)) || negb (truthyStr (jiraAccountId c)));
    [cbn; lia |].
  destruct (activeTracking c); cbn; lia.
Qed.

Lemma startPulseSending_sameState (r1 r2 : Result unit) (w : World) :
  fst (startPulseSending r1 w) = fst (startPulseSending r2 w)
  /\ sameState (snd (startPulseSending r1 w)) (snd (startPulseSending r2 w)).
Proof.
  rewrite !startPulseSending_run. cbn [fst snd]. split; [reflexivity |].
  unfold sameState. destruct (activePulseInterval w); cbn; repeat split.
  rewrite !length_app. f_equal. apply pulseEffects_length.
Qed.

Lemma startTrackingLocal_sameState (gitRoot : string) (env : StartEnv)
    (options : Options) (r1 r2 : Result unit) (w : World) :
  let a := startTrackingLocal gitRoot (withInitialPulse env r1) options w in
  let b := startTrackingLocal gitRoot (withInitialPulse env r2) options w in
  fst a = fst b /\ sameState (snd a) (snd b).
Proof.
  cbv zeta. unfold startTrackingLocal, bind.
  rewrite !confirmReplace_pulse.
  destruct (confirmReplace env w) as [[[|] | m] w1];
    try (split; [reflexivity | repeat split]).
  cbn [localBranch withInitialPulse startNow initialPulse armNow await].
  destruct (localBranch env) as [b | m];
    [| split; [reflexivity | repeat split]].
  unfold startBranchChecks, stopBranchChecks, scheduleAutoStop, bind.
  cbn -[startPulseSending].
  destruct (activeCheckInterval w1); cbn -[startPulseSending];
    rewrite !startPulseSending_run; cbn;
    (split; [reflexivity |]); unfold sameState;
    destruct (activePulseInterval w1); cbn; repeat split;
    rewrite !length_app; f_equal; apply pulseEffects_length.
Qed.

(** C7. A failing pulse is swallowed.  [sendPulse] returns normally
    whatever the remote call did, changes neither the store nor a timer,
    and makes at most one request (no retry); [startPulseSending] returns
    normally and leaves the pulse interval armed, which is the next
    attempt; and a start whose initial pulse fails ends exactly like the
    same start with a successful pulse, up to the outcome the trace
    records. *)
Theorem pulse_failure_is_swallowed (message : string) :
  (forall w,
      let w' := snd (sendPulse (Thrown message) w) in
      fst (sendPulse (Thrown message) w) = Ok tt
      /\ sameState w' (snd (sendPulse (Ok tt) w))
      /\ config w' = config w
      /\ sentBetween w w' = pulseEffects (config w) (Thrown message)
      /\ (List.length (sentBetween w w') <= 1)%nat)
  /\ (forall w,
         let w' := snd (startPulseSending (Thrown message) w) in
         fst (startPulseSending (Thrown message) w) = Ok tt
         /\ config w' = config w
         /\ activePulseInterval w' <> None
         /\ (List.length (sentBetween w w') <= 1)%nat)
  /\ (forall env options w,
         let failing :=
           startTracking (withInitialPulse env (Thrown message)) options w in
         let passing :=
           startTracking (withInitialPulse env (Ok tt)) options w in
         fst failing = fst passing
         /\ sameState (snd failing) (snd passing)).
Proof.
  split; [| split].
  - intros w. cbv zeta. rewrite !sendPulse_run. cbn [fst snd config].
    assert (Hsent : sentBetween w
              (mkWorld (config w) (activeCheckInterval w)
                 (activePulseInterval w) (autoStopTimer w)
                 (trace w ++ pulseEffects (config w) (Thrown message)))
            = pulseEffects (config w) (Thrown message)).
    { unfold sentBetween. cbn.
      apply skipn_prefix. }
    rewrite Hsent. repeat split.
    + cbn. rewrite !length_app. f_equal. apply pulseEffects_length.
    + apply pulseEffects_once.
  - intros w. cbv zeta. rewrite startPulseSending_run. cbn [fst snd].
    unfold sentBetween.
    destruct (activePulseInterval w) eqn:E; cbn; repeat split;
      try congruence.
    + rewrite skipn_all. cbn. lia.
    + rewrite skipn_prefix.
      apply pulseEffects_once.
  - intros env options w. cbv zeta. unfold startTracking.
    cbn [startGitRoot withInitialPulse].
    destruct (startGitRoot env) as [gitRoot |];
      [| split; [reflexivity | repeat split]].
    unfold bind. rewrite !startTrackingDaemon_pulse.
    destruct (startTrackingDaemon gitRoot env options w) as [[[|] | m] w1];
      try (split; [reflexivity | repeat split]).
    apply startTrackingLocal_sameState.
Qed.

(** ** The daemon probe *)


Lemma statusTracking_down (env : StatusEnv) (w : World) :
  daemonAnswers (statusProbe env) = false ->
  statusTracking env w = (Ok (localStatusLines env (config w)), w).
Proof.
  intros H. unfold statusTracking, tryCatch, bind.
  rewrite isDaemonRunning_run, H. reflexivity.
Qed.




Example probe_answers_in_time :
  isDaemonRunning liveDaemon idleWorld = (Ok true, idleWorld).
Proof. reflexivity. Qed.

Example probe_rejected_status :
  isDaemonRunning (mkProbeEnv true true (Rejects 3 "closed")) idleWorld
  = (Ok false, idleWorld).
Proof. reflexivity. Qed.

(** ** Starting while a session is recorded *)

Lemma startTrackingDaemon_found (gitRoot : string) (env : StartEnv)
    (options : Options) (w : World) (branch : string)
    (sessions : list Session.t) (s : Session.t) :
  daemonAnswers (startProbe env) = true ->
  daemonBranch env = Ok branch ->
  daemonStatus env = Ok sessions ->
  find (fun s => Session.directory s =? gitRoot)%string sessions = Some s ->
  startTrackingDaemon gitRoot env options w = (Ok true, w).
Proof.
  intros Hup Hb Hs Hf. unfold startTrackingDaemon, tryCatch, bind.
  rewrite isDaemonRunning_run, Hup, Hb, Hs. cbn. rewrite Hf. reflexivity.
Qed.

Lemma confirmReplace_declined (env : StartEnv) (w : World) :
  activeTracking (config w) <> None ->
  shouldContinue env = Ok false ->
  confirmReplace env w = (Ok false, w).
Proof.
  intros Hbusy Hno. unfold confirmReplace, bind, getConfig. cbn.
  destruct (activeTracking (config w)); [| congruence].
  rewrite Hno. reflexivity.
Qed.

(** The claim of C2 fails when the user confirms the prompt: the start
    returns normally, the recorded session is closed into the log and a
    new one is recorded. *)
Lemma start_replaces_on_confirm :
  let run := startTracking (startAt "main" (T0 + minutes 60)
                              (T0 + minutes 60) true)
               noOptions busyWorld in
  activeTracking (config busyWorld)
  = Some (ActiveTracking.mk "main" "/repo" T0 0 None)
  /\ fst run = Ok tt
  /\ activityLog (config (snd run))
     = [Activity.mk 0 "main" "/repo" T0 (Some (T0 + minutes 60))
          (Some (IdNum 0)) None false]
  /\ activeTracking (config (snd run))
     = Some (ActiveTracking.mk "main" "/repo" (T0 + minutes 60) 0 None)
  /\ config (snd run) <> config busyWorld.
Proof.
  vm_compute. repeat split. discriminate.
Qed.

(** C2, amended.  A start in a directory that is already tracked fails
    with no conflict error.  When the daemon answers the probe, the
    branch is read and the daemon reports a session of the directory,
    the start returns normally and changes nothing (store, timers,
    requests).  When no daemon answers and a session is recorded in this
    process, the user is asked whether to replace it: on "no" the start
    returns normally and changes nothing; when the prompt is closed the
    start raises that error and changes nothing; on "yes" the recorded
    session is stopped first, which closes it into one entry of the log
    that ends at the clock reading of that stop, unless the daemon takes
    the stop, in which case no entry is appended.  Then the branch is
    read: the start returns normally with the new session recorded in
    place of the old one, or, when the branch cannot be read, raises
    that error and records no new session. *)
Theorem start_on_tracked_directory (env : StartEnv) (options : Options)
    (w : World) (gitRoot : string) :
  startGitRoot env = Some gitRoot ->
  let run := startTracking env options w in
  (daemonAnswers (startProbe env) = true ->
   isOk (daemonBranch env) = true ->
   (exists sessions s,
       daemonStatus env = Ok sessions
       /\ find (fun s => Session.directory s =? gitRoot)%string sessions
          = Some s) ->
   run = (Ok tt, w))
  /\ (daemonAnswers (startProbe env) = false ->
      forall s,
        activeTracking (config w) = Some s ->
        (shouldContinue env = Ok false -> run = (Ok tt, w))
        /\ (forall m, shouldContinue env = Thrown m -> run = (Thrown m, w))
        /\ (shouldContinue env = Ok true ->
            producedBetween w (snd run)
            = (if daemonTakesStop (replaceStop env) then []
               else
                 [Activity.mk (nextId (config w)) (ActiveTracking.branch s)
                    (ActiveTracking.directory s)
                    (ActiveTracking.startTime s)
                    (Some (stopNow (replaceStop env)))
                    (Some (IdNum (ActiveTracking.issueId s)))
                    (ActiveTracking.description s) false])
            /\ match localBranch env with
               | Ok branch =>
                   fst run = Ok tt
                   /\ activeTracking (config (snd run))
                      = Some (newSession gitRoot branch env options)
               | Thrown m =>
                   fst run = Thrown m
                   /\ activeTracking (config (snd run))
                      = (if daemonTakesStop (replaceStop env) then Some s
                         else None)
               end)).
Proof.
  intros Hroot. cbv zeta. split.
  - intros Hup Hb (sessions & s & Hs & Hf).
    unfold startTracking, bind. rewrite Hroot.
    destruct (daemonBranch env) as [branch |] eqn:Eb; [| discriminate].
    rewrite (startTrackingDaemon_found gitRoot env options w branch sessions s)
      by assumption.
    reflexivity.
  - intros Hdown s Hs.
    assert (Hbusy : activeTracking (config w) <> None) by congruence.
    rewrite (startTracking_down gitRoot) by assumption.
    unfold startTrackingLocal, bind.
    split; [| split].
    + intros Hno. rewrite confirmReplace_declined by assumption.
      reflexivity.
    + intros m Hm. rewrite (confirmReplace_closed env w m) by assumption.
      reflexivity.
    + intros Hyes.
      rewrite (confirmReplace_confirmed env w s) by assumption.
      rewrite stopTracking_run.
      destruct (daemonTakesStop (replaceStop env)).
      * unfold startBranchChecks, scheduleAutoStop, bind, await, afterCall.
        destruct (localBranch env) as [branch | m].
        -- cbn -[startPulseSending].
           destruct (activeCheckInterval w); cbn -[startPulseSending];
             rewrite startPulseSending_run; cbn;
             destruct (activePulseInterval w); cbn;
             (split; [apply producedBetween_app; cbn;
                      now rewrite app_nil_r |]);
             split; reflexivity.
        -- cbn. split; [| split; [reflexivity | exact Hs]].
           apply producedBetween_app. cbn. now rewrite app_nil_r.
      * match goal with |- context [stopTrackingLocal _ ?x] =>
          set (w1 := x) end.
        assert (Hc : config w1 = config w)
          by (subst w1; destruct (daemonAnswers _ && _); reflexivity).
        rewrite stopTrackingLocal_run, Hc, Hs. clearbody w1.
        unfold startBranchChecks, scheduleAutoStop, bind, await.
        destruct (localBranch env) as [branch | m].
        -- cbn -[startPulseSending]. rewrite startPulseSending_run. cbn.
           split; [| split; reflexivity].
           apply producedBetween_app. reflexivity.
        -- cbn. split; [| split; reflexivity].
           apply producedBetween_app. reflexivity.
Qed.

Lemma start_on_tracked_directory_sample :
  activeTracking (config busyWorld)
  = Some (ActiveTracking.mk "main" "/repo" T0 0 None)
  /\ startTracking (startAt "main" (T0 + minutes 60) (T0 + minutes 60) false)
       noOptions busyWorld
     = (Ok tt, busyWorld).
Proof.
  split; [reflexivity |].
  destruct (start_on_tracked_directory
              (startAt "main" (T0 + minutes 60) (T0 + minutes 60) false)
              noOptions busyWorld "/repo" eq_refl) as [_ H].
  destruct (H eq_refl (ActiveTracking.mk "main" "/repo" T0 0 None) eq_refl)
    as (Hno & _).
  exact (Hno eq_refl).
Defined.

(** A prompt that is closed instead of answered is raised by the
    start. *)
Example start_with_closed_prompt :
  startTracking
    (mkStartEnv (Some "/repo") noDaemon (Ok "main") (Ok []) (Ok tt) (Ok [])
       (Thrown "User force closed the prompt") (stopAt T0) (Ok "main") T0
       (Ok tt) T0)
    noOptions busyWorld
  = (Thrown "User force closed the prompt", busyWorld).
Proof. reflexivity. Qed.

Example start_when_daemon_tracks :
  startTracking
    (mkStartEnv (Some "/repo") liveDaemon (Ok "main")
       (Ok [Session.mk "/repo" "main" T0 None None]) (Ok tt) (Ok [])
       (Ok false) (stopAt T0) (Ok "main") T0 (Ok tt) T0)
    noOptions idleWorld
  = (Ok tt, idleWorld).
Proof. reflexivity. Qed.

(** ** Auto-stop *)






(** ** Syncing twice *)

Lemma settle_keys (a : Activity.t) (v : Verdict) (c : Config) :
  configured (settle a v c) = configured c.
Proof.
  destruct v as [| | req ok]; try reflexivity.
  cbn. destruct ok, (truthyId (Activity.issueId a)); reflexivity.
Qed.

Lemma settleAll_keys (l : list Activity.t) :
  forall vs c, configured (settleAll l vs c) = configured c.
Proof.
  induction l as [| a l IH]; intros vs c; [reflexivity |].
  destruct vs as [| v vs]; [reflexivity |].
  cbn. rewrite IH. apply settle_keys.
Qed.

Lemma syncTempo_keeps_keys (date : string) (env : SyncEnv) (w : World) :
  daemonAnswers (syncProbe env) = false ->
  configured (config (snd (syncTempo date env w))) = configured (config w).
Proof.
  intros Hd. rewrite syncTempo_down by exact Hd.
  destruct (configured (config w)) eqn:Hc.
  - rewrite syncTempoLocal_run by exact Hc. cbn.
    rewrite settleAll_keys. exact Hc.
  - rewrite syncTempoLocal_unconfigured by exact Hc. exact Hc.
Qed.

Lemma sentBetween_same (w : World) : sentBetween w w = [].
Proof. unfold sentBetween. apply skipn_all. Qed.

Lemma dueOn_unsynced (date : string) (a : Activity.t) :
  dueOn date a = true -> Activity.synced a = false.
Proof.
  unfold dueOn. intros H. apply andb_true_iff in H. destruct H as [_ H].
  now destruct (Activity.synced a).
Qed.

(** C4. Two syncs of the same date in a row: the second submits only
    entries that the store still holds as unsynced after the first, never
    one that is stored as synced; every entry the first submitted
    successfully is stored as synced after it; and an entry is synced
    after a sync only if it was synced before or its own submission
    succeeded in that sync. *)
Theorem sync_twice (date : string) (env1 env2 : SyncEnv) (w : World) :
  daemonAnswers (syncProbe env1) = false ->
  daemonAnswers (syncProbe env2) = false ->
  uniqueIds (activityLog (config w)) ->
  let w1 := snd (syncTempo date env1 w) in
  let w2 := snd (syncTempo date env2 w1) in
  (forall a req ok,
      In (Worklog a req ok) (sentBetween w1 w2) ->
      In a (activityLog (config w1))
      /\ Activity.synced a = false
      /\ forall b,
           In b (activityLog (config w1)) ->
           Activity.synced b = true ->
           Activity.id b <> Activity.id a)
  /\ (forall a1 req1,
         In (Worklog a1 req1 true) (sentBetween w w1) ->
         exists b,
           In b (activityLog (config w1))
           /\ Activity.id b = Activity.id a1
           /\ Activity.synced b = true)
  /\ (forall b,
         In b (activityLog (config w1)) ->
         Activity.synced b = true ->
         exists b0,
           In b0 (activityLog (config w))
           /\ Activity.id b0 = Activity.id b
           /\ (Activity.synced b0 = true
               \/ exists req, In (Worklog b0 req true) (sentBetween w w1))).
Proof.
  intros Hd1 Hd2 Hu. cbv zeta.
  destruct (configured (config w)) eqn:Hc.
  - destruct (syncTempo_closed date env1 w Hd1 Hc Hu) as (_ & Hlog1 & Hsent1).
    cbv zeta in Hlog1, Hsent1.
    pose proof (syncTempo_keeps_keys date env1 w Hd1) as Hc1.
    rewrite Hc in Hc1.
    set (w1 := snd (syncTempo date env1 w)) in *.
    assert (Hu1 : uniqueIds (activityLog (config w1))).
    { unfold uniqueIds. rewrite Hlog1, syncedLog_ids. exact Hu. }
    destruct (syncTempo_closed date env2 w1 Hd2 Hc1 Hu1) as (_ & _ & Hsent2).
    cbv zeta in Hsent2. split; [| split].
    + intros a req ok Hin. rewrite Hsent2 in Hin.
      apply effectsOf_In in Hin. destruct Hin as (k & Hk & _).
      apply nth_error_In in Hk. apply filter_In in Hk.
      destruct Hk as [Ha Hdue]. apply dueOn_unsynced in Hdue.
      split; [exact Ha |]. split; [exact Hdue |].
      intros b Hb Hsynced E.
      assert (Heq : b = a) by (eapply uniqueIds_eq; eauto).
      subst b. congruence.
    + intros a1 req1 Hin1. rewrite Hsent1 in Hin1.
      apply effectsOf_In in Hin1. destruct Hin1 as (k1 & Hk1 & Hv1).
      pose proof (syncedLog_due date (jiraAccountId (config w)) (items env1)
                    _ 0%nat k1 a1 Hk1) as Hs.
      rewrite Hv1, <- Hlog1 in Hs.
      exists (settled a1 (Sent req1 true)). auto.
    + intros b Hb Hsynced. rewrite Hlog1 in Hb.
      apply syncedLog_In in Hb.
      destruct Hb as (b0 & Hb0 & [-> | (k & Hk & ->)]).
      * exists b0. auto.
      * exists b0. rewrite settled_id. split; [exact Hb0 |].
        split; [reflexivity |].
        destruct (verdict date (jiraAccountId (config w)) (items env1 (0 + k))
                    b0) as [| | req [|]] eqn:Ev; cbn in Hsynced; auto.
        right. exists req. rewrite Hsent1. apply effectsOf_In.
        exists k. split; assumption.
  - rewrite (syncTempo_down date env1) by exact Hd1.
    rewrite syncTempoLocal_unconfigured by exact Hc. cbn [snd].
    rewrite (syncTempo_down date env2) by exact Hd2.
    rewrite syncTempoLocal_unconfigured by exact Hc. cbn [snd].
    rewrite sentBetween_same. split; [| split].
    + intros a req ok [].
    + intros a1 req1 [].
    + intros b Hb Hs. exists b. auto.
Qed.

Lemma sync_twice_sample :
  let w1 := snd (syncTempo "2023-11-14" acceptsOnlyFirst twoEntries) in
  let w2 := snd (syncTempo "2023-11-14" (localSync (fun _ => accepted)) w1) in
  uniqueIds (activityLog (config twoEntries))
  /\ forall a req ok,
       In (Worklog a req ok) (sentBetween w1 w2) -> Activity.synced a = false.
Proof.
  cbv zeta.
  assert (H : uniqueIds (activityLog (config twoEntries))).
  { unique_ids. }
  split; [exact H |].
  intros a req ok Hin.
  destruct (sync_twice "2023-11-14" acceptsOnlyFirst
              (localSync (fun _ => accepted)) twoEntries eq_refl eq_refl H)
    as (H1 & _).
  exact (proj1 (proj2 (H1 a req ok Hin))).
Defined.

Example sync_twice_second_run :
  let w1 := snd (syncTempo "2023-11-14" acceptsOnlyFirst twoEntries) in
  let w2 := snd (syncTempo "2023-11-14" (localSync (fun _ => accepted)) w1) in
  map Activity.synced (activityLog (config w1)) = [true; false]
  /\ sentBetween w1 w2
     = [Worklog (entryOf 1 (minutes 45) (Some (IdNum 42)))
          (mkWorklog (Some (IdNum 42)) 2700 "2023-11-14" "22:13"
             "Work on branch: main" (Some "account-1"))
          true]
  /\ map Activity.synced (activityLog (config w2)) = [true; true].
Proof. vm_compute. repeat split. Qed.

(** ** One sync: failures, skips, issue ids *)

Lemma effectsOf_count (ok : bool) (date : string) (account : option string)
    (env : nat -> ItemEnv) (l : list Activity.t) :
  forall i,
    List.length (filter (isWorklog ok)
                   (effectsOf l (verdicts date account env i l)))
    = List.length
        (filter (fun v => match v with
                          | Sent _ o => Bool.eqb ok o
                          | _ => false
                          end)
           (verdicts date account env i l)).
Proof.
  induction l as [| a l IH]; intros i; [reflexivity |].
  cbn [verdicts effectsOf]. rewrite filter_app, length_app, IH.
  destruct (verdict date account (env i) a) as [| | req o]; cbn;
    try reflexivity.
  destruct (Bool.eqb ok o); reflexivity.
Qed.

Lemma failures_split (vs : list Verdict) :
  List.length (filter isFailure vs)
  = (List.length (filter isRejected vs)
     + List.length (filter isAbandoned vs))%nat.
Proof.
  induction vs as [| v vs IH]; [reflexivity |].
  destruct v as [| | req [|]]; cbn; lia.
Qed.

Lemma attempts_split (vs : list Verdict) :
  (List.length (filter isSuccess vs) + List.length (filter isFailure vs))%nat
  = List.length (filter (fun v => match v with Skipped => false | _ => true end)
                   vs).
Proof.
  induction vs as [| v vs IH]; [reflexivity |].
  destruct v as [| | req [|]]; cbn; lia.
Qed.

Lemma durationSeconds_short (s t : Z) :
  (durationSeconds s t <? 60) = true <-> t - s < 59500.
Proof.
  unfold durationSeconds, roundDiv. rewrite Z.ltb_lt. split; intros H.
  - destruct (Z.lt_ge_cases (t - s) 59500) as [Hlt | Hge]; [exact Hlt |].
    exfalso.
    assert (60 <= (2 * (t - s) + 1000) / (2 * 1000))
      by (apply Z.div_le_lower_bound; lia).
    lia.
  - apply Z.div_lt_upper_bound; lia.
Qed.

Lemma skipped_iff (a : Activity.t) :
  skipped a = true <-> openOrShorter 59500 a.
Proof.
  unfold skipped, openOrShorter.
  destruct (Activity.endTime a) as [t |]; [apply durationSeconds_short |].
  tauto.
Qed.

Lemma verdict_skipped (date : string) (account : option string) (e : ItemEnv)
    (a : Activity.t) :
  skipped a = true -> verdict date account e a = Skipped.
Proof. unfold verdict. now intros ->. Qed.

Lemma verdict_not_skipped (date : string) (account : option string)
    (e : ItemEnv) (a : Activity.t) :
  skipped a = false -> verdict date account e a <> Skipped.
Proof.
  unfold verdict. intros ->. destruct (resolveIssueId e a); discriminate.
Qed.

Lemma verdicts_attempted (date : string) (account : option string)
    (env : nat -> ItemEnv) (l : list Activity.t) :
  forall i,
    List.length
      (filter (fun v => match v with Skipped => false | _ => true end)
         (verdicts date account env i l))
    = List.length (filter (fun a => negb (skipped a)) l).
Proof.
  induction l as [| a l IH]; intros i; [reflexivity |].
  cbn [verdicts filter].
  destruct (skipped a) eqn:Es.
  - rewrite verdict_skipped by exact Es. cbn. apply IH.
  - pose proof (verdict_not_skipped date account (env i) a Es) as Hv.
    destruct (verdict date account (env i) a); try congruence;
      cbn; f_equal; apply IH.
Qed.

(** The claim of C5 fails for an entry stored with the issue id 0 that
    [startTracking] writes: the id typed at the prompt is stored before
    the submission, so the entry is changed although its submission
    fails; and the failed count also counts the entry whose prompt was
    abandoned, which was not submitted at all. *)
Lemma failed_submission_keeps_backfill :
  let a := entryOf 0 (minutes 30) (Some (IdNum 0)) in
  let w := worldWithLog [a; entryOf 1 (minutes 45) (Some (IdNum 0))] in
  let env := localSync (fun i => match i with
                                 | O => rejected
                                 | _ => abandoned
                                 end) in
  let run := syncTempo "2023-11-14" env w in
  sentBetween w (snd run)
  = [Worklog a
       (mkWorklog (Some (IdStr "ABC-1")) 1800 "2023-11-14" "22:13"
          "Work on branch: main" (Some "account-1"))
       false]
  /\ findActivity 0 (activityLog (config (snd run)))
     = Some (entryOf 0 (minutes 30) (Some (IdStr "ABC-1")))
  /\ findActivity 0 (activityLog (config (snd run))) <> Some a
  /\ fst run = Ok (Some (mkReport 0 2)).
Proof. vm_compute. repeat split. discriminate. Qed.

(** C5, amended.  In one sync in this process every entry due on the date
    meets its own verdict, whatever happened to the others: it is
    submitted unless it is skipped or its issue-id prompt is abandoned,
    and the store then holds it marked synced exactly when its own
    submission succeeded.  A failed submission leaves the entry unsynced
    and as it was, except for the issue id typed at the prompt before the
    submission, if it had none.  The succeeded count is the number of
    successful submissions; the failed count is the number of failed
    submissions plus the number of abandoned prompts. *)
Theorem sync_isolates_failures (date : string) (env : SyncEnv) (w : World) :
  daemonAnswers (syncProbe env) = false ->
  configured (config w) = true ->
  uniqueIds (activityLog (config w)) ->
  let due := filter (dueOn date) (activityLog (config w)) in
  let verdictAt k a :=
    verdict date (jiraAccountId (config w)) (items env k) a in
  let w' := snd (syncTempo date env w) in
  (forall k a,
      nth_error due k = Some a ->
      findActivity (Activity.id a) (activityLog (config w'))
      = Some (settled a (verdictAt k a))
      /\ forall req ok,
           verdictAt k a = Sent req ok ->
           In (Worklog a req ok) (sentBetween w w'))
  /\ (forall a req ok,
         In (Worklog a req ok) (sentBetween w w') ->
         exists k, nth_error due k = Some a /\ verdictAt k a = Sent req ok)
  /\ (forall a req,
         In (Worklog a req false) (sentBetween w w') ->
         exists b,
           findActivity (Activity.id a) (activityLog (config w')) = Some b
           /\ Activity.synced b = false
           /\ sameButIssueId a b
           /\ (truthyId (Activity.issueId a) = true -> b = a))
  /\ (forall a req,
         In (Worklog a req true) (sentBetween w w') ->
         exists b,
           findActivity (Activity.id a) (activityLog (config w')) = Some b
           /\ Activity.synced b = true)
  /\ (due <> [] ->
      exists report,
        fst (syncTempo date env w) = Ok (Some report)
        /\ successCount report
           = List.length (filter (isWorklog true) (sentBetween w w'))
        /\ failCount report
           = (List.length (filter (isWorklog false) (sentBetween w w'))
              + List.length
                  (filter isAbandoned
                     (verdicts date (jiraAccountId (config w)) (items env) 0
                        due)))%nat).
Proof.
  intros Hd Hc Hu. cbv zeta.
  destruct (syncTempo_closed date env w Hd Hc Hu) as (Hres & Hlog & Hsent).
  cbv zeta in Hres, Hlog, Hsent.
  set (due := filter (dueOn date) (activityLog (config w))) in *.
  set (w' := snd (syncTempo date env w)) in *.
  assert (Hu' : uniqueIds (activityLog (config w'))).
  { unfold uniqueIds. rewrite Hlog, syncedLog_ids. exact Hu. }
  assert (Hstored : forall k a,
             nth_error due k = Some a ->
             findActivity (Activity.id a) (activityLog (config w'))
             = Some (settled a (verdict date (jiraAccountId (config w))
                                  (items env k) a))).
  { intros k a Hk.
    rewrite <- (settled_id a (verdict date (jiraAccountId (config w))
                               (items env k) a)).
    apply findActivity_unique; [exact Hu' |].
    rewrite Hlog. exact (syncedLog_due date _ (items env) _ 0%nat k a Hk). }
  assert (Hdue : forall a, In a due -> Activity.synced a = false).
  { intros a Ha. apply filter_In in Ha. now apply (dueOn_unsynced date). }
  split; [| split; [| split; [| split]]].
  - intros k a Hk. split; [now apply Hstored |].
    intros req ok Hv. rewrite Hsent. apply effectsOf_In.
    exists k. now split.
  - intros a req ok Hin. rewrite Hsent in Hin.
    apply effectsOf_In in Hin. exact Hin.
  - intros a req Hin. rewrite Hsent in Hin. apply effectsOf_In in Hin.
    destruct Hin as (k & Hk & Hv). cbn in Hv.
    exists (settled a (Sent req false)).
    rewrite <- Hv. split; [now apply Hstored |]. rewrite Hv.
    apply nth_error_In in Hk. split; [cbn; now apply Hdue |].
    split; [cbn; unfold sameButIssueId; cbn; tauto |].
    intros Ht. cbn. rewrite Ht. now destruct a.
  - intros a req Hin. rewrite Hsent in Hin. apply effectsOf_In in Hin.
    destruct Hin as (k & Hk & Hv). cbn in Hv.
    exists (settled a (Sent req true)).
    rewrite <- Hv. split; [now apply Hstored |]. rewrite Hv.
    reflexivity.
  - intros Hne. destruct due as [| a0 due'] eqn:Edue; [congruence |].
    eexists. split; [exact Hres |]. cbn [successCount failCount].
    rewrite Hsent, !effectsOf_count, failures_split. split.
    + f_equal; apply filter_ext; now intros [| | req [|]].
    + do 2 f_equal; apply filter_ext; now intros [| | req [|]].
Qed.

Lemma sync_isolates_failures_sample :
  let w' := snd (syncTempo "2023-11-14" acceptsOnlyFirst twoEntries) in
  configured (config twoEntries) = true
  /\ uniqueIds (activityLog (config twoEntries))
  /\ forall a req,
       In (Worklog a req false) (sentBetween twoEntries w') ->
       exists b,
         findActivity (Activity.id a) (activityLog (config w')) = Some b
         /\ Activity.synced b = false.
Proof.
  cbv zeta.
  assert (H : uniqueIds (activityLog (config twoEntries))).
  { unique_ids. }
  split; [reflexivity |]. split; [exact H |].
  intros a req Hin.
  destruct (sync_isolates_failures "2023-11-14" acceptsOnlyFirst twoEntries
              eq_refl eq_refl H) as (_ & _ & Hfail & _).
  destruct (Hfail a req Hin) as (b & Hb & Hs & _).
  exists b. split; assumption.
Defined.

Example sync_continues_after_failure :
  let env := localSync (fun i => match i with
                                 | O => rejected
                                 | _ => accepted
                                 end) in
  let run := syncTempo "2023-11-14" env twoEntries in
  fst run = Ok (Some (mkReport 1 1))
  /\ map Activity.synced (activityLog (config (snd run))) = [false; true]
  /\ map (isWorklog true) (sentBetween twoEntries (snd run)) = [false; true].
Proof. vm_compute. repeat split. Qed.

Lemma syncTempo_sent (date : string) (env : SyncEnv) (w : World) :
  daemonAnswers (syncProbe env) = false ->
  sentBetween w (snd (syncTempo date env w))
  = if configured (config w) then
      effectsOf (filter (dueOn date) (activityLog (config w)))
        (verdicts date (jiraAccountId (config w)) (items env) 0
           (filter (dueOn date) (activityLog (config w))))
    else [].
Proof.
  intros Hd. rewrite syncTempo_down by exact Hd.
  destruct (configured (config w)) eqn:Hc.
  - rewrite syncTempoLocal_run by exact Hc. unfold sentBetween. cbn.
    apply skipn_prefix.
  - rewrite syncTempoLocal_unconfigured by exact Hc. apply sentBetween_same.
Qed.

Lemma uniqueIds_filter (f : Activity.t -> bool) (l : list Activity.t) :
  uniqueIds l -> NoDup (filter f l).
Proof.
  unfold uniqueIds. intros H. apply NoDup_filter.
  apply (NoDup_map_inv Activity.id). exact H.
Qed.

(** The claim of C6 fails between 59.5 and 60 seconds: the duration is
    rounded to whole seconds before it is compared with 60, so an entry
    of 59.5 s is submitted, as 60 s. *)
Lemma entry_of_59500_ms_is_submitted :
  let a := entryOf 0 59500 (Some (IdNum 42)) in
  let w := worldWithLog [a] in
  let run := syncTempo "2023-11-14" (localSync (fun _ => accepted)) w in
  Activity.endTime a = Some (Activity.startTime a + 59500)
  /\ 59500 < 60 * 1000
  /\ sentBetween w (snd run)
     = [Worklog a
          (mkWorklog (Some (IdNum 42)) 60 "2023-11-14" "22:13"
             "Work on branch: main" (Some "account-1"))
          true]
  /\ map Activity.synced (activityLog (config (snd run))) = [true]
  /\ fst run = Ok (Some (mkReport 1 0)).
Proof. vm_compute. repeat split. Qed.

(** C6, amended.  In a sync in this process, every entry due on the date
    that has no endTime, or whose duration rounded to whole seconds is
    below 60 (that is, whose end is less than 59500 ms after its start),
    is skipped: no request is sent for it, the store holds it as it was,
    unsynced, and it is counted neither as succeeded nor as failed (the
    two counts add up to the number of entries not skipped). *)
Theorem sync_skips_open_and_short (date : string) (env : SyncEnv) (w : World) :
  daemonAnswers (syncProbe env) = false ->
  uniqueIds (activityLog (config w)) ->
  let w' := snd (syncTempo date env w) in
  (forall a,
      In a (activityLog (config w)) ->
      dueOn date a = true ->
      openOrShorter 59500 a ->
      (forall req ok, ~ In (Worklog a req ok) (sentBetween w w'))
      /\ findActivity (Activity.id a) (activityLog (config w')) = Some a
      /\ Activity.synced a = false)
  /\ (forall report,
         fst (syncTempo date env w) = Ok (Some report) ->
         (successCount report + failCount report)%nat
         = List.length
             (filter (fun a => negb (skipped a))
                (filter (dueOn date) (activityLog (config w)))))
  /\ (forall a, skipped a = true <-> openOrShorter 59500 a)
  /\ (forall s t, durationSeconds s t < 60 <-> t - s < 59500).
Proof.
  intros Hd Hu. cbv zeta.
  split; [| split; [| split]].
  - intros a Ha Hdue Hshort. apply skipped_iff in Hshort.
    rewrite syncTempo_sent by exact Hd.
    destruct (configured (config w)) eqn:Hc.
    + destruct (syncTempo_closed date env w Hd Hc Hu) as (_ & Hlog & _).
      cbv zeta in Hlog. split; [| split].
      * intros req ok Hin. apply effectsOf_In in Hin.
        destruct Hin as (k & _ & Hv).
        rewrite verdict_skipped in Hv by exact Hshort. discriminate.
      * assert (Hin : In a (filter (dueOn date) (activityLog (config w))))
          by (apply filter_In; now split).
        apply In_nth_error in Hin. destruct Hin as (k & Hk).
        pose proof (syncedLog_due date (jiraAccountId (config w)) (items env)
                      _ 0%nat k a Hk) as Hs.
        rewrite verdict_skipped in Hs by exact Hshort. cbn in Hs.
        apply findActivity_unique; [| now rewrite Hlog].
        unfold uniqueIds. rewrite Hlog, syncedLog_ids. exact Hu.
      * now apply (dueOn_unsynced date).
    + rewrite syncTempo_down by exact Hd.
      rewrite syncTempoLocal_unconfigured by exact Hc. cbn [snd].
      split; [intros req ok [] |]. split.
      * now apply findActivity_unique.
      * now apply (dueOn_unsynced date).
  - intros report Hres. rewrite syncTempo_down in Hres by exact Hd.
    destruct (configured (config w)) eqn:Hc.
    + rewrite syncTempoLocal_run in Hres by exact Hc. cbv zeta in Hres.
      cbn [fst] in Hres.
      remember (filter (dueOn date) (activityLog (config w))) as due eqn:E.
      destruct due as [| a0 l]; [discriminate |].
      pose proof (verdicts_attempted date (jiraAccountId (config w))
                    (items env) (a0 :: l) 0%nat) as Hatt.
      rewrite <- attempts_split in Hatt.
      set (vs := verdicts date (jiraAccountId (config w)) (items env) 0
                   (a0 :: l)) in *.
      clearbody vs. injection Hres as <-. exact Hatt.
    + rewrite syncTempoLocal_unconfigured in Hres by exact Hc. discriminate.
  - exact skipped_iff.
  - intros s t. rewrite <- durationSeconds_short. symmetry. apply Z.ltb_lt.
Qed.

Lemma sync_skips_sample :
  let a := entryOf 0 59499 (Some (IdNum 42)) in
  let w := worldWithLog [a; entryOf 1 (minutes 45) (Some (IdNum 42))] in
  let w' := snd (syncTempo "2023-11-14" (localSync (fun _ => accepted)) w) in
  uniqueIds (activityLog (config w))
  /\ openOrShorter 59500 a
  /\ findActivity 0 (activityLog (config w')) = Some a.
Proof.
  cbv zeta.
  assert (H : uniqueIds
                (activityLog
                   (config
                      (worldWithLog
                         [entryOf 0 59499 (Some (IdNum 42));
                          entryOf 1 (minutes 45) (Some (IdNum 42))])))).
  { unique_ids. }
  assert (Hshort : openOrShorter 59500 (entryOf 0 59499 (Some (IdNum 42)))).
  { unfold openOrShorter. cbn. lia. }
  split; [exact H |]. split; [exact Hshort |].
  destruct (sync_skips_open_and_short "2023-11-14"
              (localSync (fun _ => accepted)) _ eq_refl H) as (Hskip & _).
  apply (Hskip (entryOf 0 59499 (Some (IdNum 42)))).
  - left. reflexivity.
  - vm_compute. reflexivity.
  - exact Hshort.
Defined.

Example sync_skips_counts :
  let w := worldWithLog [entryOf 0 59499 (Some (IdNum 42));
                         Activity.mk 1 "main" "/repo" T0 None
                           (Some (IdNum 42)) None false;
                         entryOf 2 (minutes 45) (Some (IdNum 42))] in
  let run := syncTempo "2023-11-14" (localSync (fun _ => accepted)) w in
  fst run = Ok (Some (mkReport 1 0))
  /\ map Activity.synced (activityLog (config (snd run))) = [false; false; true]
  /\ List.length (sentBetween w (snd run)) = 1%nat.
Proof. vm_compute. repeat split. Qed.

(** ** The issue id 0 *)

Lemma promptIssueId_valid (inputs : list string) (s : string) :
  promptIssueId inputs = Ok s -> s <> EmptyString.
Proof.
  induction inputs as [| input more IH]; [discriminate |].
  cbn. unfold validate.
  destruct (String.eqb_spec input EmptyString); cbn; [exact IH |].
  intros H. injection H as <-. assumption.
Qed.

Lemma verdict_sent (date : string) (account : option string) (e : ItemEnv)
    (a : Activity.t) (req : WorklogRequest) (ok : bool) :
  verdict date account e a = Sent req ok ->
  skipped a = false
  /\ truthyId (worklogIssueId req) = true
  /\ (truthyId (Activity.issueId a) = false ->
      exists provided,
        promptIssueId (typed e) = Ok provided
        /\ worklogIssueId req = Some (IdStr provided)
        /\ provided <> EmptyString).
Proof.
  unfold verdict, resolveIssueId.
  destruct (skipped a); [discriminate |].
  destruct (truthyId (Activity.issueId a)) eqn:Ei; cbn [negb].
  - intros H. injection H as <- <-. cbn. split; [reflexivity |].
    split; [exact Ei | discriminate].
  - destruct (promptIssueId (typed e)) as [s | m] eqn:Ep; [| discriminate].
    intros H. injection H as <- <-. cbn.
    pose proof (promptIssueId_valid _ _ Ep) as Hs.
    split; [reflexivity |]. split.
    + destruct (String.eqb_spec s EmptyString);
        [contradiction | reflexivity].
    + intros _. exists s. auto.
Qed.

Lemma verdict_abandoned (date : string) (account : option string)
    (e : ItemEnv) (a : Activity.t) (m : string) :
  truthyId (Activity.issueId a) = false ->
  promptIssueId (typed e) = Thrown m ->
  forall req ok, verdict date account e a <> Sent req ok.
Proof.
  intros Hi Hp req ok. unfold verdict, resolveIssueId.
  destruct (skipped a); [discriminate |].
  rewrite Hi, Hp. discriminate.
Qed.

Lemma localStatusLines_issue (env : StatusEnv) (c : Config) (n : Z) :
  In (LineIssue n) (localStatusLines env c) ->
  n <> 0
  /\ exists s, activeTracking c = Some s /\ ActiveTracking.issueId s = n.
Proof.
  unfold localStatusLines.
  destruct (activeTracking c) as [s |]; [| intros [H | []]; discriminate].
  intros H. cbn in H.
  destruct H as [H | [H | [H | [H | H]]]]; try discriminate.
  rewrite !in_app_iff in H. destruct H as [H | [H | H]].
  - destruct (Z.eqb_spec (ActiveTracking.issueId s) 0); cbn in H;
      [destruct H |].
    destruct H as [H | []]. injection H as <-. eauto.
  - unfold optionalLine in H.
    destruct (ActiveTracking.description s); [| destruct H].
    destruct (truthyStr (Some s0)); [| destruct H].
    destruct H as [H | []]; discriminate.
  - destruct (statusGitRoot env); [| destruct H].
    destruct (statusBranch env) as [b | m]; [| destruct H].
    destruct (negb (b =? ActiveTracking.branch s)%string); [| destruct H].
    destruct H as [H | []]; discriminate.
Qed.

Lemma sessionLines_issue (now : Z) (s : Session.t) (n : Z) :
  In (LineIssue n) (sessionLines now s) -> n <> 0.
Proof.
  unfold sessionLines. intros H. cbn in H.
  destruct H as [H | [H | [H | H]]]; try discriminate.
  rewrite !in_app_iff in H. destruct H as [H | [H | H]].
  - unfold optionalLine, truthyNum in H.
    destruct (Session.issueId s) as [i |]; [| destruct H].
    destruct (Z.eqb_spec i 0); cbn in H; [destruct H |].
    destruct H as [H | []]. now injection H as <-.
  - unfold optionalLine in H.
    destruct (Session.description s); [| destruct H].
    destruct (truthyStr (Some s0)); [| destruct H].
    destruct H as [H | []]; discriminate.
  - destruct H as [H | []]; discriminate.
Qed.

Lemma statusTracking_issue (env : StatusEnv) (w : World) (lines : list Line)
    (n : Z) :
  fst (statusTracking env w) = Ok lines -> In (LineIssue n) lines -> n <> 0.
Proof.
  unfold statusTracking, tryCatch, bind.
  rewrite isDaemonRunning_run. cbn.
  destruct (daemonAnswers (statusProbe env)).
  - destruct (statusSessions env) as [[| s rest] | m]; cbn;
      intros H; injection H as <-; intros Hin.
    + destruct Hin as [Hin | Hin]; [discriminate |].
      now apply localStatusLines_issue in Hin.
    + destruct Hin as [Hin | [Hin | Hin]]; try discriminate.
      change (In (LineIssue n)
                (flat_map (sessionLines (statusNow env)) (s :: rest))) in Hin.
      apply in_flat_map in Hin. destruct Hin as (x & _ & Hx).
      now apply sessionLines_issue in Hx.
    + destruct Hin as [Hin | Hin]; [discriminate |].
      now apply localStatusLines_issue in Hin.
  - cbn. intros H. injection H as <-. intros Hin.
    now apply localStatusLines_issue in Hin.
Qed.

Lemma verdict_unresolved (date : string) (account : option string)
    (e : ItemEnv) (a : Activity.t) (m : string) :
  truthyId (Activity.issueId a) = false ->
  promptIssueId (typed e) = Thrown m ->
  settled a (verdict date account e a) = a.
Proof.
  intros Hi Hp. unfold verdict, resolveIssueId.
  destruct (skipped a); [reflexivity |].
  rewrite Hi, Hp. reflexivity.
Qed.

(** C9. A start in this process without an issue id (or with 0) records
    the session with issueId 0.  The status display prints no issue line
    for it (an issue line never shows 0), the entry that closes the
    session carries the 0, and the sync treats it as missing: every
    request it sends carries a truthy issue id, never 0, which for an
    entry stored with a falsy id is the non-empty text typed at the
    prompt; when the prompt is abandoned the entry is not submitted and
    stays as it was, unsynced. *)
Theorem issue_id_zero_means_none (start : StartEnv) (options : Options)
    (w : World) (gitRoot branch : string) :
  startGitRoot start = Some gitRoot ->
  localBranch start = Ok branch ->
  daemonAnswers (startProbe start) = false ->
  activeTracking (config w) = None ->
  truthyNum (optIssueId options) = false ->
  let w1 := snd (startTracking start options w) in
  option_map ActiveTracking.issueId (activeTracking (config w1)) = Some 0
  /\ (forall env lines n,
         daemonAnswers (statusProbe env) = false ->
         fst (statusTracking env w1) = Ok lines ->
         ~ In (LineIssue n) lines)
  /\ (forall env w' lines n,
         fst (statusTracking env w') = Ok lines ->
         In (LineIssue n) lines ->
         n <> 0)
  /\ (forall stop,
         daemonAnswers (stopProbe stop) = false ->
         map Activity.issueId (producedBetween w (snd (stopTracking stop w1)))
         = [Some (IdNum 0)])
  /\ truthyId (Some (IdNum 0)) = false
  /\ (forall date env w0 a req ok,
         daemonAnswers (syncProbe env) = false ->
         In (Worklog a req ok) (sentBetween w0 (snd (syncTempo date env w0))) ->
         truthyId (worklogIssueId req) = true
         /\ worklogIssueId req <> Some (IdNum 0)
         /\ (truthyId (Activity.issueId a) = false ->
             exists provided,
               worklogIssueId req = Some (IdStr provided)
               /\ provided <> EmptyString))
  /\ (forall date env w0 k a m,
         daemonAnswers (syncProbe env) = false ->
         configured (config w0) = true ->
         uniqueIds (activityLog (config w0)) ->
         nth_error (filter (dueOn date) (activityLog (config w0))) k = Some a ->
         truthyId (Activity.issueId a) = false ->
         promptIssueId (typed (items env k)) = Thrown m ->
         (forall req ok,
             ~ In (Worklog a req ok)
                 (sentBetween w0 (snd (syncTempo date env w0))))
         /\ findActivity (Activity.id a)
              (activityLog (config (snd (syncTempo date env w0))))
            = Some a).
Proof.
  intros Hroot Hbranch Hdown Hidle Hzero. cbv zeta.
  rewrite (startTracking_down gitRoot) by assumption.
  rewrite (startTrackingLocal_fresh gitRoot branch) by assumption.
  cbv zeta. cbn [snd].
  match goal with |- context [config ?x] =>
    match x with mkWorld _ _ _ _ _ => set (w1 := x) end end.
  assert (Hsession : activeTracking (config w1)
                     = Some (ActiveTracking.mk branch gitRoot (startNow start)
                               0 (optDescription options))).
  { subst w1. cbn. unfold newSession, issueIdOrZero.
    destruct (optIssueId options) as [n |]; [| reflexivity].
    now rewrite Hzero. }
  split; [now rewrite Hsession |]. split.
  { intros env lines n Hd Hlines Hin.
    rewrite statusTracking_down in Hlines by exact Hd.
    cbn [fst] in Hlines. injection Hlines as <-.
    apply localStatusLines_issue in Hin.
    destruct Hin as (Hn & s & Hs & Hi).
    assert (E : Some s
                = Some (ActiveTracking.mk branch gitRoot (startNow start) 0
                          (optDescription options)))
      by (transitivity (activeTracking (config w1));
          [symmetry; exact Hs | exact Hsession]).
    injection E as ->. cbn in Hi. congruence. }
  split; [exact statusTracking_issue |]. split.
  { intros stop Hd. rewrite stopTracking_down by exact Hd.
    rewrite stopTrackingLocal_run, Hsession.
    erewrite producedBetween_app; [| subst w1; cbn; reflexivity].
    reflexivity. }
  split; [reflexivity |]. split.
  { intros date env w0 a req ok Hd Hin.
    rewrite syncTempo_sent in Hin by exact Hd.
    destruct (configured (config w0)); [| destruct Hin].
    apply effectsOf_In in Hin. destruct Hin as (k & _ & Hv).
    apply verdict_sent in Hv. destruct Hv as (_ & Ht & Hp).
    split; [exact Ht |]. split.
    - intros E. rewrite E in Ht. discriminate.
    - intros Hi. destruct (Hp Hi) as (s & _ & Hs & Hne). eauto. }
  intros date env w0 k a m Hd Hc Hu Hk Hi Hp.
  destruct (syncTempo_closed date env w0 Hd Hc Hu) as (_ & Hlog & Hsent).
  cbv zeta in Hlog, Hsent. split.
  - intros req ok Hin. rewrite Hsent in Hin.
    apply effectsOf_In in Hin. destruct Hin as (k' & Hk' & Hv).
    assert (k' = k).
    { pose proof (uniqueIds_filter (dueOn date) _ Hu) as Hnd.
      rewrite NoDup_nth_error in Hnd. apply Hnd; [| congruence].
      apply nth_error_Some. congruence. }
    subst k'. cbn in Hv.
    exact (verdict_abandoned date _ (items env k) a m Hi Hp req ok Hv).
  - pose proof (syncedLog_due date (jiraAccountId (config w0)) (items env)
                  _ 0%nat k a Hk) as Hs.
    cbn in Hs. rewrite (verdict_unresolved date _ _ a m Hi Hp) in Hs.
    apply findActivity_unique; [| now rewrite Hlog].
    unfold uniqueIds. rewrite Hlog, syncedLog_ids. exact Hu.
Qed.

Lemma issue_id_zero_sample :
  truthyNum (optIssueId (mkOptions (Some "fix the build") (Some 0))) = false
  /\ option_map ActiveTracking.issueId
       (activeTracking
          (config
             (snd (startTracking (startAt "main" T0 T0 false)
                     (mkOptions (Some "fix the build") (Some 0)) idleWorld))))
     = Some 0.
Proof.
  split; [reflexivity |].
  apply (issue_id_zero_means_none (startAt "main" T0 T0 false)
           (mkOptions (Some "fix the build") (Some 0)) idleWorld
           "/repo" "main"); reflexivity.
Defined.

Example status_hides_issue_zero :
  fst (statusTracking
         (mkStatusEnv noDaemon (Ok []) (T0 + minutes 90) (Some "/repo")
            (Ok "main"))
         busyWorld)
  = Ok [LineActiveSession; LineBranch "main"; LineStarted T0;
        LineDuration 1 30].
Proof. vm_compute. reflexivity. Qed.

Example sync_asks_for_issue_zero :
  let a := entryOf 0 (minutes 30) (Some (IdNum 0)) in
  let w := worldWithLog [a] in
  let retyped := mkItemEnv [EmptyString; "ABC-1"] (Ok tt) in
  let run := syncTempo "2023-11-14" (localSync (fun _ => retyped)) w in
  sentBetween w (snd run)
  = [Worklog a
       (mkWorklog (Some (IdStr "ABC-1")) 1800 "2023-11-14" "22:13"
          "Work on branch: main" (Some "account-1"))
       true]
  /\ activityLog (config (snd run))
     = [Activity.mk 0 "main" "/repo" T0 (Some (T0 + minutes 30))
          (Some (IdStr "ABC-1")) None true].
Proof. vm_compute. repeat split. Qed.

(** * Further properties *)

(** ** Finding the repository root *)

Section FindGitRoot.

Variable existsSync : Git.Dir -> bool.

Lemma climb_some (upwards : list string) (r : Git.Dir) :
  Git.climb existsSync upwards = Some r ->
  r <> []
  /\ atOrAbove r (rev upwards)
  /\ existsSync (Git.dotGit r) = true
  /\ forall r',
       atOrAbove r' (rev upwards) ->
       (List.length r < List.length r')%nat ->
       existsSync (Git.dotGit r') = false.
Proof.
  unfold atOrAbove. revert r.
  induction upwards as [| name parents IH]; intros r; [discriminate |].
  cbn [Git.climb].
  destruct (existsSync (Git.dotGit (rev (name :: parents)))) eqn:E.
  - intros H. injection H as <-. split.
    + cbn. intros H. apply (f_equal (@List.length _)) in H.
      rewrite length_app in H. cbn in H. lia.
    + split; [exists []; now rewrite app_nil_r |]. split; [exact E |].
      intros r' (below' & H) Hlen. exfalso.
      apply (f_equal (@List.length _)) in H.
      rewrite length_app in H. cbn in H, Hlen. lia.
  - intros H. destruct (IH r H) as (Hne & (below & Hb) & Hgit & Hnear).
    split; [exact Hne |]. split.
    + exists (below ++ [name])%list. cbn. rewrite Hb, app_assoc. reflexivity.
    + split; [exact Hgit |].
      intros r' (below' & Hr) Hlen. cbn in Hr.
      induction below' as [| x b0 _] using rev_ind.
      * rewrite app_nil_r in Hr. subst r'. exact E.
      * rewrite app_assoc in Hr. apply app_inj_tail in Hr.
        destruct Hr as [Hr _]. apply Hnear; [now exists b0 | exact Hlen].
Qed.

Lemma climb_none (upwards : list string) :
  Git.climb existsSync upwards = None ->
  forall r,
    r <> [] ->
    atOrAbove r (rev upwards) ->
    existsSync (Git.dotGit r) = false.
Proof.
  unfold atOrAbove.
  induction upwards as [| name parents IH]; cbn [Git.climb].
  - intros _ r Hne (below & H). cbn in H.
    destruct r; [congruence | discriminate].
  - destruct (existsSync (Git.dotGit (rev (name :: parents)))) eqn:E;
      [discriminate |].
    intros H r Hne (below & Hr). cbn in Hr.
    induction below as [| x b0 _] using rev_ind.
    + rewrite app_nil_r in Hr. subst r. exact E.
    + rewrite app_assoc in Hr. apply app_inj_tail in Hr.
      destruct Hr as [Hr _]. apply (IH H); [exact Hne | now exists b0].
Qed.

Lemma atOrAbove_same_length (r r' d : Git.Dir) :
  atOrAbove r d -> atOrAbove r' d -> List.length r = List.length r' -> r = r'.
Proof.
  intros (b & ->) (b' & H) Hlen.
  revert r' H Hlen. induction r as [| x r IH]; intros [| y r'] H Hlen;
    try discriminate; [reflexivity |].
  cbn in H. injection H as -> H. f_equal. apply IH; [exact H |].
  cbn in Hlen. lia.
Qed.

(** X1. [findGitRoot] answers a directory exactly when that directory is
    the start directory or one above it, is not the root of the file
    system, holds a [.git] entry, and no directory between it and the
    start directory (the start included) holds one: the nearest
    repository wins. *)
Theorem findGitRoot_nearest (startDirectory r : Git.Dir) :
  Git.findGitRoot existsSync startDirectory = Some r
  <-> r <> []
      /\ atOrAbove r startDirectory
      /\ existsSync (Git.dotGit r) = true
      /\ forall r',
           atOrAbove r' startDirectory ->
           (List.length r < List.length r')%nat ->
           existsSync (Git.dotGit r') = false.
Proof.
  unfold Git.findGitRoot. split.
  - intros H. apply climb_some in H. now rewrite rev_involutive in H.
  - intros (Hne & Habove & Hgit & Hnear).
    destruct (Git.climb existsSync (rev startDirectory)) as [r0 |] eqn:E.
    + apply climb_some in E. rewrite rev_involutive in E.
      destruct E as (Hne0 & Habove0 & Hgit0 & Hnear0).
      f_equal. apply (atOrAbove_same_length r0 r startDirectory); auto.
      destruct (Nat.lt_trichotomy (List.length r0) (List.length r))
        as [Hlt | [Heq | Hgt]]; [| exact Heq |].
      * rewrite (Hnear0 r Habove Hlt) in Hgit. discriminate.
      * rewrite (Hnear r0 Habove0 Hgt) in Hgit0. discriminate.
    + pose proof (climb_none _ E r Hne) as H.
      rewrite rev_involutive in H. rewrite (H Habove) in Hgit. discriminate.
Qed.

(** X2. [findGitRoot] answers [null] exactly when no directory from the
    start directory up to, but not including, the root of the file
    system holds a [.git] entry; a [.git] entry in the root itself is
    never looked at. *)
Theorem findGitRoot_null (startDirectory : Git.Dir) :
  Git.findGitRoot existsSync startDirectory = None
  <-> forall r,
        r <> [] ->
        atOrAbove r startDirectory ->
        existsSync (Git.dotGit r) = false.
Proof.
  unfold Git.findGitRoot. split.
  - intros H r Hne Habove. apply (climb_none _ H r Hne).
    now rewrite rev_involutive.
  - intros Hnone.
    destruct (Git.climb existsSync (rev startDirectory)) as [r0 |] eqn:E;
      [| reflexivity].
    apply climb_some in E. rewrite rev_involutive in E.
    destruct E as (Hne0 & Habove0 & Hgit0 & _).
    rewrite (Hnone r0 Hne0 Habove0) in Hgit0. discriminate.
Qed.

End FindGitRoot.

Example findGitRoot_inner_repository :
  Git.findGitRoot
    (fun d => existsb (fun g => if list_eq_dec string_dec d g then true
                                else false)
                [["home"; "me"; ".git"];
                 ["home"; "me"; "work"; "tool"; ".git"]])
    ["home"; "me"; "work"; "tool"; "src"; "lib"]
  = Some ["home"; "me"; "work"; "tool"].
Proof. vm_compute. reflexivity. Qed.

Example findGitRoot_skips_the_root :
  Git.findGitRoot (fun _ => true) [] = None.
Proof. reflexivity. Qed.

(** ** Naming the repository *)

Lemma lastSegment_plain (s : string) :
  Git.hasSlash s = false -> Git.lastSegment s = s.
Proof.
  destruct s as [| c rest]; [reflexivity |].
  cbn [Git.lastSegment]. now intros ->.
Qed.

Lemma hasSlash_append (a b : string) :
  Git.hasSlash (a ++ b) = Git.hasSlash a || Git.hasSlash b.
Proof.
  induction a as [| c a IH]; [reflexivity |].
  cbn. rewrite IH. now rewrite orb_assoc.
Qed.

Lemma lastSegment_after_slash (before name : string) :
  Git.hasSlash name = false ->
  Git.lastSegment (before ++ "/" ++ name) = name.
Proof.
  intros Hn. induction before as [| c before IH].
  - cbn. destruct name as [| d name]; [reflexivity |].
    cbn [Git.lastSegment]. now rewrite Hn.
  - change (String c before ++ "/" ++ name)%string
      with (String c (before ++ "/" ++ name)).
    cbn [Git.lastSegment].
    replace (Git.hasSlash (String c (before ++ "/" ++ name))) with true;
      [exact IH |].
    cbn [Git.hasSlash]. rewrite hasSlash_append. cbn.
    now rewrite !orb_true_r.
Qed.

Lemma lastSegment_slash_free (s : string) :
  Git.hasSlash (Git.lastSegment s) = false.
Proof.
  induction s as [| c rest IH]; [reflexivity |].
  cbn [Git.lastSegment].
  destruct (Git.hasSlash (String c rest)) eqn:E; [exact IH | exact E].
Qed.

Lemma lastSegment_suffix (s : string) :
  exists before, s = (before ++ Git.lastSegment s)%string.
Proof.
  induction s as [| c rest (before & IH)]; [now exists EmptyString |].
  cbn [Git.lastSegment]. destruct (Git.hasSlash (String c rest)).
  - exists (String c before). cbn. now rewrite <- IH.
  - now exists EmptyString.
Qed.

(** X3. When the remote that is chosen (the first one named [origin],
    else the first one) has a fetch URL with a non-empty last path
    segment, [getRepositoryName] answers that segment as it stands: a
    trailing [.git] is not removed. *)
Theorem getRepositoryName_last_segment (remotes : list Git.Remote)
    (remote : Git.Remote) (before name basename : string) :
  Git.chooseRemote remotes = Some remote ->
  Git.fetch remote = (before ++ "/" ++ name)%string
  \/ Git.fetch remote = name ->
  Git.hasSlash name = false ->
  name <> EmptyString ->
  Git.getRepositoryName (Ok remotes) basename = name.
Proof.
  intros Hr Hurl Hn Hne. unfold Git.getRepositoryName, Git.matchName.
  rewrite Hr.
  assert (Hseg : Git.lastSegment (Git.fetch remote) = name).
  { destruct Hurl as [-> | ->].
    - now apply lastSegment_after_slash.
    - now apply lastSegment_plain. }
  rewrite Hseg. destruct name; [congruence | reflexivity].
Qed.

Lemma getRepositoryName_keeps_dot_git :
  Git.hasSlash "tempo-tracker-cli.git" = false
  /\ Git.getRepositoryName
       (Ok [Git.mkRemote "upstream" "https://example.org/fork/other.git";
            Git.mkRemote "origin"
              "git@github.com:NRodriguezcuellar/tempo-tracker-cli.git"])
       "checkout"
     = "tempo-tracker-cli.git".
Proof.
  split; [reflexivity |].
  apply (getRepositoryName_last_segment _
           (Git.mkRemote "origin"
              "git@github.com:NRodriguezcuellar/tempo-tracker-cli.git")
           "git@github.com:NRodriguezcuellar" "tempo-tracker-cli.git").
  - reflexivity.
  - left. reflexivity.
  - reflexivity.
  - discriminate.
Defined.

(** X4. [getRepositoryName] never raises and always answers a name: the
    base name of the directory when the remotes cannot be listed, when
    there is none, or when the chosen fetch URL is empty or ends with a
    slash; in every other case a non-empty, slash-free end of the chosen
    fetch URL. *)
Theorem getRepositoryName_total (getRemotes : Result (list Git.Remote))
    (basename : string) :
  let answer := Git.getRepositoryName getRemotes basename in
  (isOk getRemotes = false -> answer = basename)
  /\ (getRemotes = Ok [] -> answer = basename)
  /\ (forall remotes remote before,
         getRemotes = Ok remotes ->
         Git.chooseRemote remotes = Some remote ->
         Git.fetch remote = EmptyString
         \/ Git.fetch remote = (before ++ "/")%string ->
         answer = basename)
  /\ (answer = basename
      \/ exists remotes remote before,
           getRemotes = Ok remotes
           /\ Git.chooseRemote remotes = Some remote
           /\ Git.fetch remote = (before ++ answer)%string
           /\ answer <> EmptyString
           /\ Git.hasSlash answer = false).
Proof.
  cbv zeta. unfold Git.getRepositoryName, Git.matchName.
  split; [| split; [| split]].
  - destruct getRemotes; [discriminate | reflexivity].
  - intros ->. reflexivity.
  - intros remotes remote before -> Hr Hurl. rewrite Hr.
    destruct Hurl as [-> | ->]; [reflexivity |].
    replace (before ++ "/")%string with (before ++ "/" ++ EmptyString)%string
      by reflexivity.
    rewrite lastSegment_after_slash by reflexivity. reflexivity.
  - destruct getRemotes as [remotes | m]; [| now left].
    destruct (Git.chooseRemote remotes) as [remote |] eqn:Hr; [| now left].
    destruct (Git.lastSegment (Git.fetch remote)) as [| c rest] eqn:Hs;
      [now left |].
    right. exists remotes, remote.
    destruct (lastSegment_suffix (Git.fetch remote)) as (before & Hb).
    exists before. rewrite Hs in Hb.
    repeat split; auto; [discriminate |].
    rewrite <- Hs. apply lastSegment_slash_free.
Qed.

(** ** Talking to the daemon *)

Lemma withClient_refused {A} (request : Client.Request) (reply : Result A)
    (calls : list Client.Call) :
  Client.bind (Client.connect false) (fun isConnected =>
    if negb isConnected then Client.throw Client.notRunning
    else
      Client.tryFinally
        (Client.tryCatch (Client.send request reply)
           (fun error =>
              Client.bind Client.disconnect (fun _ => Client.throw error)))
        Client.disconnect) calls
  = (Thrown Client.notRunning, (calls ++ [Client.Connect false])%list).
Proof. reflexivity. Qed.

Lemma withClient_connected {A} (request : Client.Request) (reply : Result A)
    (calls : list Client.Call) :
  Client.bind (Client.connect true) (fun isConnected =>
    if negb isConnected then Client.throw Client.notRunning
    else
      Client.tryFinally
        (Client.tryCatch (Client.send request reply)
           (fun error =>
              Client.bind Client.disconnect (fun _ => Client.throw error)))
        Client.disconnect) calls
  = (reply, (calls ++ roundTrip request reply)%list).
Proof.
  unfold Client.bind, Client.connect, Client.call, Client.ret,
    Client.tryFinally, Client.tryCatch, Client.send, Client.disconnect,
    Client.throw.
  unfold roundTrip.
  cbn. destruct reply as [a | m]; cbn; rewrite <- !app_assoc; reflexivity.
Qed.

(** X5. None of the four daemon commands sends a request over a
    connection that was not made: when [connect] answers [false] the
    command raises "Daemon is not running ..." after that one call,
    without a request and without a disconnect; and outside a git
    repository the start and stop commands raise before any call. *)
Theorem viaDaemon_needs_connection (calls : list Client.Call) :
  (forall env options root current,
      Client.gitRoot env = Some root ->
      Client.branch env = Ok current ->
      Client.connected env = false ->
      Client.startTrackingViaDaemon env options calls
      = (Thrown Client.notRunning, (calls ++ [Client.Connect false])%list))
  /\ (forall env root,
         Client.gitRoot env = Some root ->
         Client.connected env = false ->
         Client.stopTrackingViaDaemon env calls
         = (Thrown Client.notRunning, (calls ++ [Client.Connect false])%list))
  /\ (forall env,
         Client.connected env = false ->
         Client.getStatusFromDaemon env calls
         = (Thrown Client.notRunning, (calls ++ [Client.Connect false])%list))
  /\ (forall env date,
         Client.connected env = false ->
         Client.syncTempoViaDaemon env date calls
         = (Thrown Client.notRunning, (calls ++ [Client.Connect false])%list))
  /\ (forall env options,
         Client.gitRoot env = None ->
         isOk (fst (Client.startTrackingViaDaemon env options calls)) = false
         /\ snd (Client.startTrackingViaDaemon env options calls) = calls)
  /\ (forall env,
         Client.gitRoot env = None ->
         isOk (fst (Client.stopTrackingViaDaemon env calls)) = false
         /\ snd (Client.stopTrackingViaDaemon env calls) = calls).
Proof.
  split; [| split; [| split; [| split; [| split]]]].
  - intros env options root current Hr Hb Hc.
    unfold Client.startTrackingViaDaemon. rewrite Hr, Hc.
    unfold Client.bind at 1. rewrite Hb. apply withClient_refused.
  - intros env root Hr Hc. unfold Client.stopTrackingViaDaemon.
    rewrite Hr, Hc. apply withClient_refused.
  - intros env Hc. unfold Client.getStatusFromDaemon. rewrite Hc.
    apply withClient_refused.
  - intros env date Hc. unfold Client.syncTempoViaDaemon. rewrite Hc.
    apply withClient_refused.
  - intros env options Hr. unfold Client.startTrackingViaDaemon.
    rewrite Hr. split; reflexivity.
  - intros env Hr. unfold Client.stopTrackingViaDaemon.
    rewrite Hr. split; reflexivity.
Qed.

(** X6. Each of the four daemon commands, once connected, sends exactly
    one request and hands back what the daemon answers; it disconnects
    once after an answer and twice after an error (in the [catch] and in
    the [finally]), and the error it raises is the daemon's own. *)
Theorem viaDaemon_disconnects (calls : list Client.Call) :
  (forall env options root current,
      Client.gitRoot env = Some root ->
      Client.branch env = Ok current ->
      Client.connected env = true ->
      Client.startTrackingViaDaemon env options calls
      = (Client.reply env,
         (calls
            ++ roundTrip
                 (Client.StartTracking root current (optIssueId options)
                    (optDescription options))
                 (Client.reply env))%list))
  /\ (forall env root,
         Client.gitRoot env = Some root ->
         Client.connected env = true ->
         Client.stopTrackingViaDaemon env calls
         = (Client.reply env,
            (calls ++ roundTrip (Client.StopTracking root) (Client.reply env))
              %list))
  /\ (forall env,
         Client.connected env = true ->
         Client.getStatusFromDaemon env calls
         = (Client.reply env,
            (calls ++ roundTrip Client.GetStatus (Client.reply env))%list))
  /\ (forall env date,
         Client.connected env = true ->
         Client.syncTempoViaDaemon env date calls
         = (Client.reply env,
            (calls ++ roundTrip (Client.SyncTempo date) (Client.reply env))
              %list)).
Proof.
  split; [| split; [| split]].
  - intros env options root current Hr Hb Hc.
    unfold Client.startTrackingViaDaemon. rewrite Hr, Hc.
    unfold Client.bind at 1. rewrite Hb. apply withClient_connected.
  - intros env root Hr Hc. unfold Client.stopTrackingViaDaemon.
    rewrite Hr, Hc. apply withClient_connected.
  - intros env Hc. unfold Client.getStatusFromDaemon. rewrite Hc.
    apply withClient_connected.
  - intros env date Hc. unfold Client.syncTempoViaDaemon. rewrite Hc.
    apply withClient_connected.
Qed.

Example stop_via_daemon_error :
  Client.stopTrackingViaDaemon
    (Client.mkEnv (Some "/repo") (Ok "main") true
       (Thrown "No active tracking session"))
    []
  = (Thrown "No active tracking session",
     [Client.Connect true; Client.Send (Client.StopTracking "/repo") false;
      Client.Disconnect; Client.Disconnect]).
Proof. reflexivity. Qed.

(** ** Tracking commands *)

(** X7. When the branch check finds another branch than the tracked one,
    it appends exactly one entry for the old branch, from the start of
    the session segment to the clock reading of the check, unsynced and
    with the issue id and description of the session; the session goes on
    in the same directory with the new branch, the same issue id and
    description, starting at that clock reading.  No timer and no
    request is involved. *)
Theorem branch_change_rolls_over (env : PollEnv) (w : World)
    (s : ActiveTracking.t) (currentBranch : string) :
  activeTracking (config w) = Some s ->
  pollBranch env = Ok currentBranch ->
  currentBranch <> ActiveTracking.branch s ->
  let w' := snd (checkCurrentBranch env w) in
  fst (checkCurrentBranch env w) = Ok tt
  /\ producedBetween w w'
     = [Activity.mk (nextId (config w)) (ActiveTracking.branch s)
          (ActiveTracking.directory s) (ActiveTracking.startTime s)
          (Some (pollNow env)) (Some (IdNum (ActiveTracking.issueId s)))
          (ActiveTracking.description s) false]
  /\ activityLog (config w')
     = (activityLog (config w) ++ producedBetween w w')%list
  /\ activeTracking (config w')
     = Some (ActiveTracking.mk currentBranch (ActiveTracking.directory s)
               (pollNow env) (ActiveTracking.issueId s)
               (ActiveTracking.description s))
  /\ apiKey (config w') = apiKey (config w)
  /\ jiraAccountId (config w') = jiraAccountId (config w)
  /\ activeCheckInterval w' = activeCheckInterval w
  /\ activePulseInterval w' = activePulseInterval w
  /\ autoStopTimer w' = autoStopTimer w
  /\ trace w' = trace w.
Proof.
  intros Hs Hb Hne. cbv zeta. rewrite checkCurrentBranch_run, Hs, Hb.
  destruct (String.eqb_spec currentBranch (ActiveTracking.branch s));
    [contradiction |].
  cbn [fst snd]. split; [reflexivity |].
  assert (Hp : producedBetween w
            (mkWorld
               (updateConfig
                  (Some (ActiveTracking.mk currentBranch
                           (ActiveTracking.directory s) (pollNow env)
                           (ActiveTracking.issueId s)
                           (ActiveTracking.description s)))
                  (closeSegment s (pollNow env) (config w)))
               (activeCheckInterval w) (activePulseInterval w)
               (autoStopTimer w) (trace w))
          = [Activity.mk (nextId (config w)) (ActiveTracking.branch s)
               (ActiveTracking.directory s) (ActiveTracking.startTime s)
               (Some (pollNow env)) (Some (IdNum (ActiveTracking.issueId s)))
               (ActiveTracking.description s) false]).
  { apply producedBetween_app. reflexivity. }
  rewrite Hp. repeat split.
Qed.

Lemma branch_change_sample :
  "feature/x"
  <> ActiveTracking.branch (ActiveTracking.mk "main" "/repo" T0 0 None)
  /\ activeTracking
       (config
          (snd (checkCurrentBranch
                  (mkPollEnv (Ok "feature/x") (T0 + minutes 15)) busyWorld)))
     = Some (ActiveTracking.mk "feature/x" "/repo" (T0 + minutes 15) 0 None).
Proof.
  assert (H : "feature/x"
              <> ActiveTracking.branch
                   (ActiveTracking.mk "main" "/repo" T0 0 None))
    by discriminate.
  split; [exact H |].
  destruct (branch_change_rolls_over
              (mkPollEnv (Ok "feature/x") (T0 + minutes 15)) busyWorld
              (ActiveTracking.mk "main" "/repo" T0 0 None) "feature/x"
              eq_refl eq_refl H) as (_ & _ & _ & Hsession & _).
  exact Hsession.
Defined.

(** X8. A branch check that cannot read the branch (git fails), or that
    reads the tracked branch, is skipped without a trace: it returns
    normally and the store, the timers and the requests are as before,
    so the next tick checks again. *)
Theorem branch_check_skipped (env : PollEnv) (w : World)
    (s : ActiveTracking.t) :
  activeTracking (config w) = Some s ->
  isOk (pollBranch env) = false
  \/ pollBranch env = Ok (ActiveTracking.branch s) ->
  checkCurrentBranch env w = (Ok tt, w)
  /\ forall later,
       activeCheckInterval w <> None ->
       branchPollTick later w = checkCurrentBranch later w.
Proof.
  intros Hs Hb. split.
  - rewrite checkCurrentBranch_run, Hs.
    destruct Hb as [Hb | Hb].
    + destruct (pollBranch env); [discriminate | reflexivity].
    + rewrite Hb, String.eqb_refl. reflexivity.
  - intros later Hlive. unfold branchPollTick, onInterval.
    destruct (activeCheckInterval w); [reflexivity | congruence].
Qed.

Lemma branch_check_skipped_sample :
  isOk (pollBranch (mkPollEnv (Thrown "not a git repository") T0)) = false
  /\ checkCurrentBranch (mkPollEnv (Thrown "not a git repository") T0)
       busyWorld
     = (Ok tt, busyWorld).
Proof.
  split; [reflexivity |].
  exact (proj1 (branch_check_skipped
                  (mkPollEnv (Thrown "not a git repository") T0) busyWorld
                  (ActiveTracking.mk "main" "/repo" T0 0 None) eq_refl
                  (or_introl eq_refl))).
Defined.

(** X9. When the daemon answers the probe, the command runs inside a git
    repository and the daemon accepts the stop, [stopTracking] leaves the
    stop to the daemon: nothing stored in this process changes, not even
    a session recorded here, whose timers also stay armed.  The auto-stop
    callback is this same command, so it then closes nothing either. *)
Theorem stop_is_left_to_the_daemon (env : StopEnv) (w : World)
    (gitRoot : string) :
  daemonAnswers (stopProbe env) = true ->
  stopGitRoot env = Some gitRoot ->
  isOk (stopViaDaemon env) = true ->
  let w' := snd (stopTracking env w) in
  fst (stopTracking env w) = Ok tt
  /\ config w' = config w
  /\ activeCheckInterval w' = activeCheckInterval w
  /\ activePulseInterval w' = activePulseInterval w
  /\ autoStopTimer w' = autoStopTimer w
  /\ sentBetween w w' = [Daemon CallStop true]
  /\ autoStopCallback env w = stopTracking env w.
Proof.
  intros Hup Hroot Hok. cbv zeta.
  assert (Hrun : stopTracking env w
                 = (Ok tt,
                    mkWorld (config w) (activeCheckInterval w)
                      (activePulseInterval w) (autoStopTimer w)
                      (trace w ++ [Daemon CallStop true]))).
  { unfold stopTracking, bind.
    rewrite stopTrackingDaemon_run, Hup, Hroot, Hok. reflexivity. }
  unfold autoStopCallback. rewrite Hrun. cbn [fst snd].
  repeat split. unfold sentBetween. cbn. apply skipn_prefix.
Qed.

Lemma stop_is_left_to_the_daemon_sample :
  daemonAnswers liveDaemon = true
  /\ config (snd (stopTracking (mkStopEnv liveDaemon (Some "/repo") (Ok tt)
                                  (T0 + minutes 5))
                    busyWorld))
     = config busyWorld.
Proof.
  split; [reflexivity |].
  exact (proj1 (proj2 (stop_is_left_to_the_daemon
                         (mkStopEnv liveDaemon (Some "/repo") (Ok tt)
                            (T0 + minutes 5))
                         busyWorld "/repo" eq_refl eq_refl eq_refl))).
Defined.

(** X10. [stopTracking] stops in this process whenever the daemon does
    not take the stop: when the daemon answers but refuses it (the
    refused call is the only difference), and when the command runs
    outside a git repository, in which case the daemon is not even
    asked. *)
Theorem stop_falls_back (env : StopEnv) (w : World) :
  daemonAnswers (stopProbe env) = true ->
  (stopGitRoot env = None ->
   stopTracking env w = stopTrackingLocal (stopNow env) w)
  /\ (stopGitRoot env <> None ->
      isOk (stopViaDaemon env) = false ->
      stopTracking env w
      = stopTrackingLocal (stopNow env)
          (mkWorld (config w) (activeCheckInterval w) (activePulseInterval w)
             (autoStopTimer w) (trace w ++ [Daemon CallStop false]))).
Proof.
  intros Hup. unfold stopTracking, bind.
  rewrite stopTrackingDaemon_run, Hup. split.
  - intros ->. reflexivity.
  - intros Hroot Hfail. destruct (stopGitRoot env); [| congruence].
    rewrite Hfail. reflexivity.
Qed.

Lemma stop_falls_back_sample :
  daemonAnswers liveDaemon = true
  /\ activeTracking
       (config
          (snd (stopTracking
                  (mkStopEnv liveDaemon (Some "/repo")
                     (Thrown "No active tracking session") (T0 + minutes 5))
                  busyWorld)))
     = None.
Proof.
  split; [reflexivity |].
  destruct (stop_falls_back
              (mkStopEnv liveDaemon (Some "/repo")
                 (Thrown "No active tracking session") (T0 + minutes 5))
              busyWorld eq_refl) as [_ H].
  rewrite H; [reflexivity | discriminate | reflexivity].
Defined.

(** X11. A stop in this process closes the recorded session into exactly
    one unsynced entry, from the start of its segment to the clock
    reading of the stop, then forgets the session and clears the branch
    check, the pulse interval and the auto-stop timer; without a
    recorded session it changes nothing. *)
Theorem stop_closes_and_clears (now : Z) (w : World) :
  let w' := snd (stopTrackingLocal now w) in
  fst (stopTrackingLocal now w) = Ok tt
  /\ trace w' = trace w
  /\ apiKey (config w') = apiKey (config w)
  /\ jiraAccountId (config w') = jiraAccountId (config w)
  /\ (activeTracking (config w) = None -> w' = w)
  /\ (forall s,
         activeTracking (config w) = Some s ->
         activityLog (config w')
         = (activityLog (config w)
              ++ [Activity.mk (nextId (config w)) (ActiveTracking.branch s)
                    (ActiveTracking.directory s) (ActiveTracking.startTime s)
                    (Some now) (Some (IdNum (ActiveTracking.issueId s)))
                    (ActiveTracking.description s) false])%list
         /\ activeTracking (config w') = None
         /\ activeCheckInterval w' = None
         /\ activePulseInterval w' = None
         /\ autoStopTimer w' = None).
Proof.
  cbv zeta. rewrite stopTrackingLocal_run. cbn [fst snd].
  destruct (activeTracking (config w)) as [s |] eqn:Hs.
  - cbn. split; [reflexivity |]. split; [reflexivity |].
    split; [reflexivity |]. split; [reflexivity |].
    split; [discriminate |].
    intros s' E. injection E as <-. repeat split.
  - split; [reflexivity |]. split; [reflexivity |].
    split; [reflexivity |]. split; [reflexivity |].
    split; [reflexivity | discriminate].
Qed.

Lemma startTrackingDaemon_run (gitRoot : string) (env : StartEnv)
    (options : Options) (w : World) :
  startTrackingDaemon gitRoot env options w
  = if daemonAnswers (startProbe env) then
      match daemonBranch env, daemonStatus env with
      | Ok branch, Ok status =>
          match find (fun s => Session.directory s =? gitRoot)%string status
          with
          | Some _ => (Ok true, w)
          | None =>
              let call := CallStart (optDescription options)
                            (optIssueId options) in
              (Ok (match startViaDaemon env, verifyStatus env with
                   | Ok _, Ok sessions => tracks gitRoot branch sessions
                   | _, _ => false
                   end),
               afterCall call (isOk (startViaDaemon env)) w)
          end
      | _, _ => (Ok false, w)
      end
    else (Ok false, w).
Proof.
  unfold startTrackingDaemon, tryCatch, bind.
  rewrite isDaemonRunning_run.
  destruct (daemonAnswers (startProbe env)); [| reflexivity].
  destruct (daemonBranch env) as [branch | m]; [| reflexivity].
  destruct (daemonStatus env) as [status | m]; [| reflexivity].
  cbn. destruct (find _ status); [reflexivity |].
  unfold daemonCall, bind, emit, await, afterCall, tracks. cbn.
  destruct (startViaDaemon env) as [[] | m]; [| reflexivity].
  cbn. destruct (verifyStatus env) as [sessions | m]; [| reflexivity].
  cbn. destruct (existsb _ sessions); reflexivity.
Qed.

(** X12. Outside a git repository [startTracking] raises "Not in a git
    repository ..." at once: the daemon is not asked and nothing is
    stored, armed or sent; the command with error handling then returns
    normally, still without any change. *)
Theorem start_outside_repository (env : StartEnv) (options : Options)
    (w : World) :
  startGitRoot env = None ->
  startTracking env options w
  = (Thrown "Not in a git repository. Please navigate to a git repository to start tracking.",
     w)
  /\ startTrackingWithErrorHandling env options w = (Ok tt, w).
Proof.
  intros Hroot.
  unfold startTrackingWithErrorHandling, withErrorHandling, tryCatch,
    startTracking.
  rewrite Hroot. split; reflexivity.
Qed.

Lemma start_outside_repository_sample :
  startTrackingWithErrorHandling
    (mkStartEnv None liveDaemon (Ok "main") (Ok []) (Ok tt) (Ok [])
       (Ok true) (stopAt T0) (Ok "main") T0 (Ok tt) T0)
    noOptions busyWorld
  = (Ok tt, busyWorld).
Proof.
  apply (start_outside_repository
           (mkStartEnv None liveDaemon (Ok "main") (Ok []) (Ok tt) (Ok [])
              (Ok true) (stopAt T0) (Ok "main") T0 (Ok tt) T0)
           noOptions busyWorld).
  reflexivity.
Defined.

(** X13. When the daemon answers, reports no session of the directory,
    accepts the start and then reports a session of the directory on the
    branch read before, [startTracking] returns with the session held by
    the daemon only: this process records no session, arms no timer and
    sends no pulse; the one request is the start handed to the daemon,
    with the description and issue id as given. *)
Theorem start_is_left_to_the_daemon (env : StartEnv) (options : Options)
    (w : World) (gitRoot branch : string) (before after : list Session.t) :
  startGitRoot env = Some gitRoot ->
  daemonAnswers (startProbe env) = true ->
  daemonBranch env = Ok branch ->
  daemonStatus env = Ok before ->
  find (fun s => Session.directory s =? gitRoot)%string before = None ->
  isOk (startViaDaemon env) = true ->
  verifyStatus env = Ok after ->
  tracks gitRoot branch after = true ->
  startTracking env options w
  = (Ok tt,
     afterCall (CallStart (optDescription options) (optIssueId options)) true
       w).
Proof.
  intros Hroot Hup Hb Hs Hnone Hok Hv Ht.
  unfold startTracking, bind. rewrite Hroot.
  rewrite startTrackingDaemon_run, Hup, Hb, Hs, Hnone. cbv zeta.
  destruct (startViaDaemon env) as [[] | m]; [| discriminate].
  rewrite Hv, Ht. reflexivity.
Qed.

Lemma start_is_left_to_the_daemon_sample :
  tracks "/repo" "main" [Session.mk "/repo" "main" T0 (Some 7) None] = true
  /\ config
       (snd (startTracking
               (mkStartEnv (Some "/repo") liveDaemon (Ok "main") (Ok [])
                  (Ok tt) (Ok [Session.mk "/repo" "main" T0 (Some 7) None])
                  (Ok false) (stopAt T0) (Ok "main") T0 (Ok tt) T0)
               (mkOptions None (Some 7)) idleWorld))
     = config idleWorld.
Proof.
  split; [reflexivity |].
  rewrite (start_is_left_to_the_daemon
             (mkStartEnv (Some "/repo") liveDaemon (Ok "main") (Ok [])
                (Ok tt) (Ok [Session.mk "/repo" "main" T0 (Some 7) None])
                (Ok false) (stopAt T0) (Ok "main") T0 (Ok tt) T0)
             (mkOptions None (Some 7)) idleWorld "/repo" "main" []
             [Session.mk "/repo" "main" T0 (Some 7) None]
             eq_refl eq_refl eq_refl eq_refl eq_refl eq_refl eq_refl eq_refl).
  reflexivity.
Defined.

(** X14. [startTracking] falls back to tracking in this process whenever
    the daemon answers the probe but does not end up holding the session:
    when the branch or the daemon status cannot be read (nothing was
    asked of the daemon), when the daemon refuses the start, and when the
    status read afterwards cannot be read or shows no session of the
    directory on that branch.  In the last three cases the start handed
    to the daemon stays recorded, and may have succeeded there. *)
Theorem start_falls_back (env : StartEnv) (options : Options) (w : World)
    (gitRoot : string) :
  startGitRoot env = Some gitRoot ->
  daemonAnswers (startProbe env) = true ->
  (isOk (daemonBranch env) = false \/ isOk (daemonStatus env) = false ->
   startTracking env options w = startTrackingLocal gitRoot env options w)
  /\ (forall branch before,
         daemonBranch env = Ok branch ->
         daemonStatus env = Ok before ->
         find (fun s => Session.directory s =? gitRoot)%string before = None ->
         isOk (startViaDaemon env) = false
         \/ isOk (verifyStatus env) = false
         \/ (exists after,
               verifyStatus env = Ok after
               /\ tracks gitRoot branch after = false) ->
         startTracking env options w
         = startTrackingLocal gitRoot env options
             (afterCall
                (CallStart (optDescription options) (optIssueId options))
                (isOk (startViaDaemon env)) w)).
Proof.
  intros Hroot Hup. unfold startTracking, bind. rewrite Hroot.
  rewrite startTrackingDaemon_run, Hup. split.
  - intros [H | H].
    + destruct (daemonBranch env); [discriminate | reflexivity].
    + destruct (daemonBranch env); [| reflexivity].
      destruct (daemonStatus env); [discriminate | reflexivity].
  - intros branch before -> -> Hnone H. rewrite Hnone. cbv zeta.
    destruct H as [H | [H | (after & Hv & Ht)]].
    + destruct (startViaDaemon env); [discriminate | reflexivity].
    + destruct (startViaDaemon env) as [[] | m]; [| reflexivity].
      destruct (verifyStatus env); [discriminate | reflexivity].
    + rewrite Hv, Ht. destruct (startViaDaemon env) as [[] | m]; reflexivity.
Qed.

Lemma start_falls_back_sample :
  daemonAnswers liveDaemon = true
  /\ option_map ActiveTracking.branch
       (activeTracking
          (config
             (snd (startTracking
                     (mkStartEnv (Some "/repo") liveDaemon (Ok "main") (Ok [])
                        (Ok tt)
                        (Ok [Session.mk "/repo" "develop" T0 None None])
                        (Ok false) (stopAt T0) (Ok "main") T0 (Ok tt) T0)
                     noOptions idleWorld))))
     = Some "main".
Proof.
  split; [reflexivity |].
  destruct (start_falls_back
              (mkStartEnv (Some "/repo") liveDaemon (Ok "main") (Ok [])
                 (Ok tt) (Ok [Session.mk "/repo" "develop" T0 None None])
                 (Ok false) (stopAt T0) (Ok "main") T0 (Ok tt) T0)
              noOptions idleWorld "/repo" eq_refl eq_refl) as [_ H].
  rewrite (H "main" [] eq_refl eq_refl eq_refl).
  - reflexivity.
  - right. right.
    exists [Session.mk "/repo" "develop" T0 None None].
    split; reflexivity.
Defined.

(** X15. A start in this process over a recorded session, confirmed at
    the prompt, stops the old session first: with no daemon answering
    the stop, the old session is closed into one entry that ends at the
    clock reading of the stop, and the new session is recorded from the
    clock reading of the start, with the branch check and the auto-stop
    timer armed anew. *)
Theorem confirmed_start_replaces (env : StartEnv) (options : Options)
    (w : World) (gitRoot branch : string) (s : ActiveTracking.t) :
  startGitRoot env = Some gitRoot ->
  daemonAnswers (startProbe env) = false ->
  activeTracking (config w) = Some s ->
  shouldContinue env = Ok true ->
  daemonAnswers (stopProbe (replaceStop env)) = false ->
  localBranch env = Ok branch ->
  let w' := snd (startTracking env options w) in
  fst (startTracking env options w) = Ok tt
  /\ producedBetween w w'
     = [Activity.mk (nextId (config w)) (ActiveTracking.branch s)
          (ActiveTracking.directory s) (ActiveTracking.startTime s)
          (Some (stopNow (replaceStop env)))
          (Some (IdNum (ActiveTracking.issueId s)))
          (ActiveTracking.description s) false]
  /\ activeTracking (config w')
     = Some (newSession gitRoot branch env options)
  /\ activeCheckInterval w' = Some BRANCH_CHECK_INTERVAL_MS
  /\ activePulseInterval w' = Some PULSE_INTERVAL_MS
  /\ autoStopTimer w' = Some (mkTimeout (armNow env) MAX_TRACKING_TIME_MS).
Proof.
  intros Hroot Hdown Hs Hyes Hdown' Hb. cbv zeta.
  rewrite (startTracking_down gitRoot) by assumption.
  unfold startTrackingLocal, bind.
  rewrite (confirmReplace_confirmed env w s) by assumption.
  rewrite stopTracking_down by assumption.
  rewrite stopTrackingLocal_run, Hs.
  unfold startBranchChecks, stopBranchChecks, scheduleAutoStop, bind.
  cbn -[startPulseSending]. rewrite Hb.
  cbn -[startPulseSending]. rewrite startPulseSending_run. cbn.
  repeat split. apply producedBetween_app. reflexivity.
Qed.

Lemma confirmed_start_replaces_sample :
  activeTracking (config busyWorld)
  = Some (ActiveTracking.mk "main" "/repo" T0 0 None)
  /\ activeTracking
       (config
          (snd (startTracking
                  (startAt "feature/x" (T0 + minutes 60) (T0 + minutes 60)
                     true)
                  noOptions busyWorld)))
     = Some (ActiveTracking.mk "feature/x" "/repo" (T0 + minutes 60) 0 None).
Proof.
  split; [reflexivity |].
  destruct (confirmed_start_replaces
              (startAt "feature/x" (T0 + minutes 60) (T0 + minutes 60) true)
              noOptions busyWorld "/repo" "feature/x"
              (ActiveTracking.mk "main" "/repo" T0 0 None)
              eq_refl eq_refl eq_refl eq_refl eq_refl eq_refl)
    as (_ & _ & H & _).
  exact H.
Defined.

(** X16. When that stop is taken by the daemon instead (the daemon
    answers the probe of the stop and accepts it), the session recorded
    in this process is overwritten without being closed: no entry is
    appended for it, so its time is in no entry of the log; the pulse
    interval armed for it keeps running and no initial pulse is sent. *)
Theorem confirmed_start_drops_segment (env : StartEnv) (options : Options)
    (w : World) (gitRoot branch stopRoot : string) (s : ActiveTracking.t) :
  startGitRoot env = Some gitRoot ->
  daemonAnswers (startProbe env) = false ->
  activeTracking (config w) = Some s ->
  activePulseInterval w <> None ->
  shouldContinue env = Ok true ->
  daemonAnswers (stopProbe (replaceStop env)) = true ->
  stopGitRoot (replaceStop env) = Some stopRoot ->
  isOk (stopViaDaemon (replaceStop env)) = true ->
  localBranch env = Ok branch ->
  let w' := snd (startTracking env options w) in
  fst (startTracking env options w) = Ok tt
  /\ activityLog (config w') = activityLog (config w)
  /\ activeTracking (config w')
     = Some (newSession gitRoot branch env options)
  /\ activePulseInterval w' = activePulseInterval w
  /\ sentBetween w w' = [Daemon CallStop true].
Proof.
  intros Hroot Hdown Hs Hpulse Hyes Hup Hstop Hok Hb. cbv zeta.
  rewrite (startTracking_down gitRoot) by assumption.
  unfold startTrackingLocal, bind.
  rewrite (confirmReplace_confirmed env w s) by assumption.
  unfold stopTracking, bind.
  rewrite stopTrackingDaemon_run, Hup, Hstop, Hok.
  unfold startBranchChecks, stopBranchChecks, scheduleAutoStop, bind.
  cbn -[startPulseSending]. rewrite Hb.
  destruct (activeCheckInterval w); cbn -[startPulseSending];
    rewrite startPulseSending_run; cbn;
    (destruct (activePulseInterval w); [| congruence]); cbn;
    repeat split; unfold sentBetween; cbn; apply skipn_prefix.
Qed.

Lemma confirmed_start_drops_segment_sample :
  activePulseInterval busyWorld <> None
  /\ activityLog
       (config
          (snd (startTracking
                  (mkStartEnv (Some "/repo") noDaemon (Ok "main") (Ok [])
                     (Ok tt) (Ok []) (Ok true)
                     (mkStopEnv liveDaemon (Some "/repo") (Ok tt)
                        (T0 + minutes 60))
                     (Ok "feature/x") (T0 + minutes 60) (Ok tt)
                     (T0 + minutes 60))
                  noOptions busyWorld)))
     = [].
Proof.
  assert (H : activePulseInterval busyWorld <> None) by discriminate.
  split; [exact H |].
  destruct (confirmed_start_drops_segment
              (mkStartEnv (Some "/repo") noDaemon (Ok "main") (Ok [])
                 (Ok tt) (Ok []) (Ok true)
                 (mkStopEnv liveDaemon (Some "/repo") (Ok tt)
                    (T0 + minutes 60))
                 (Ok "feature/x") (T0 + minutes 60) (Ok tt)
                 (T0 + minutes 60))
              noOptions busyWorld "/repo" "feature/x" "/repo"
              (ActiveTracking.mk "main" "/repo" T0 0 None)
              eq_refl eq_refl eq_refl H eq_refl eq_refl eq_refl eq_refl
              eq_refl)
    as (_ & Hlog & _).
  exact Hlog.
Defined.

(** ** More on the sync *)

Lemma world_eta (w : World) :
  mkWorld (config w) (activeCheckInterval w) (activePulseInterval w)
    (autoStopTimer w) (trace w)
  = w.
Proof. now destruct w. Qed.

(** X17. A sync in this process does nothing at all when the API key or
    the Jira account id is missing or empty, and when no unsynced entry
    starts on the date: it returns without a report, nobody is asked for
    an issue id, no request is sent and the world is as before. *)
Theorem sync_without_work (date : string) (env : SyncEnv) (w : World) :
  daemonAnswers (syncProbe env) = false ->
  configured (config w) = false
  \/ filter (dueOn date) (activityLog (config w)) = [] ->
  syncTempo date env w = (Ok None, w).
Proof.
  intros Hd H. rewrite syncTempo_down by exact Hd.
  destruct (configured (config w)) eqn:Hc.
  - destruct H as [H | H]; [discriminate |].
    rewrite syncTempoLocal_run by exact Hc. cbv zeta. rewrite H. cbn.
    rewrite app_nil_r. now rewrite world_eta.
  - now apply syncTempoLocal_unconfigured.
Qed.

Lemma sync_without_work_sample :
  configured
    (config (mkWorld (updateKeys (Some None) None (config twoEntries))
               None None None []))
  = false
  /\ fst (syncTempo "2023-11-14" acceptsOnlyFirst
            (mkWorld (updateKeys (Some None) None (config twoEntries))
               None None None []))
     = Ok None.
Proof.
  split; [reflexivity |].
  rewrite (sync_without_work "2023-11-14" acceptsOnlyFirst
             (mkWorld (updateKeys (Some None) None (config twoEntries))
                None None None [])
             eq_refl (or_introl eq_refl)).
  reflexivity.
Defined.

Lemma settled_kept (date : string) (account : option string) (e : ItemEnv)
    (b : Activity.t) :
  dueOn date b = true ->
  keptBySync date b (settled b (verdict date account e b)).
Proof.
  intros Hdue. pose proof (dueOn_unsynced date b Hdue) as Hs.
  unfold keptBySync.
  destruct (verdict date account e b) as [| | req ok]; cbn.
  - repeat split; auto.
  - repeat split; auto.
  - repeat split; try congruence. intros ->. reflexivity.
Qed.

Lemma kept_refl (date : string) (b : Activity.t) : keptBySync date b b.
Proof. unfold keptBySync. repeat split; auto. Qed.

Lemma syncedLog_kept (date : string) (account : option string)
    (env : nat -> ItemEnv) (log : list Activity.t) :
  forall i, Forall2 (keptBySync date) log (syncedLog date account env i log).
Proof.
  induction log as [| b log IH]; intros i; [constructor |].
  cbn. destruct (dueOn date b) eqn:Hdue; constructor; auto.
  - now apply settled_kept.
  - apply kept_refl.
Qed.

Lemma settle_frame (a : Activity.t) (v : Verdict) (c : Config) :
  apiKey (settle a v c) = apiKey c
  /\ jiraAccountId (settle a v c) = jiraAccountId c
  /\ tempoBaseUrl (settle a v c) = tempoBaseUrl c
  /\ activeTracking (settle a v c) = activeTracking c
  /\ nextId (settle a v c) = nextId c.
Proof.
  destruct v as [| | req ok]; cbn; auto.
  destruct ok, (truthyId (Activity.issueId a)); cbn; auto.
Qed.

Lemma settleAll_frame (l : list Activity.t) :
  forall vs c,
    apiKey (settleAll l vs c) = apiKey c
    /\ jiraAccountId (settleAll l vs c) = jiraAccountId c
    /\ tempoBaseUrl (settleAll l vs c) = tempoBaseUrl c
    /\ activeTracking (settleAll l vs c) = activeTracking c
    /\ nextId (settleAll l vs c) = nextId c.
Proof.
  induction l as [| a l IH]; intros vs c; [cbn; auto |].
  destruct vs as [| v vs]; [cbn; auto |].
  cbn [settleAll].
  destruct (IH vs (settle a v c)) as (H1 & H2 & H3 & H4 & H5).
  destruct (settle_frame a v c) as (G1 & G2 & G3 & G4 & G5).
  repeat split; congruence.
Qed.

(** X18. A sync in this process keeps the activity log in shape: the
    same entries in the same order, each with its id, branch, directory,
    times and description; only the issue id and the synced flag can
    change, an issue id only where there was none, and only for entries
    due on the date, so that an entry that is synced or of another date
    is stored as before.  The session, the keys of the configuration and
    the timers are untouched. *)
Theorem sync_keeps_the_log (date : string) (env : SyncEnv) (w : World) :
  daemonAnswers (syncProbe env) = false ->
  uniqueIds (activityLog (config w)) ->
  let w' := snd (syncTempo date env w) in
  Forall2 (keptBySync date) (activityLog (config w)) (activityLog (config w'))
  /\ activeTracking (config w') = activeTracking (config w)
  /\ apiKey (config w') = apiKey (config w)
  /\ jiraAccountId (config w') = jiraAccountId (config w)
  /\ activeCheckInterval w' = activeCheckInterval w
  /\ activePulseInterval w' = activePulseInterval w
  /\ autoStopTimer w' = autoStopTimer w.
Proof.
  intros Hd Hu. cbv zeta.
  destruct (configured (config w)) eqn:Hc.
  - destruct (syncTempo_closed date env w Hd Hc Hu) as (_ & Hlog & _).
    cbv zeta in Hlog. rewrite Hlog. split; [apply syncedLog_kept |].
    rewrite syncTempo_down by exact Hd.
    rewrite syncTempoLocal_run by exact Hc. cbn.
    match goal with |- context [settleAll ?l ?vs ?c] =>
      destruct (settleAll_frame l vs c) as (H1 & H2 & _ & H4 & _) end.
    repeat split; assumption.
  - rewrite syncTempo_down by exact Hd.
    rewrite syncTempoLocal_unconfigured by exact Hc. cbn.
    repeat split. clear. induction (activityLog (config w)); constructor;
      [apply kept_refl | assumption].
Qed.

Lemma sync_keeps_the_log_sample :
  uniqueIds (activityLog (config twoEntries))
  /\ activeTracking
       (config (snd (syncTempo "2023-11-14" acceptsOnlyFirst twoEntries)))
     = None.
Proof.
  assert (H : uniqueIds (activityLog (config twoEntries))) by unique_ids.
  split; [exact H |].
  destruct (sync_keeps_the_log "2023-11-14" acceptsOnlyFirst twoEntries
              eq_refl H) as (_ & Hs & _).
  exact Hs.
Defined.

Lemma describe_not_empty (a : Activity.t) : describe a <> EmptyString.
Proof.
  unfold describe. destruct (Activity.description a) as [d |]; cbn.
  - destruct (String.eqb_spec d EmptyString); cbn; [discriminate | assumption].
  - discriminate.
Qed.

Lemma verdict_request (date : string) (account : option string) (e : ItemEnv)
    (a : Activity.t) (req : WorklogRequest) (ok : bool) :
  verdict date account e a = Sent req ok ->
  (exists endTime,
      Activity.endTime a = Some endTime
      /\ timeSpentSeconds req
         = durationSeconds (Activity.startTime a) endTime)
  /\ 60 <= timeSpentSeconds req
  /\ startDate req = date
  /\ worklogStartTime req = Date.hhmm (Activity.startTime a)
  /\ worklogDescription req = describe a
  /\ authorAccountId req = account
  /\ ok = isOk (createWorklog e).
Proof.
  unfold verdict, skipped.
  destruct (Activity.endTime a) as [t |]; [| discriminate].
  destruct (Z.ltb_spec (durationSeconds (Activity.startTime a) t) 60)
    as [Hlt | Hge]; [discriminate |].
  destruct (resolveIssueId e a) as [issue | m]; [| discriminate].
  intros E. injection E as <- <-. cbn. repeat split; eauto.
Qed.

(** X19. Over a log of plain times (time values of a [Date], no entry
    longer than 8.64e15 ms, so that the doubles of the source round as
    the integers do here), every worklog request of a sync in this
    process is for an unsynced entry of the log that starts on the date
    and has an end; it carries the duration of the entry rounded to
    whole seconds, at least 60, the date of the sync as start date, the
    hours and minutes of the start of the entry as start time, the
    configured account as author, and a description that is never
    empty: the description of the entry, or "Work on branch: " and its
    branch when the entry has none. *)
Theorem sync_requests_are_well_formed (date : string) (env : SyncEnv)
    (w : World) (a : Activity.t) (req : WorklogRequest) (ok : bool) :
  daemonAnswers (syncProbe env) = false ->
  Forall plainTimes (activityLog (config w)) ->
  In (Worklog a req ok) (sentBetween w (snd (syncTempo date env w))) ->
  In a (activityLog (config w))
  /\ Activity.synced a = false
  /\ prefix date (Date.toISOString (Activity.startTime a)) = true
  /\ (exists endTime,
         Activity.endTime a = Some endTime
         /\ timeSpentSeconds req
            = durationSeconds (Activity.startTime a) endTime)
  /\ 60 <= timeSpentSeconds req
  /\ startDate req = date
  /\ worklogStartTime req = Date.hhmm (Activity.startTime a)
  /\ authorAccountId req = jiraAccountId (config w)
  /\ truthyStr (authorAccountId req) = true
  /\ worklogDescription req <> EmptyString
  /\ worklogDescription req
     = (if truthyStr (Activity.description a) then
          match Activity.description a with
          | Some d => d
          | None => EmptyString
          end
        else "Work on branch: " ++ Activity.branch a)%string.
Proof.
  intros Hd _ Hin. rewrite syncTempo_sent in Hin by exact Hd.
  destruct (configured (config w)) eqn:Hc; [| destruct Hin].
  apply effectsOf_In in Hin. destruct Hin as (k & Hk & Hv).
  apply nth_error_In in Hk. apply filter_In in Hk. destruct Hk as [Ha Hdue].
  apply verdict_request in Hv.
  destruct Hv as (Hend & Hmin & Hdate & Htime & Hdesc & Hacc & _).
  unfold configured in Hc. apply andb_true_iff in Hc. destruct Hc as [_ Hj].
  pose proof (dueOn_unsynced date a Hdue) as Hs.
  unfold dueOn in Hdue. apply andb_true_iff in Hdue. destruct Hdue as [Hp _].
  repeat split; auto.
  - now rewrite Hacc.
  - rewrite Hdesc. apply describe_not_empty.
  - rewrite Hdesc. unfold describe.
    destruct (Activity.description a) as [d |]; [| reflexivity].
    destruct (truthyStr (Some d)); reflexivity.
Qed.

Lemma sync_requests_sample :
  In (Worklog (entryOf 0 (minutes 30) (Some (IdNum 42)))
        (mkWorklog (Some (IdNum 42)) 1800 "2023-11-14" "22:13"
           "Work on branch: main" (Some "account-1"))
        true)
     (sentBetween twoEntries
        (snd (syncTempo "2023-11-14" acceptsOnlyFirst twoEntries)))
  /\ 60 <= 1800.
Proof.
  assert (H : In (Worklog (entryOf 0 (minutes 30) (Some (IdNum 42)))
                    (mkWorklog (Some (IdNum 42)) 1800 "2023-11-14" "22:13"
                       "Work on branch: main" (Some "account-1"))
                    true)
                 (sentBetween twoEntries
                    (snd (syncTempo "2023-11-14" acceptsOnlyFirst
                            twoEntries)))).
  { vm_compute. left. reflexivity. }
  assert (Hp : Forall plainTimes (activityLog (config twoEntries))).
  { assert (Hone : forall id d issue,
              0 <= d <= minutes 60 -> plainTimes (entryOf id d issue)).
    { intros id d issue Hd. unfold plainTimes, entryOf.
      cbn [Activity.startTime Activity.endTime].
      unfold maxTime, minutes, T0 in *. split; [lia |].
      intros endTime E. assert (endTime = 1700000000000 + d) by congruence.
      lia. }
    unfold twoEntries, worldWithLog. cbn [config activityLog].
    apply Forall_cons; [| apply Forall_cons; [| apply Forall_nil]];
      apply Hone; unfold minutes; lia. }
  split; [exact H |].
  destruct (sync_requests_are_well_formed "2023-11-14" acceptsOnlyFirst
              twoEntries _ _ _ eq_refl Hp H) as (_ & _ & _ & _ & Hmin & _).
  exact Hmin.
Defined.

(** ** Status *)

(** X20. [statusTracking] only reads: it never raises and leaves the
    world as it is.  When the daemon answers the probe and reports at
    least one session, the sessions of the daemon are shown and a
    session recorded in this process is not; when the daemon answers but
    reports none, or its status cannot be read, the status of this
    process is shown after the line that announces the daemon. *)
Theorem status_only_reads (env : StatusEnv) (w : World) :
  (exists lines, statusTracking env w = (Ok lines, w))
  /\ (forall s rest,
         daemonAnswers (statusProbe env) = true ->
         statusSessions env = Ok (s :: rest) ->
         fst (statusTracking env w)
         = Ok (LineUsingDaemon :: LineActiveSessions
                 :: flat_map (sessionLines (statusNow env)) (s :: rest))
         /\ forall lines,
              fst (statusTracking env w) = Ok lines ->
              ~ In LineActiveSession lines)
  /\ (daemonAnswers (statusProbe env) = true ->
      statusSessions env = Ok [] \/ isOk (statusSessions env) = false ->
      fst (statusTracking env w)
      = Ok (LineUsingDaemon :: localStatusLines env (config w))).
Proof.
  unfold statusTracking, tryCatch, bind, getConfig.
  rewrite isDaemonRunning_run. cbn.
  split; [| split].
  - destruct (daemonAnswers (statusProbe env));
      [| eexists; reflexivity].
    destruct (statusSessions env) as [[| s rest] | m]; eexists; reflexivity.
  - intros s rest -> ->. cbn. split; [reflexivity |].
    intros lines H. injection H as <-. intros Hin.
    destruct Hin as [Hin | [Hin | Hin]]; try discriminate.
    change (In LineActiveSession
              (flat_map (sessionLines (statusNow env)) (s :: rest))) in Hin.
    apply in_flat_map in Hin. destruct Hin as (x & _ & Hx).
    unfold sessionLines, optionalLine in Hx. cbn in Hx.
    destruct Hx as [Hx | [Hx | [Hx | Hx]]]; try discriminate.
    rewrite !in_app_iff in Hx. destruct Hx as [Hx | [Hx | Hx]].
    + destruct (Session.issueId x); [| destruct Hx].
      destruct (truthyNum (Some z)); [| destruct Hx].
      destruct Hx as [Hx | []]; discriminate.
    + destruct (Session.description x); [| destruct Hx].
      destruct (truthyStr (Some s0)); [| destruct Hx].
      destruct Hx as [Hx | []]; discriminate.
    + destruct Hx as [Hx | []]; discriminate.
  - intros -> [-> | H]; [reflexivity |].
    destruct (statusSessions env); [discriminate | reflexivity].
Qed.

(** X21. The duration shown by the status is the elapsed time rounded to
    the nearest minute, split into hours and minutes: for a start that is
    not in the future the minutes are between 0 and 59, the hours are not
    negative, and hours and minutes together are within half a minute of
    the elapsed time. *)
Theorem status_duration_is_rounded (startTime now : Z) :
  startTime <= now ->
  exists hours minutes,
    durationLine startTime now = LineDuration hours minutes
    /\ 0 <= hours
    /\ 0 <= minutes < 60
    /\ hours * 60 + minutes = roundDiv (now - startTime) 60000
    /\ -30000 < (hours * 60 + minutes) * 60000 - (now - startTime) <= 30000.
Proof.
  intros Hle. unfold durationLine, roundDiv.
  set (m := (2 * (now - startTime) + 60000) / (2 * 60000)).
  assert (Hm : 0 <= m) by (apply Z.div_pos; lia).
  exists (m / 60), (Z.rem m 60). split; [reflexivity |].
  rewrite Z.rem_mod_nonneg by lia.
  pose proof (Z.mod_pos_bound m 60 ltac:(lia)) as Hb.
  pose proof (Z.div_mod m 60 ltac:(lia)) as Hdm.
  split; [apply Z.div_pos; lia |]. split; [exact Hb |].
  split; [lia |].
  replace (m / 60 * 60 + m mod 60) with m by lia.
  pose proof (Z.div_mod (2 * (now - startTime) + 60000) (2 * 60000)
                ltac:(lia)) as Hd.
  pose proof (Z.mod_pos_bound (2 * (now - startTime) + 60000) (2 * 60000)
                ltac:(lia)) as Hr.
  fold m in Hd. lia.
Qed.

Lemma status_duration_sample :
  T0 <= T0 + minutes 90 + 29999
  /\ durationLine T0 (T0 + minutes 90 + 29999) = LineDuration 1 30.
Proof.
  assert (H : T0 <= T0 + minutes 90 + 29999) by (unfold T0, minutes; lia).
  split; [exact H |].
  destruct (status_duration_is_rounded T0 (T0 + minutes 90 + 29999) H)
    as (h & m & Hline & _).
  rewrite Hline. vm_compute in Hline. exact (eq_sym Hline).
Defined.

Example status_duration_of_a_future_start :
  durationLine (T0 + minutes 30) T0 = LineDuration (-1) (-30).
Proof. vm_compute. reflexivity. Qed.

(** ** Listing the log *)

Lemma filter_twice {A} (f g : A -> bool) (l : list A) :
  filter g (filter f l) = filter (fun x => f x && g x) l.
Proof.
  induction l as [| x l IH]; [reflexivity |].
  cbn. destruct (f x); cbn; [destruct (g x) |]; now rewrite IH.
Qed.

Lemma filter_all {A} (l : list A) : filter (fun _ => true) l = l.
Proof. induction l as [| x l IH]; [reflexivity |]. cbn. now rewrite IH. Qed.

Lemma insertNewest_perm (a : Activity.t) (l : list Activity.t) :
  Permutation (insertNewest a l) (a :: l).
Proof.
  induction l as [| b l IH]; [reflexivity |].
  cbn. destruct (Activity.startTime b <=? Activity.startTime a).
  - reflexivity.
  - rewrite IH. apply perm_swap.
Qed.

Lemma newestFirst_perm (l : list Activity.t) : Permutation (newestFirst l) l.
Proof.
  induction l as [| a l IH]; [reflexivity |].
  cbn. rewrite insertNewest_perm. now constructor.
Qed.

Lemma insertNewest_sorted (a : Activity.t) (l : list Activity.t) :
  Sorted newerOrSame l -> Sorted newerOrSame (insertNewest a l).
Proof.
  induction l as [| b l IH]; intros Hs; [repeat constructor |].
  cbn. destruct (Activity.startTime b <=? Activity.startTime a) eqn:Hle.
  - constructor; [exact Hs |]. constructor. unfold newerOrSame. lia.
  - inversion Hs as [| ? ? Hs' Hhd]; subst.
    constructor; [now apply IH |].
    destruct l as [| c l]; cbn.
    + constructor. unfold newerOrSame. lia.
    + destruct (Activity.startTime c <=? Activity.startTime a).
      * constructor. unfold newerOrSame. lia.
      * inversion Hhd; subst. now constructor.
Qed.

Lemma newestFirst_sorted (l : list Activity.t) :
  Sorted newerOrSame (newestFirst l).
Proof.
  induction l as [| a l IH]; [constructor |].
  cbn. now apply insertNewest_sorted.
Qed.

(** One filter of [displayWorklogs]: applied when its option is set. *)
Lemma stage_filter {X} (o : option X) (truthy : option X -> bool)
    (f : X -> Activity.t -> bool) (l : list Activity.t) :
  match o with
  | Some x => if truthy (Some x) then filter (fun a => f x a) l else l
  | None => l
  end
  = filter
      (fun a =>
         if truthy o then
           match o with Some x => f x a | None => true end
         else true)
      l.
Proof.
  destruct o as [x |].
  - destruct (truthy (Some x)); [reflexivity | symmetry; apply filter_all].
  - destruct (truthy None); symmetry; apply filter_all.
Qed.

(** The filters of [displayWorklogs] together. *)
Lemma selectWorklogs_passes (options : Worklogs.Options)
    (log : list Activity.t) :
  selectWorklogs options log
  = match limitOf options with
    | Some n => slice0 n (newestFirst (filter (passes options) log))
    | None => newestFirst (filter (passes options) log)
    end.
Proof.
  unfold selectWorklogs. cbv zeta.
  pose proof (stage_filter (Worklogs.date options) truthyStr
                (fun d a => prefix d (Date.toISOString (Activity.startTime a)))
                log) as H1.
  cbv beta in H1. rewrite H1. clear H1.
  match goal with |- context [filter ?f log] =>
    set (byDate := filter f log) end.
  pose proof (stage_filter (Worklogs.branch options) truthyStr
                (fun b a => includes b (Activity.branch a)) byDate) as H2.
  cbv beta in H2. rewrite H2. clear H2.
  match goal with |- context [filter ?f byDate] =>
    set (byBranch := filter f byDate) end.
  pose proof (stage_filter (Worklogs.issueId options) truthyNum
                (fun n a => isNumber n (Activity.issueId a)) byBranch) as H3.
  cbv beta in H3. rewrite H3. clear H3.
  subst byBranch byDate. rewrite !filter_twice.
  match goal with |- context [filter ?f log] =>
    rewrite (filter_ext f (passes options))
      by (intros a; unfold passes; rewrite ?andb_assoc; reflexivity)
  end.
  set (sorted := newestFirst (filter (passes options) log)).
  clearbody sorted. unfold limitOf.
  destruct (Worklogs.limit options) as [k |],
    (Worklogs.all options) as [[|] |];
    cbn; try destruct (k =? 0); reflexivity.
Qed.

Lemma slice0_split {A} (n : Z) (l : list A) :
  exists rest,
    l = (slice0 n l ++ rest)%list
    /\ (0 < n -> List.length (slice0 n l)
                 = Nat.min (Z.to_nat n) (List.length l))
    /\ (n < 0 -> List.length rest
                 = Nat.min (Z.to_nat (- n)) (List.length l)).
Proof.
  unfold slice0. destruct (0 <=? n) eqn:Hn.
  - exists (skipn (Z.to_nat n) l). split; [now rewrite firstn_skipn |].
    split; [intros _; apply length_firstn | lia].
  - exists (skipn (Z.to_nat (Z.of_nat (List.length l) + n)) l).
    split; [now rewrite firstn_skipn |]. split; [lia |].
    intros _. rewrite length_skipn. lia.
Qed.

(** X22. What [displayWorklogs] lists is the front of the entries that
    pass every filter that is set, put newest first: all of them when no
    limit applies (no limit, limit 0, or [all]), the [n] newest for a
    limit [n > 0]; for a negative limit the [-n] oldest are left
    out.  A filter given as an empty text or as issue 0 does not
    filter. *)
Theorem worklogs_are_the_newest_matches (options : Worklogs.Options)
    (log : list Activity.t) :
  exists older,
    Permutation (selectWorklogs options log ++ older)
      (filter (passes options) log)
    /\ Sorted newerOrSame (selectWorklogs options log ++ older)
    /\ match limitOf options with
       | None => older = []
       | Some n =>
           n <> 0
           /\ (0 < n ->
               List.length (selectWorklogs options log)
               = Nat.min (Z.to_nat n)
                   (List.length (filter (passes options) log)))
           /\ (n < 0 ->
               List.length older
               = Nat.min (Z.to_nat (- n))
                   (List.length (filter (passes options) log)))
       end.
Proof.
  rewrite selectWorklogs_passes.
  pose proof (newestFirst_perm (filter (passes options) log)) as Hp.
  pose proof (newestFirst_sorted (filter (passes options) log)) as Hs.
  destruct (limitOf options) as [n |] eqn:Hl.
  - destruct (slice0_split n (newestFirst (filter (passes options) log)))
      as (rest & Heq & Hpos & Hneg).
    exists rest. rewrite <- Heq.
    rewrite <- (Permutation_length Hp).
    repeat split; auto.
    unfold limitOf in Hl.
    destruct (Worklogs.all options) as [[|] |]; try discriminate;
      destruct (Worklogs.limit options) as [k |]; try discriminate;
      cbn in Hl; destruct (k =? 0) eqn:Hk; try discriminate;
      injection Hl as <-; lia.
  - exists []. rewrite app_nil_r. auto.
Qed.

Example listing_newest_first :
  map Activity.id
    (selectWorklogs
       (Worklogs.mkOptions (Some 2) None (Some "ma") (Some 0) None None)
       [Activity.mk 0 "main" "/repo" T0 (Some (T0 + 5)) None None false;
        Activity.mk 1 "dev" "/repo" (T0 + 10) None None None false;
        Activity.mk 2 "main" "/repo" (T0 + 20) None None None true;
        Activity.mk 3 "feature/main" "/repo" (T0 + 30) None None None true])
  = [3; 2]%nat.
Proof. vm_compute. reflexivity. Qed.

Lemma filter_partition_length {A} (f : A -> bool) (l : list A) :
  (List.length (filter f l) + List.length (filter (fun x => negb (f x)) l)
   = List.length l)%nat.
Proof.
  induction l as [| x l IH]; [reflexivity |].
  cbn. destruct (f x); cbn; lia.
Qed.

Lemma totalDuration_nonneg (now : nat -> Z) (rows : list Activity.t) :
  forall i,
    (forall j entry, nth_error rows j = Some entry ->
                     0 <= spanOf (now (i + j)%nat) entry) ->
    0 <= totalDuration now i rows.
Proof.
  induction rows as [| a rows IH]; intros i H; [cbn; lia |].
  cbn [totalDuration].
  pose proof (H 0%nat a eq_refl) as Ha. rewrite Nat.add_0_r in Ha.
  unfold spanOf in Ha.
  assert (0 <= totalDuration now (S i) rows).
  { apply IH. intros j entry Hj.
    replace (S i + j)%nat with (i + S j)%nat by lia. now apply H. }
  lia.
Qed.

(** X23. The summary under the table belongs to the rows above it: the
    synced and the unsynced count add up to the number of rows, and a
    table is printed only when there is a row.  When no row ends before
    it starts and the spans add up to less than 2^52 ms (where the
    doubles of the source add and divide as the integers do here), the
    printed total is the sum of the spans cut down to whole minutes,
    with fewer than 60 minutes beside the hours. *)
Theorem worklogs_summary (options : Worklogs.Options) (now : nat -> Z)
    (log rows : list Activity.t) (totalHours totalMinutes : Z)
    (syncedLogs unsyncedLogs : nat) :
  displayWorklogs options now log
  = Worklogs.Table rows totalHours totalMinutes syncedLogs unsyncedLogs ->
  rows = selectWorklogs options log
  /\ rows <> []
  /\ (syncedLogs + unsyncedLogs = List.length rows)%nat
  /\ ((forall i entry, nth_error rows i = Some entry ->
                       0 <= spanOf (now i) entry) ->
      totalDuration now 0 rows < 2 ^ 52 ->
      0 <= totalHours
      /\ 0 <= totalMinutes < 60
      /\ (totalHours * 60 + totalMinutes) * 60000
         <= totalDuration now 0 rows
         < (totalHours * 60 + totalMinutes + 1) * 60000).
Proof.
  unfold displayWorklogs.
  destruct (selectWorklogs options log) as [| a l] eqn:Hsel;
    [discriminate |].
  cbn [List.length Nat.eqb].
  change (1000 * 60 * 60) with 3600000. change (1000 * 60) with 60000.
  remember (totalDuration now 0 (a :: l)) as t eqn:Et.
  remember (t / 3600000) as hours eqn:Eh.
  remember (Z.rem t 3600000 / 60000) as mins eqn:Em.
  assert (Htable :
            Worklogs.Table (a :: l) hours mins
              (List.length (filter Activity.synced (a :: l)))
              (List.length
                 (filter (fun log => negb (Activity.synced log)) (a :: l)))
            = Worklogs.Table rows totalHours totalMinutes syncedLogs
                unsyncedLogs ->
            rows = a :: l
            /\ totalHours = hours
            /\ totalMinutes = mins
            /\ syncedLogs = List.length (filter Activity.synced (a :: l))
            /\ unsyncedLogs
               = List.length
                   (filter (fun log => negb (Activity.synced log))
                      (a :: l))).
  { intros H. injection H as <- <- <- <- <-. repeat split. }
  intros H.
  assert (H' : rows = a :: l
               /\ totalHours = hours
               /\ totalMinutes = mins
               /\ syncedLogs = List.length (filter Activity.synced (a :: l))
               /\ unsyncedLogs
                  = List.length
                      (filter (fun log => negb (Activity.synced log))
                         (a :: l))).
  { destruct (Worklogs.format options) as [[|] |];
      [now apply Htable | discriminate H | now apply Htable]. }
  clear H Htable. destruct H' as (-> & -> & -> & -> & ->).
  split; [reflexivity |]. split; [discriminate |].
  split; [apply filter_partition_length |].
  intros Hspans _. rewrite <- Et.
  pose proof (totalDuration_nonneg now (a :: l) 0 Hspans) as Ht.
  rewrite <- Et in Ht. clear Et Hspans.
  subst hours mins.
  rewrite Z.rem_mod_nonneg by lia.
  pose proof (Z.div_mod t 3600000 ltac:(lia)) as E1.
  pose proof (Z.mod_pos_bound t 3600000 ltac:(lia)) as B1.
  pose proof (Z.div_mod (t mod 3600000) 60000 ltac:(lia)) as E2.
  pose proof (Z.mod_pos_bound (t mod 3600000) 60000 ltac:(lia)) as B2.
  pose proof (Z.div_pos t 3600000 Ht ltac:(lia)).
  pose proof (Z.div_pos (t mod 3600000) 60000 ltac:(lia) ltac:(lia)).
  assert (t mod 3600000 / 60000 < 60)
    by (apply Z.div_lt_upper_bound; lia).
  lia.
Qed.

Lemma worklogs_summary_sample :
  displayWorklogs
    (Worklogs.mkOptions None None None None None None) (fun _ => T0)
    (activityLog (config twoEntries))
  = Worklogs.Table (activityLog (config twoEntries)) 1 15 0 2
  /\ (0 + 2 = List.length (activityLog (config twoEntries)))%nat.
Proof.
  assert (E : displayWorklogs
                (Worklogs.mkOptions None None None None None None)
                (fun _ => T0) (activityLog (config twoEntries))
              = Worklogs.Table (activityLog (config twoEntries)) 1 15 0 2)
    by (vm_compute; reflexivity).
  split; [exact E |].
  destruct (worklogs_summary
              (Worklogs.mkOptions None None None None None None)
              (fun _ => T0) (activityLog (config twoEntries))
              (activityLog (config twoEntries)) 1 15 0 2 E)
    as (_ & _ & H & _).
  exact H.
Defined.

(** An entry that ends before it starts turns the total negative. *)
Example total_of_a_negative_span :
  displayWorklogs (Worklogs.mkOptions None None None None None None)
    (fun _ => T0)
    [Activity.mk 0 "main" "/repo" (T0 + minutes 1) None None None false]
  = Worklogs.Table
      [Activity.mk 0 "main" "/repo" (T0 + minutes 1) None None None false]
      (-1) (-1) 0 1.
Proof. vm_compute. reflexivity. Qed.

Lemma selectWorklogs_In (options : Worklogs.Options) (log : list Activity.t)
    (a : Activity.t) :
  In a (selectWorklogs options log) ->
  In a log /\ passes options a = true.
Proof.
  rewrite selectWorklogs_passes. intros H.
  apply filter_In.
  apply (Permutation_in a (newestFirst_perm (filter (passes options) log))).
  destruct (limitOf options) as [n |]; [| exact H].
  destruct (slice0_split n (newestFirst (filter (passes options) log)))
    as (rest & Heq & _).
  rewrite Heq. apply in_or_app. now left.
Qed.

Lemma isNumber_true (n : Z) (v : option JsId) :
  isNumber n v = true -> v = Some (IdNum n).
Proof.
  destruct v as [[m | s] |]; cbn; try discriminate.
  intros H. apply Z.eqb_eq in H. now subst.
Qed.

(** After a sync every entry has the issue id it had, or one typed at
    the prompt, which is stored as text. *)
Lemma syncedLog_issueId (date : string) (account : option string)
    (env : nat -> ItemEnv) (log : list Activity.t) :
  forall i a,
    In a (syncedLog date account env i log) ->
    exists b,
      In b log
      /\ Activity.id b = Activity.id a
      /\ (Activity.issueId a = Activity.issueId b
          \/ exists provided, Activity.issueId a = Some (IdStr provided)).
Proof.
  induction log as [| b log IH]; intros i a H; [destruct H |].
  cbn in H.
  assert (Hrest : forall j, In a (syncedLog date account env j log) ->
            exists b0, In b0 (b :: log)
              /\ Activity.id b0 = Activity.id a
              /\ (Activity.issueId a = Activity.issueId b0
                  \/ exists provided,
                       Activity.issueId a = Some (IdStr provided))).
  { intros j Hj. destruct (IH j a Hj) as (b0 & Hin & Hrest).
    exists b0. split; [now right | exact Hrest]. }
  destruct (dueOn date b).
  - destruct H as [<- | H]; [| now apply (Hrest (S i))].
    exists b. split; [now left |]. split; [now rewrite settled_id |].
    unfold verdict. destruct (skipped b); [now left |].
    unfold resolveIssueId.
    destruct (truthyId (Activity.issueId b)) eqn:Ht; cbn.
    + left. now rewrite Ht.
    + destruct (promptIssueId (typed (env i))) as [s | m].
      * cbn. rewrite Ht. right. now exists s.
      * now left.
  - destruct H as [<- | H]; [| now apply (Hrest i)].
    exists b. split; [now left |]. split; [reflexivity | now left].
Qed.

(** X24. The issue filter of the listing compares with the stored
    number, so what it lists carries exactly that number.  An issue id
    typed at the prompt of the sync is stored as text: after a sync in
    this process the filter lists only entries that had the number
    before the sync, never one that got its issue id at the prompt. *)
Theorem issue_filter_after_sync (date : string) (env : SyncEnv) (w : World)
    (options : Worklogs.Options) (n : Z) (a : Activity.t) :
  daemonAnswers (syncProbe env) = false ->
  uniqueIds (activityLog (config w)) ->
  Worklogs.issueId options = Some n ->
  n <> 0 ->
  In a (selectWorklogs options
          (activityLog (config (snd (syncTempo date env w))))) ->
  Activity.issueId a = Some (IdNum n)
  /\ exists b,
       In b (activityLog (config w))
       /\ Activity.id b = Activity.id a
       /\ Activity.issueId b = Some (IdNum n).
Proof.
  intros Hd Hu Ho Hn Hin.
  apply selectWorklogs_In in Hin. destruct Hin as (Hin & Hp).
  assert (Ha : Activity.issueId a = Some (IdNum n)).
  { unfold passes in Hp. rewrite Ho in Hp.
    apply andb_true_iff in Hp. destruct Hp as (_ & Hp).
    cbn in Hp. apply Z.eqb_neq in Hn. rewrite Hn in Hp. cbn in Hp.
    now apply isNumber_true. }
  split; [exact Ha |].
  destruct (configured (config w)) eqn:Hc.
  - destruct (syncTempo_closed date env w Hd Hc Hu) as (_ & Hlog & _).
    cbv zeta in Hlog. rewrite Hlog in Hin.
    destruct (syncedLog_issueId _ _ _ _ _ _ Hin)
      as (b & Hb & Hid & [Hsame | (s & Hs)]).
    + exists b. repeat split; congruence.
    + congruence.
  - rewrite syncTempo_down in Hin by exact Hd.
    rewrite syncTempoLocal_unconfigured in Hin by exact Hc.
    exists a. repeat split; assumption.
Qed.

Lemma issue_filter_after_sync_sample :
  map Activity.id
    (selectWorklogs
       (Worklogs.mkOptions None None None (Some 42) None None)
       (activityLog
          (config
             (snd (syncTempo "2023-11-14" (localSync (fun _ => accepted))
                     (worldWithLog
                        [entryOf 0 (minutes 30) (Some (IdNum 0));
                         entryOf 1 (minutes 45) (Some (IdNum 42))]))))))
  = [1%nat]
  /\ exists b,
       In b [entryOf 0 (minutes 30) (Some (IdNum 0));
             entryOf 1 (minutes 45) (Some (IdNum 42))]
       /\ Activity.id b = 1%nat
       /\ Activity.issueId b = Some (IdNum 42).
Proof.
  split; [vm_compute; reflexivity |].
  assert (Hu : uniqueIds
                 (activityLog
                    (config
                       (worldWithLog
                          [entryOf 0 (minutes 30) (Some (IdNum 0));
                           entryOf 1 (minutes 45) (Some (IdNum 42))]))))
    by unique_ids.
  assert (Hn : 42 <> 0) by lia.
  destruct (issue_filter_after_sync "2023-11-14"
              (localSync (fun _ => accepted))
              (worldWithLog
                 [entryOf 0 (minutes 30) (Some (IdNum 0));
                  entryOf 1 (minutes 45) (Some (IdNum 42))])
              (Worklogs.mkOptions None None None (Some 42) None None) 42
              (Activity.mk 1 "main" "/repo" T0 (Some (T0 + minutes 45))
                 (Some (IdNum 42)) None true)
              eq_refl Hu eq_refl Hn)
    as (_ & H).
  - vm_compute. left. reflexivity.
  - exact H.
Defined.

(** ** Clearing the log and the configuration commands *)

Lemma selectWorklogs_nil (options : Worklogs.Options) :
  selectWorklogs options [] = [].
Proof.
  rewrite selectWorklogs_passes. cbn.
  destruct (limitOf options) as [n |]; [| reflexivity].
  unfold slice0. destruct (0 <=? n); apply firstn_nil.
Qed.

(** X25. Clearing the log never raises, also when the prompt fails, and
    deletes only on a confirmation: without one the world stays as it
    is.  After a confirmed clear the log is empty, so that every listing
    finds no worklogs, while the recorded session, the keys and the
    timers are as before. *)
Theorem clearing_needs_confirmation (confirmClear : Result bool)
    (w : World) :
  let w' := snd (clearLogsCommand confirmClear w) in
  fst (clearLogsCommand confirmClear w) = Ok tt
  /\ (confirmClear <> Ok true -> w' = w)
  /\ (confirmClear = Ok true ->
      activityLog (config w') = []
      /\ forall options now,
           displayWorklogs options now (activityLog (config w'))
           = Worklogs.NoWorklogs)
  /\ activeTracking (config w') = activeTracking (config w)
  /\ apiKey (config w') = apiKey (config w)
  /\ jiraAccountId (config w') = jiraAccountId (config w)
  /\ activeCheckInterval w' = activeCheckInterval w
  /\ activePulseInterval w' = activePulseInterval w
  /\ autoStopTimer w' = autoStopTimer w
  /\ trace w' = trace w.
Proof.
  cbv zeta.
  assert (Hshow : forall log, log = [] ->
            forall options now,
              displayWorklogs options now log = Worklogs.NoWorklogs).
  { intros log -> options now. unfold displayWorklogs.
    now rewrite selectWorklogs_nil. }
  destruct w as [c ci pi ast tr].
  unfold clearLogsCommand, tryCatch, bind, getConfig, await, onConfig.
  cbn [config].
  destruct (activityLog c) as [| a log] eqn:Hlog; cbn.
  - rewrite Hlog. repeat split; auto.
  - destruct confirmClear as [[|] | m]; cbn; rewrite ?Hlog;
      repeat split; auto; try congruence; discriminate.
Qed.

Lemma clearing_needs_confirmation_sample :
  Thrown "closed" <> Ok true
  /\ snd (clearLogsCommand (Thrown "closed") twoEntries) = twoEntries.
Proof.
  assert (H : @Thrown bool "closed" <> Ok true) by discriminate.
  split; [exact H |].
  destruct (clearing_needs_confirmation (Thrown "closed") twoEntries)
    as (_ & Hkeep & _).
  exact (Hkeep H).
Defined.

Lemma not_blank_truthy (value : string) :
  isBlank value = false -> truthyStr (Some value) = true.
Proof. destruct value; [discriminate | reflexivity]. Qed.

(** X26. [setJiraAccountIdCommand] never stores a blank account id: a
    value that is empty or only white space is not written, it removes
    the stored id when the user confirms the deletion and changes
    nothing otherwise, and a failing prompt is raised.  Any other value
    is stored as typed, without trimming.  So an id that is not blank
    stays not blank, and only the account id in the store changes. *)
Theorem blank_account_id_is_never_stored (id : string)
    (shouldDelete : Result bool) (w : World) :
  let w' := snd (setJiraAccountIdCommand id shouldDelete w) in
  (isBlank id = false ->
   fst (setJiraAccountIdCommand id shouldDelete w) = Ok tt
   /\ jiraAccountId (config w') = Some id
   /\ configured (config w') = truthyStr (apiKey (config w)))
  /\ (isBlank id = true ->
      match shouldDelete with
      | Ok true =>
          fst (setJiraAccountIdCommand id shouldDelete w) = Ok tt
          /\ jiraAccountId (config w') = None
          /\ configured (config w') = false
      | Ok false =>
          fst (setJiraAccountIdCommand id shouldDelete w) = Ok tt /\ w' = w
      | Thrown m =>
          fst (setJiraAccountIdCommand id shouldDelete w) = Thrown m
          /\ w' = w
      end)
  /\ ((forall s, jiraAccountId (config w) = Some s -> isBlank s = false) ->
      forall s, jiraAccountId (config w') = Some s -> isBlank s = false)
  /\ apiKey (config w') = apiKey (config w)
  /\ activeTracking (config w') = activeTracking (config w)
  /\ activityLog (config w') = activityLog (config w)
  /\ trace w' = trace w.
Proof.
  cbv zeta. destruct w as [c ci pi ast tr].
  unfold setJiraAccountIdCommand, handleConfigDeletionPrompt, bind, await,
    onConfig, ret.
  destruct (isBlank id) eqn:Hb.
  - destruct shouldDelete as [[|] | m]; cbn;
      (split; [discriminate |]); (split; [intros _ |]);
      repeat split; auto; try discriminate.
    unfold configured. cbn. apply andb_false_r.
  - cbn. split.
    + intros _. split; [reflexivity |]. split; [reflexivity |].
      unfold configured. cbn [config apiKey jiraAccountId updateKeys].
      rewrite (not_blank_truthy id Hb). apply andb_true_r.
    + split; [discriminate |]. split; [| repeat split].
      intros _ s E. injection E as <-. exact Hb.
Qed.

Lemma blank_account_id_sample :
  isBlank "  " = true
  /\ jiraAccountId
       (config (snd (setJiraAccountIdCommand "  " (Ok true) twoEntries)))
     = None.
Proof.
  split; [reflexivity |].
  destruct (blank_account_id_is_never_stored "  " (Ok true) twoEntries)
    as (_ & H & _).
  destruct (H eq_refl) as (_ & Hid & _).
  exact Hid.
Defined.

Lemma promptRequired_In (inputs : list string) (s : string) :
  promptRequired inputs = Ok s -> In s inputs.
Proof.
  unfold promptRequired.
  induction inputs as [| input more IH]; [discriminate |].
  cbn. destruct (validate input).
  - intros E. injection E as <-. now left.
  - intros E. right. now apply IH.
Qed.

(** X27. [setupCommand] stores both keys or nothing: when both prompts
    are answered the store holds the two answers, each one of the
    inputs typed and not empty, so that the store is configured; when
    either prompt is abandoned the command raises and the world is as
    before, also when the API key was already typed.  The session and
    the log are not touched. *)
Theorem setup_stores_both_or_nothing (typedApiKey typedAccountId : list string)
    (w : World) :
  let w' := snd (setupCommand typedApiKey typedAccountId w) in
  match promptRequired typedApiKey, promptRequired typedAccountId with
  | Ok key, Ok account =>
      fst (setupCommand typedApiKey typedAccountId w) = Ok tt
      /\ apiKey (config w') = Some key
      /\ jiraAccountId (config w') = Some account
      /\ In key typedApiKey
      /\ In account typedAccountId
      /\ configured (config w') = true
  | _, _ =>
      isOk (fst (setupCommand typedApiKey typedAccountId w)) = false
      /\ w' = w
  end
  /\ activeTracking (config w') = activeTracking (config w)
  /\ activityLog (config w') = activityLog (config w)
  /\ trace w' = trace w.
Proof.
  cbv zeta. destruct w as [c ci pi ast tr].
  unfold setupCommand, bind, await, onConfig.
  destruct (promptRequired typedApiKey) as [key | m] eqn:Ek;
    [| repeat split].
  destruct (promptRequired typedAccountId) as [account | m] eqn:Ea;
    [| repeat split].
  cbn. repeat split.
  - now apply promptRequired_In.
  - now apply promptRequired_In.
  - unfold configured. cbn.
    apply promptIssueId_valid in Ek, Ea.
    destruct key; [congruence |]. destruct account; [congruence |].
    reflexivity.
Qed.

(** The prompts of the setup only refuse the empty input: an account id
    of white space, which [setJiraAccountIdCommand] refuses, is
    stored. *)
Example setup_accepts_white_space :
  jiraAccountId
    (config (snd (setupCommand ["key"] [EmptyString; " "] idleWorld)))
  = Some " ".
Proof. reflexivity. Qed.

(** X28. [setApiKeyCommand] stores any key, also the empty one, and
    nothing else changes.  With an empty key the store is not
    configured: a pulse returns without a request, and so does a sync
    in this process, whatever the log holds. *)
Theorem empty_api_key_turns_tempo_off (key : string) (w : World) :
  let w' := snd (setApiKeyCommand key w) in
  fst (setApiKeyCommand key w) = Ok tt
  /\ apiKey (config w') = Some key
  /\ jiraAccountId (config w') = jiraAccountId (config w)
  /\ activeTracking (config w') = activeTracking (config w)
  /\ activityLog (config w') = activityLog (config w)
  /\ trace w' = trace w
  /\ (key = EmptyString ->
      forall remote date env,
        sendPulse remote w' = (Ok tt, w')
        /\ (daemonAnswers (syncProbe env) = false ->
            syncTempo date env w' = (Ok None, w'))).
Proof.
  cbv zeta. destruct w as [c ci pi ast tr].
  unfold setApiKeyCommand, onConfig. cbn [fst snd].
  do 6 (split; [reflexivity |]).
  intros -> remote date env. split.
  - rewrite sendPulse_run. unfold pulseEffects. cbn.
    now rewrite app_nil_r.
  - intros Hd. rewrite syncTempo_down by exact Hd.
    now apply syncTempoLocal_unconfigured.
Qed.

Lemma empty_api_key_sample :
  fst (syncTempo "2023-11-14" acceptsOnlyFirst
         (snd (setApiKeyCommand EmptyString twoEntries)))
  = Ok None.
Proof.
  destruct (empty_api_key_turns_tempo_off EmptyString twoEntries)
    as (_ & _ & _ & _ & _ & _ & H).
  destruct (H eq_refl (Ok tt) "2023-11-14" acceptsOnlyFirst) as (_ & Hs).
  rewrite (Hs eq_refl). reflexivity.
Defined.

(** ** Commands with error handling *)

Lemma tryCatch_never_raises {A} (c : M A) (a : A) (w : World) :
  exists r w', tryCatch c (fun _ => ret a) w = (Ok r, w').
Proof.
  unfold tryCatch. destruct (c w) as [[r | m] w']; eauto.
  unfold ret. eauto.
Qed.

(** X29. With a store that can be read and written, [stopTracking]
    never raises, whatever the daemon and git answer: a failure of the
    daemon is caught inside it and the stop in this process awaits
    nothing else that can fail, so the handler of
    [stopTrackingWithErrorHandling] has nothing to catch and the wrapper
    does what the command does.  [startTrackingWithErrorHandling] never
    raises either and keeps what the start wrote before it failed. *)
Theorem stop_never_raises (env : StopEnv) (start : StartEnv)
    (options : Options) (w : World) :
  fst (stopTracking env w) = Ok tt
  /\ stopTrackingWithErrorHandling env w = stopTracking env w
  /\ fst (startTrackingWithErrorHandling start options w) = Ok tt
  /\ snd (startTrackingWithErrorHandling start options w)
     = snd (startTracking start options w).
Proof.
  assert (Hstop : fst (stopTracking env w) = Ok tt).
  { unfold stopTracking, bind, stopTrackingDaemon.
    match goal with |- context [tryCatch ?c _ w] =>
      destruct (tryCatch_never_raises c false w) as (r & w' & E) end.
    rewrite E. destruct r; [reflexivity |].
    now rewrite stopTrackingLocal_run. }
  split; [exact Hstop |]. split.
  - unfold stopTrackingWithErrorHandling, withErrorHandling, tryCatch.
    destruct (stopTracking env w) as [[[] | m] w']; [reflexivity |].
    discriminate.
  - unfold startTrackingWithErrorHandling, withErrorHandling, tryCatch.
    destruct (startTracking start options w) as [[[] | m] w']; split;
      reflexivity.
Qed.
